(** * Battery measurement module (source/modules/m_batt_meas.c)

    A shallow embedding of the battery measurement module: the state-of-charge
    lookup, the raw-code-to-millivolt conversion (with its binary32/binary64
    arithmetic), parameter validation, the SAADC interrupt handler, the
    deferred (main context) event handler, the periodic tick handler and the
    blocking offset calibration.

    Conventions.
    - C integers are [Z]; a conversion to a narrower type is written out
      ([to_uint16], [to_int16], [to_uint32]).  Integer division is C's
      (truncation towards zero, [Z.quot]).
    - [float] is IEEE-754 binary32 and [double] binary64, both computed with
      the Standard Library's executable specification ([SpecFloat]), rounding
      to nearest even.
    - The statics of the translation unit and the state of the collaborators
      the module calls (SAADC driver, scheduler queue, battery service, the
      registered event handler) are fields of one record, [world], threaded
      through a small monad whose outcomes are: normal return, the fatal
      application error handler ([APP_ERROR_CHECK] / [APP_ERROR_HANDLER]),
      C undefined behaviour, and, for the one unbounded loop, running out of
      the fuel the loop was given. *)

From Stdlib Require Import ZArith List Lia Bool.
From Stdlib Require Import Floats.SpecFloat.
From Stdlib Require QArith Qround Qabs.
Import ListNotations.

Local Open Scope Z_scope.

(* ------------------------------------------------------------------ *)
(** ** C integer conversions *)

Module CInt.

Definition UINT16_MAX : Z := 65535.
Definition INT16_MAX  : Z := 32767.

(** Conversion to an unsigned type: reduction modulo 2^width. *)
Definition to_uint16 (z : Z) : Z := z mod 2 ^ 16.
Definition to_uint32 (z : Z) : Z := z mod 2 ^ 32.

(** Conversion to [int16_t]: implementation-defined when the value does not
    fit; GCC and the ARM compilers reduce modulo 2^16 into the signed range. *)
Definition to_int16 (z : Z) : Z := (z + 2 ^ 15) mod 2 ^ 16 - 2 ^ 15.

(** Reading [a[i]] from an array of known extent; an index outside it is
    undefined behaviour. *)
Definition array_get {A : Type} (a : list A) (i : Z) : option A :=
  if i <? 0 then None else nth_error a (Z.to_nat i).

End CInt.
Import CInt.

(* ------------------------------------------------------------------ *)
(** ** IEEE-754 arithmetic of [float] and [double] *)

Module CFloat.

(** [float]: binary32 (24-bit significand, infinities at exponent 128).
    [double]: binary64 (53-bit significand, infinities at exponent 1024). *)
Definition f32_div : spec_float -> spec_float -> spec_float := SFdiv 24 128.
Definition f32_mul : spec_float -> spec_float -> spec_float := SFmul 24 128.
Definition f64_div : spec_float -> spec_float -> spec_float := SFdiv 53 1024.
Definition f64_mul : spec_float -> spec_float -> spec_float := SFmul 53 1024.

(** Integer to floating conversion, rounded to nearest even. *)
Definition f32_of_Z (z : Z) : spec_float := binary_normalize 24 128 z 0 false.
Definition f64_of_Z (z : Z) : spec_float := binary_normalize 53 1024 z 0 false.

(** [float] to [double] (exact) and [double] to [float] (rounded). *)
Definition f64_of_f32 (x : spec_float) : spec_float :=
  match x with
  | S754_finite s m e => binary_round 53 1024 s m e
  | _ => x
  end.

Definition f32_of_f64 (x : spec_float) : spec_float :=
  match x with
  | S754_finite s m e => binary_round 24 128 s m e
  | _ => x
  end.

(** The integral part of a finite value (the fraction is discarded). *)
Definition trunc (x : spec_float) : option Z :=
  match x with
  | S754_zero _ => Some 0
  | S754_finite s m e =>
      let a := if 0 <=? e then Zpos m * 2 ^ e else Zpos m / 2 ^ (- e) in
      Some (if s then - a else a)
  | S754_infinity _ | S754_nan => None
  end.

(** The cast [(uint16_t) x] of a floating value: defined only when the
    integral part is representable (C11 6.3.1.4). *)
Definition f32_to_uint16 (x : spec_float) : option Z :=
  match trunc x with
  | Some t => if (0 <=? t) && (t <=? UINT16_MAX) then Some t else None
  | None => None
  end.


End CFloat.
Import CFloat.

(* ------------------------------------------------------------------ *)
(** ** Constants of the SDK and of the module's header *)

(** Error codes of the SDK (nrf_error.h, ble_err.h). *)
Definition NRF_SUCCESS                       : Z := 0.
Definition NRF_ERROR_NO_MEM                  : Z := 4.
Definition NRF_ERROR_INVALID_STATE           : Z := 8.
Definition NRF_ERROR_NULL                    : Z := 14.
Definition NRF_ERROR_BUSY                    : Z := 17.
Definition BLE_ERROR_GATTS_SYS_ATTR_MISSING  : Z := 13313.

(** Modelled from the spec: m_batt_meas.h is not among the sources; the two
    status codes the module returns are its enumeration's first two values
    (success is the SDK's success, so that [APP_ERROR_CHECK] accepts it). *)
Definition M_BATT_STATUS_CODE_SUCCESS        : Z := 0.
Definition M_BATT_STATUS_CODE_INVALID_PARAM  : Z := 1.

(** Gain register values (nrf_saadc_gain_t). *)
Definition NRF_SAADC_GAIN1_6 : Z := 0.
Definition NRF_SAADC_GAIN1_5 : Z := 1.
Definition NRF_SAADC_GAIN1_4 : Z := 2.
Definition NRF_SAADC_GAIN1_3 : Z := 3.
Definition NRF_SAADC_GAIN1_2 : Z := 4.
Definition NRF_SAADC_GAIN1   : Z := 5.
Definition NRF_SAADC_GAIN2   : Z := 6.
Definition NRF_SAADC_GAIN4   : Z := 7.

(** The module's own configuration macros. *)
Definition ADC_GAIN : Z := NRF_SAADC_GAIN1.
(** 0.6f: the binary32 value nearest to 6/10. *)
Definition ADC_REFERENCE_VOLTAGE : spec_float := S754_finite false 10066330 (-24).
Definition INVALID_BATTERY_LEVEL : Z := 255.

(* ------------------------------------------------------------------ *)
(** ** Data model *)

(** Modelled from the spec: the structure declarations of m_batt_meas.h are
    not among the sources.  The records below carry the fields m_batt_meas.c
    reads, with the widths of the spec's data model (resistances [uint32_t];
    thresholds, table origin, step and length [uint16_t]; levels [uint8_t]). *)
Record batt_meas_state_of_charge_t := {
  num_elements     : Z;
  first_element_mv : Z;
  delta_mv         : Z;
  voltage_to_soc   : list Z
}.

Record batt_meas_voltage_divider_t := {
  r_1_ohm : Z;
  r_2_ohm : Z
}.

Record batt_meas_param_t := {
  batt_mon_en_pin_used    : bool;
  batt_mon_en_pin_no      : Z;
  adc_pin_no              : Z;
  adc_pin_no_ain          : Z;
  batt_voltage_limit_low  : Z;
  batt_voltage_limit_full : Z;
  state_of_charge         : batt_meas_state_of_charge_t;
  voltage_divider         : batt_meas_voltage_divider_t
}.

Inductive m_batt_meas_event_type_t :=
  | M_BATT_MEAS_EVENT_DATA
  | M_BATT_MEAS_EVENT_LOW
  | M_BATT_MEAS_EVENT_FULL.

Record m_batt_meas_event_t := {
  type          : m_batt_meas_event_type_t;
  voltage_mv    : Z;
  level_percent : Z;
  valid_voltage : bool
}.

(** A registered event handler is identified by its address. *)
Definition m_batt_meas_event_handler_t := Z.

Record batt_meas_init_t := {
  evt_handler     : option m_batt_meas_event_handler_t;   (* [None]: NULL *)
  batt_meas_param : batt_meas_param_t
}.

(** The value ranges of the fields' C types. *)
Definition soc_in_range (t : batt_meas_state_of_charge_t) : Prop :=
  0 <= num_elements t <= UINT16_MAX /\
  0 <= first_element_mv t <= UINT16_MAX /\
  0 <= delta_mv t <= UINT16_MAX /\
  Z.of_nat (length (voltage_to_soc t)) = num_elements t.

(* ------------------------------------------------------------------ *)
(** ** Pure functions of the module *)

(** [adc_gain_enum_to_real_gain]: the status code and, when a case matched,
    the value stored through [real_val]. *)
Definition adc_gain_enum_to_real_gain (gain_reg : Z) : Z * option spec_float :=
  if gain_reg =? NRF_SAADC_GAIN1_6 then
    (M_BATT_STATUS_CODE_SUCCESS, Some (f32_div (f32_of_Z 1) (f32_of_Z 6)))
  else if gain_reg =? NRF_SAADC_GAIN1_5 then
    (M_BATT_STATUS_CODE_SUCCESS, Some (f32_div (f32_of_Z 1) (f32_of_Z 5)))
  else if gain_reg =? NRF_SAADC_GAIN1_4 then
    (M_BATT_STATUS_CODE_SUCCESS, Some (f32_div (f32_of_Z 1) (f32_of_Z 4)))
  else if gain_reg =? NRF_SAADC_GAIN1_3 then
    (M_BATT_STATUS_CODE_SUCCESS, Some (f32_div (f32_of_Z 1) (f32_of_Z 3)))
  else if gain_reg =? NRF_SAADC_GAIN1_2 then
    (M_BATT_STATUS_CODE_SUCCESS, Some (f32_div (f32_of_Z 1) (f32_of_Z 2)))
  else if gain_reg =? NRF_SAADC_GAIN1 then
    (M_BATT_STATUS_CODE_SUCCESS, Some (f32_of_Z 1))
  else if gain_reg =? NRF_SAADC_GAIN2 then
    (M_BATT_STATUS_CODE_SUCCESS, Some (f32_of_Z 2))
  else if gain_reg =? NRF_SAADC_GAIN4 then
    (M_BATT_STATUS_CODE_SUCCESS, Some (f32_of_Z 3))
  else
    (M_BATT_STATUS_CODE_INVALID_PARAM, None).

(** [batt_voltage_to_percent]: the level stored through
    [battery_level_percent]; [None] is undefined behaviour (division by zero,
    or a read outside the table).  The subtraction and the division are done
    in [int]; the quotient is then stored in an [int16_t]. *)
Definition batt_voltage_to_percent
    (m_batt_meas_param : batt_meas_param_t) (voltage_mv : Z) : option Z :=
  let soc := state_of_charge m_batt_meas_param in
  if delta_mv soc =? 0 then None
  else
    let soc_vector_element :=
      to_int16 (Z.quot (voltage_mv - first_element_mv soc) (delta_mv soc)) in
    let soc_vector_element :=
      if soc_vector_element <? 0 then 0
      else if soc_vector_element >? num_elements soc - 1
           then to_int16 (num_elements soc - 1)
           else soc_vector_element in
    array_get (voltage_to_soc soc) soc_vector_element.

(** The lookup as the specification words it: floor division, clamp of the
    index to [0, num_elements - 1], read of the level at that index. *)
Definition voltage_to_percent_spec
    (table : batt_meas_state_of_charge_t) (voltage_mv : Z) : option Z :=
  let index := (voltage_mv - first_element_mv table) / delta_mv table in
  let index := Z.max 0 (Z.min index (num_elements table - 1)) in
  nth_error (voltage_to_soc table) (Z.to_nat index).

(** The conversion as the specification words it, in exact rational
    arithmetic: [v = code / ((gain / vref) * 2^resolution_bits)], then
    [round_to_nearest_10 (v / divider_factor * 1000)], where rounding adds 5
    and truncates to tens. *)
Module Spec.
Import QArith_base.





End Spec.

(* ------------------------------------------------------------------ *)
(** ** The collaborators' state *)

(** The control block of the SAADC driver (nrf_drv_saadc), as far as the
    module can observe it: whether the driver is initialised, what the
    converter is doing, whether a second buffer is queued, and whether the
    SAMPLE task has been triggered for the armed buffer. *)
Inductive nrf_saadc_state_t :=
  | NRF_SAADC_STATE_IDLE
  | NRF_SAADC_STATE_BUSY
  | NRF_SAADC_STATE_CALIBRATION.

Record nrf_drv_saadc_cb_t := {
  drv_initialized    : bool;
  adc_state          : nrf_saadc_state_t;
  secondary_buffer   : bool;
  sample_triggered   : bool
}.

Definition saadc_uninitialized : nrf_drv_saadc_cb_t :=
  {| drv_initialized := false; adc_state := NRF_SAADC_STATE_IDLE;
     secondary_buffer := false; sample_triggered := false |}.

(** The events the driver passes to the registered handler; a DONE event
    carries the sample [data.done.p_buffer] points to (an [int16_t]). *)
Inductive nrf_drv_saadc_evt_t :=
  | NRF_DRV_SAADC_EVT_DONE (p_buffer : Z)
  | NRF_DRV_SAADC_EVT_LIMIT
  | NRF_DRV_SAADC_EVT_CALIBRATEDONE.

(** Calls the module makes to its collaborators, in the order made. *)
Inductive call :=
  | nrf_drv_saadc_init_called
  | nrf_drv_saadc_channel_init_called
  | nrf_drv_saadc_buffer_convert_called
  | nrf_drv_saadc_sample_called
  | nrf_drv_saadc_calibrate_offset_called
  | nrf_drv_saadc_uninit_called
  | app_sched_event_put_called (voltage : Z)
  | ble_bas_battery_level_update_called (battery_level : Z)
  | m_evt_handler_called (handler : m_batt_meas_event_handler_t)
                         (evt : m_batt_meas_event_t)
  | nrf_drv_gpiote_out_init_called (pin : Z)
  | nrf_gpio_cfg_input_called (pin : Z).

Record world := {
  (* statics of m_batt_meas.c *)
  m_evt_handler                : option m_batt_meas_event_handler_t;
  m_batt_meas_param            : batt_meas_param_t;
  m_battery_divider_factor     : spec_float;
  m_buffer                     : Z;
  m_adc_cal_in_progress        : bool;
  m_ble_bas_configured         : bool;
  m_initial_batt_level_percent : Z;
  (* collaborators *)
  saadc            : nrf_drv_saadc_cb_t;
  sched_queue      : list Z;       (* payloads queued for batt_event_handler_adc *)
  sched_queue_size : Z;            (* capacity given to the scheduler *)
  bas_status       : Z;            (* what the battery service answers an update *)
  gpiote_status    : Z;            (* what nrf_drv_gpiote_out_init answers *)
  cal_latency      : option nat;   (* polls until CALIBRATEDONE is raised;
                                      [None]: the converter never raises it *)
  calls            : list call
}.

Definition set_m_evt_handler (h : option m_batt_meas_event_handler_t) (w : world) :=
  {| m_evt_handler := h; m_batt_meas_param := m_batt_meas_param w;
     m_battery_divider_factor := m_battery_divider_factor w;
     m_buffer := m_buffer w; m_adc_cal_in_progress := m_adc_cal_in_progress w;
     m_ble_bas_configured := m_ble_bas_configured w;
     m_initial_batt_level_percent := m_initial_batt_level_percent w;
     saadc := saadc w; sched_queue := sched_queue w;
     sched_queue_size := sched_queue_size w; bas_status := bas_status w;
     gpiote_status := gpiote_status w; cal_latency := cal_latency w;
     calls := calls w |}.

Definition set_m_batt_meas_param (p : batt_meas_param_t) (w : world) :=
  {| m_evt_handler := m_evt_handler w; m_batt_meas_param := p;
     m_battery_divider_factor := m_battery_divider_factor w;
     m_buffer := m_buffer w; m_adc_cal_in_progress := m_adc_cal_in_progress w;
     m_ble_bas_configured := m_ble_bas_configured w;
     m_initial_batt_level_percent := m_initial_batt_level_percent w;
     saadc := saadc w; sched_queue := sched_queue w;
     sched_queue_size := sched_queue_size w; bas_status := bas_status w;
     gpiote_status := gpiote_status w; cal_latency := cal_latency w;
     calls := calls w |}.

Definition set_m_battery_divider_factor (f : spec_float) (w : world) :=
  {| m_evt_handler := m_evt_handler w; m_batt_meas_param := m_batt_meas_param w;
     m_battery_divider_factor := f;
     m_buffer := m_buffer w; m_adc_cal_in_progress := m_adc_cal_in_progress w;
     m_ble_bas_configured := m_ble_bas_configured w;
     m_initial_batt_level_percent := m_initial_batt_level_percent w;
     saadc := saadc w; sched_queue := sched_queue w;
     sched_queue_size := sched_queue_size w; bas_status := bas_status w;
     gpiote_status := gpiote_status w; cal_latency := cal_latency w;
     calls := calls w |}.

Definition set_m_buffer (v : Z) (w : world) :=
  {| m_evt_handler := m_evt_handler w; m_batt_meas_param := m_batt_meas_param w;
     m_battery_divider_factor := m_battery_divider_factor w;
     m_buffer := v; m_adc_cal_in_progress := m_adc_cal_in_progress w;
     m_ble_bas_configured := m_ble_bas_configured w;
     m_initial_batt_level_percent := m_initial_batt_level_percent w;
     saadc := saadc w; sched_queue := sched_queue w;
     sched_queue_size := sched_queue_size w; bas_status := bas_status w;
     gpiote_status := gpiote_status w; cal_latency := cal_latency w;
     calls := calls w |}.

Definition set_m_adc_cal_in_progress (b : bool) (w : world) :=
  {| m_evt_handler := m_evt_handler w; m_batt_meas_param := m_batt_meas_param w;
     m_battery_divider_factor := m_battery_divider_factor w;
     m_buffer := m_buffer w; m_adc_cal_in_progress := b;
     m_ble_bas_configured := m_ble_bas_configured w;
     m_initial_batt_level_percent := m_initial_batt_level_percent w;
     saadc := saadc w; sched_queue := sched_queue w;
     sched_queue_size := sched_queue_size w; bas_status := bas_status w;
     gpiote_status := gpiote_status w; cal_latency := cal_latency w;
     calls := calls w |}.

Definition set_m_initial_batt_level_percent (v : Z) (w : world) :=
  {| m_evt_handler := m_evt_handler w; m_batt_meas_param := m_batt_meas_param w;
     m_battery_divider_factor := m_battery_divider_factor w;
     m_buffer := m_buffer w; m_adc_cal_in_progress := m_adc_cal_in_progress w;
     m_ble_bas_configured := m_ble_bas_configured w;
     m_initial_batt_level_percent := v;
     saadc := saadc w; sched_queue := sched_queue w;
     sched_queue_size := sched_queue_size w; bas_status := bas_status w;
     gpiote_status := gpiote_status w; cal_latency := cal_latency w;
     calls := calls w |}.

Definition set_saadc (s : nrf_drv_saadc_cb_t) (w : world) :=
  {| m_evt_handler := m_evt_handler w; m_batt_meas_param := m_batt_meas_param w;
     m_battery_divider_factor := m_battery_divider_factor w;
     m_buffer := m_buffer w; m_adc_cal_in_progress := m_adc_cal_in_progress w;
     m_ble_bas_configured := m_ble_bas_configured w;
     m_initial_batt_level_percent := m_initial_batt_level_percent w;
     saadc := s; sched_queue := sched_queue w;
     sched_queue_size := sched_queue_size w; bas_status := bas_status w;
     gpiote_status := gpiote_status w; cal_latency := cal_latency w;
     calls := calls w |}.

Definition set_sched_queue (q : list Z) (w : world) :=
  {| m_evt_handler := m_evt_handler w; m_batt_meas_param := m_batt_meas_param w;
     m_battery_divider_factor := m_battery_divider_factor w;
     m_buffer := m_buffer w; m_adc_cal_in_progress := m_adc_cal_in_progress w;
     m_ble_bas_configured := m_ble_bas_configured w;
     m_initial_batt_level_percent := m_initial_batt_level_percent w;
     saadc := saadc w; sched_queue := q;
     sched_queue_size := sched_queue_size w; bas_status := bas_status w;
     gpiote_status := gpiote_status w; cal_latency := cal_latency w;
     calls := calls w |}.

Definition set_cal_latency (l : option nat) (w : world) :=
  {| m_evt_handler := m_evt_handler w; m_batt_meas_param := m_batt_meas_param w;
     m_battery_divider_factor := m_battery_divider_factor w;
     m_buffer := m_buffer w; m_adc_cal_in_progress := m_adc_cal_in_progress w;
     m_ble_bas_configured := m_ble_bas_configured w;
     m_initial_batt_level_percent := m_initial_batt_level_percent w;
     saadc := saadc w; sched_queue := sched_queue w;
     sched_queue_size := sched_queue_size w; bas_status := bas_status w;
     gpiote_status := gpiote_status w; cal_latency := l;
     calls := calls w |}.

Definition set_calls (l : list call) (w : world) :=
  {| m_evt_handler := m_evt_handler w; m_batt_meas_param := m_batt_meas_param w;
     m_battery_divider_factor := m_battery_divider_factor w;
     m_buffer := m_buffer w; m_adc_cal_in_progress := m_adc_cal_in_progress w;
     m_ble_bas_configured := m_ble_bas_configured w;
     m_initial_batt_level_percent := m_initial_batt_level_percent w;
     saadc := saadc w; sched_queue := sched_queue w;
     sched_queue_size := sched_queue_size w; bas_status := bas_status w;
     gpiote_status := gpiote_status w; cal_latency := cal_latency w;
     calls := l |}.

(* ------------------------------------------------------------------ *)
(** ** The monad of the module's procedures *)

(** How a procedure ends: it returns; it reaches the application error
    handler, which does not return (the escalation of [APP_ERROR_CHECK]); it
    runs into undefined behaviour; or it is still running when the fuel
    given to a loop is used up. *)
Inductive outcome (A : Type) :=
  | Returns (a : A) (w : world)
  | Fatal (err_code : Z) (w : world)
  | Undefined
  | OutOfFuel.
Arguments Returns {A} a w.
Arguments Fatal {A} err_code w.
Arguments Undefined {A}.
Arguments OutOfFuel {A}.

Definition M (A : Type) : Type := world -> outcome A.

Definition ret {A} (a : A) : M A := fun w => Returns a w.

Definition bind {A B} (m : M A) (k : A -> M B) : M B :=
  fun w =>
    match m w with
    | Returns a w' => k a w'
    | Fatal e w' => Fatal e w'
    | Undefined => Undefined
    | OutOfFuel => OutOfFuel
    end.

Declare Scope proc_scope.
Delimit Scope proc_scope with proc.
Notation "x <- m ;; k" := (bind m (fun x => k))
  (at level 61, m at next level, right associativity) : proc_scope.
Notation "m ;; k" := (bind m (fun _ => k))
  (at level 61, right associativity) : proc_scope.
Local Open Scope proc_scope.

Definition get {A} (f : world -> A) : M A := fun w => Returns (f w) w.
Definition modify (f : world -> world) : M unit := fun w => Returns tt (f w).
Definition undefined {A} : M A := fun _ => Undefined.
Definition record (c : call) : M unit :=
  modify (fun w => set_calls (calls w ++ [c]) w).

(** [APP_ERROR_CHECK(err)]: anything but success goes to the application
    error handler.  [APP_ERROR_HANDLER(err)] goes there unconditionally. *)
Definition APP_ERROR_HANDLER {A} (err_code : Z) : M A := fun w => Fatal err_code w.
Definition APP_ERROR_CHECK (err_code : Z) : M unit :=
  if err_code =? NRF_SUCCESS then ret tt else APP_ERROR_HANDLER err_code.

(* ------------------------------------------------------------------ *)
(** ** The collaborators' interface

    The SAADC driver, the scheduler, the battery service and GPIO are SDK
    code outside the module.  They are modelled by their documented contract
    on the state above: the status each call returns and what it changes. *)

Module Sdk.

Definition put_saadc (f : nrf_drv_saadc_cb_t -> nrf_drv_saadc_cb_t) : M unit :=
  modify (fun w => set_saadc (f (saadc w)) w).

(** [nrf_drv_saadc_init]: refuses with [NRF_ERROR_INVALID_STATE] when the
    driver is already initialised. *)
Definition nrf_drv_saadc_init : M Z :=
  record nrf_drv_saadc_init_called ;;
  cb <- get saadc ;;
  if drv_initialized cb then ret NRF_ERROR_INVALID_STATE
  else
    put_saadc (fun _ =>
      {| drv_initialized := true; adc_state := NRF_SAADC_STATE_IDLE;
         secondary_buffer := false; sample_triggered := false |}) ;;
    ret NRF_SUCCESS.

(** [nrf_drv_saadc_uninit]: stops the converter and releases the driver. *)
Definition nrf_drv_saadc_uninit : M unit :=
  record nrf_drv_saadc_uninit_called ;;
  put_saadc (fun _ => saadc_uninitialized).

(** [nrf_drv_saadc_channel_init]: requires an initialised driver; busy while
    a conversion or a calibration is under way. *)
Definition nrf_drv_saadc_channel_init : M Z :=
  record nrf_drv_saadc_channel_init_called ;;
  cb <- get saadc ;;
  if negb (drv_initialized cb) then undefined
  else match adc_state cb with
       | NRF_SAADC_STATE_IDLE => ret NRF_SUCCESS
       | _ => ret NRF_ERROR_BUSY
       end.

(** [nrf_drv_saadc_buffer_convert]: arms a buffer (a second one may be queued
    behind the first); busy during calibration. *)
Definition nrf_drv_saadc_buffer_convert : M Z :=
  record nrf_drv_saadc_buffer_convert_called ;;
  cb <- get saadc ;;
  if negb (drv_initialized cb) then undefined
  else match adc_state cb with
       | NRF_SAADC_STATE_CALIBRATION => ret NRF_ERROR_BUSY
       | NRF_SAADC_STATE_BUSY =>
           if secondary_buffer cb then ret NRF_ERROR_BUSY
           else
             put_saadc (fun cb =>
               {| drv_initialized := true; adc_state := NRF_SAADC_STATE_BUSY;
                  secondary_buffer := true;
                  sample_triggered := sample_triggered cb |}) ;;
             ret NRF_SUCCESS
       | NRF_SAADC_STATE_IDLE =>
           put_saadc (fun cb =>
             {| drv_initialized := true; adc_state := NRF_SAADC_STATE_BUSY;
                secondary_buffer := false; sample_triggered := false |}) ;;
           ret NRF_SUCCESS
       end.

(** [nrf_drv_saadc_sample]: triggers the SAMPLE task; needs an armed buffer. *)
Definition nrf_drv_saadc_sample : M Z :=
  record nrf_drv_saadc_sample_called ;;
  cb <- get saadc ;;
  if negb (drv_initialized cb) then undefined
  else match adc_state cb with
       | NRF_SAADC_STATE_BUSY =>
           put_saadc (fun cb =>
             {| drv_initialized := true; adc_state := NRF_SAADC_STATE_BUSY;
                secondary_buffer := secondary_buffer cb;
                sample_triggered := true |}) ;;
           ret NRF_SUCCESS
       | _ => ret NRF_ERROR_INVALID_STATE
       end.

(** [nrf_drv_saadc_calibrate_offset]: starts offset calibration when idle. *)
Definition nrf_drv_saadc_calibrate_offset : M Z :=
  record nrf_drv_saadc_calibrate_offset_called ;;
  cb <- get saadc ;;
  if negb (drv_initialized cb) then undefined
  else match adc_state cb with
       | NRF_SAADC_STATE_IDLE =>
           put_saadc (fun cb =>
             {| drv_initialized := true; adc_state := NRF_SAADC_STATE_CALIBRATION;
                secondary_buffer := false; sample_triggered := false |}) ;;
           ret NRF_SUCCESS
       | _ => ret NRF_ERROR_BUSY
       end.

(** [app_sched_event_put]: copies the event into the queue, or reports that
    the queue is full. *)
Definition app_sched_event_put (voltage : Z) : M Z :=
  record (app_sched_event_put_called voltage) ;;
  q <- get sched_queue ;;
  size <- get sched_queue_size ;;
  if Z.of_nat (length q) <? size then
    modify (set_sched_queue (q ++ [voltage])) ;;
    ret NRF_SUCCESS
  else ret NRF_ERROR_NO_MEM.

(** [ble_bas_battery_level_update]: the service's answer is the
    environment's. *)
Definition ble_bas_battery_level_update (battery_level : Z) : M Z :=
  record (ble_bas_battery_level_update_called battery_level) ;;
  get bas_status.

Definition nrf_drv_gpiote_out_init (pin : Z) : M Z :=
  record (nrf_drv_gpiote_out_init_called pin) ;;
  get gpiote_status.

Definition nrf_gpio_cfg_input (pin : Z) : M unit :=
  record (nrf_gpio_cfg_input_called pin).

End Sdk.
Import Sdk.

(* ------------------------------------------------------------------ *)
(** ** The module's procedures *)

Section m_batt_meas.

(** sdk_config.h is not among the sources: the resolution setting of the
    SAADC is a parameter (0, 1, 2, 3 select 8, 10, 12, 14 bits). *)
Variable NRFX_SAADC_CONFIG_RESOLUTION : Z.

Definition ADC_RESOLUTION_BITS : Z := 8 + NRFX_SAADC_CONFIG_RESOLUTION * 2.

(** The two floating-point lines of [adc_to_batt_voltage]:
    [tmp = adc_val / ((adc_gain / ADC_REFERENCE_VOLTAGE) * pow(2, BITS))],
    computed in [double] (the product with [pow]'s result and the quotient)
    and stored in a [float]; then
    [tmp_voltage = (uint16_t) ((tmp / m_battery_divider_factor) * 1000)],
    computed in [float].  [None]: the cast is undefined. *)
Definition adc_to_tmp_voltage
    (divider_factor adc_gain : spec_float) (adc_val : Z) : option Z :=
  let tmp :=
    f32_of_f64
      (f64_div (f64_of_Z adc_val)
         (f64_mul (f64_of_f32 (f32_div adc_gain ADC_REFERENCE_VOLTAGE))
                  (SFldexp 53 1024 (f64_of_Z 1) ADC_RESOLUTION_BITS))) in
  f32_to_uint16 (f32_mul (f32_div tmp divider_factor) (f32_of_Z 1000)).

(** [adc_to_batt_voltage]: the status code and the value stored through
    [voltage]. *)
Definition adc_to_batt_voltage (adc_val : Z) : M (Z * Z) :=
  let (err_code, adc_gain) := adc_gain_enum_to_real_gain ADC_GAIN in
  APP_ERROR_CHECK err_code ;;
  factor <- get m_battery_divider_factor ;;
  match adc_gain with
  | None => undefined
  | Some adc_gain =>
      match adc_to_tmp_voltage factor adc_gain adc_val with
      | None => undefined
      | Some tmp_voltage =>
          ret (M_BATT_STATUS_CODE_SUCCESS,
               to_uint16 (Z.quot (tmp_voltage + 5) 10 * 10))
      end
  end.

(** [param_check]; [None] stands for a NULL [p_batt_meas_init]. *)
Definition param_check (p_batt_meas_init : option batt_meas_init_t) : M Z :=
  match p_batt_meas_init with
  | None => ret NRF_ERROR_NULL
  | Some init =>
      match evt_handler init with
      | None => ret NRF_ERROR_NULL
      | Some _ =>
          let divider := voltage_divider (batt_meas_param init) in
          let thresholds_check :=
            if batt_voltage_limit_full (batt_meas_param init)
                 <? batt_voltage_limit_low (batt_meas_param init)
            then ret M_BATT_STATUS_CODE_INVALID_PARAM
            else ret M_BATT_STATUS_CODE_SUCCESS in
          if (r_1_ohm divider =? 0) && (r_2_ohm divider =? 0) then
            modify (set_m_battery_divider_factor (f32_of_Z 1)) ;;
            thresholds_check
          else if (r_1_ohm divider =? 0) || (r_2_ohm divider =? 0) then
            ret M_BATT_STATUS_CODE_INVALID_PARAM
          else
            modify (set_m_battery_divider_factor
                      (f32_div (f32_of_Z (r_2_ohm divider))
                               (f32_of_Z (to_uint32 (r_1_ohm divider
                                                     + r_2_ohm divider))))) ;;
            thresholds_check
      end
  end.

(** [batt_event_handler_adc], run from the scheduler in main context;
    [p_event_data] is the queued two-byte payload copied into
    [batt_meas_evt.voltage_mv]. *)
Definition batt_event_handler_adc (p_event_data : Z) : M unit :=
  param <- get m_batt_meas_param ;;
  let voltage_mv := p_event_data in
  let type :=
    if voltage_mv <=? batt_voltage_limit_low param then M_BATT_MEAS_EVENT_LOW
    else if voltage_mv >=? batt_voltage_limit_full param then M_BATT_MEAS_EVENT_FULL
    else M_BATT_MEAS_EVENT_DATA in
  match batt_voltage_to_percent param voltage_mv with
  | None => undefined
  | Some battery_level_percent =>
      let batt_meas_evt :=
        {| type := type; voltage_mv := voltage_mv;
           level_percent := battery_level_percent; valid_voltage := true |} in
      configured <- get m_ble_bas_configured ;;
      (if configured then
         err_code <- ble_bas_battery_level_update battery_level_percent ;;
         if negb (err_code =? NRF_SUCCESS)
            && negb (err_code =? NRF_ERROR_INVALID_STATE)
            && negb (err_code =? BLE_ERROR_GATTS_SYS_ATTR_MISSING)
         then APP_ERROR_HANDLER err_code
         else ret tt
       else
         modify (set_m_initial_batt_level_percent battery_level_percent)) ;;
      handler <- get m_evt_handler ;;
      match handler with
      | None => undefined
      | Some h => record (m_evt_handler_called h batt_meas_evt)
      end
  end.

(** [saadc_event_handler_interrupt], run in interrupt context. *)
Definition saadc_event_handler_interrupt (p_event : nrf_drv_saadc_evt_t) : M unit :=
  match p_event with
  | NRF_DRV_SAADC_EVT_CALIBRATEDONE =>
      modify (set_m_adc_cal_in_progress false)
  | NRF_DRV_SAADC_EVT_DONE p_buffer =>
      r <- adc_to_batt_voltage (to_uint32 p_buffer) ;;
      let (err_code, voltage) := r : Z * Z in
      APP_ERROR_CHECK err_code ;;
      err_code <- app_sched_event_put voltage ;;
      APP_ERROR_CHECK err_code
  | NRF_DRV_SAADC_EVT_LIMIT => ret tt
  end ;;
  nrf_drv_saadc_uninit.

(** [saadc_init]. *)
Definition saadc_init : M Z :=
  err_code <- nrf_drv_saadc_init ;;
  APP_ERROR_CHECK err_code ;;
  err_code <- nrf_drv_saadc_channel_init ;;
  APP_ERROR_CHECK err_code ;;
  err_code <- nrf_drv_saadc_buffer_convert ;;
  APP_ERROR_CHECK err_code ;;
  ret M_BATT_STATUS_CODE_SUCCESS.

(** [app_timer_periodic_handler]. *)
Definition app_timer_periodic_handler : M unit :=
  err_code <- saadc_init ;;
  if err_code =? NRF_ERROR_INVALID_STATE then ret tt
  else
    APP_ERROR_CHECK err_code ;;
    err_code <- nrf_drv_saadc_sample ;;
    APP_ERROR_CHECK err_code.

(** What the converter can signal: the end of the conversion into the armed
    buffer (with the sample it wrote there), or the end of calibration. *)
Inductive saadc_irq_t :=
  | SAADC_EVENTS_END (sample : Z)
  | SAADC_EVENTS_CALIBRATEDONE.

(** The driver's interrupt service routine: it updates its control block
    and calls the handler registered at [nrf_drv_saadc_init], which is
    [saadc_event_handler_interrupt].  An event the converter cannot have
    raised in the current state is ignored. *)
Definition SAADC_IRQHandler (irq : saadc_irq_t) : M unit :=
  cb <- get saadc ;;
  match irq, adc_state cb with
  | SAADC_EVENTS_END sample, NRF_SAADC_STATE_BUSY =>
      if drv_initialized cb && sample_triggered cb then
        modify (set_m_buffer sample) ;;
        put_saadc (fun cb =>
          {| drv_initialized := true;
             adc_state := if secondary_buffer cb then NRF_SAADC_STATE_BUSY
                          else NRF_SAADC_STATE_IDLE;
             secondary_buffer := false; sample_triggered := false |}) ;;
        p_buffer <- get m_buffer ;;
        saadc_event_handler_interrupt (NRF_DRV_SAADC_EVT_DONE p_buffer)
      else ret tt
  | SAADC_EVENTS_CALIBRATEDONE, NRF_SAADC_STATE_CALIBRATION =>
      if drv_initialized cb then
        put_saadc (fun cb =>
          {| drv_initialized := true; adc_state := NRF_SAADC_STATE_IDLE;
             secondary_buffer := false; sample_triggered := false |}) ;;
        saadc_event_handler_interrupt NRF_DRV_SAADC_EVT_CALIBRATEDONE
      else ret tt
  | _, _ => ret tt
  end.

(** Between two reads of the volatile flag the converter may finish the
    calibration: [cal_latency] counts the reads that come first. *)
Definition calibration_interrupt_window : M unit :=
  cb <- get saadc ;;
  latency <- get cal_latency ;;
  match adc_state cb, latency with
  | NRF_SAADC_STATE_CALIBRATION, Some O =>
      SAADC_IRQHandler SAADC_EVENTS_CALIBRATEDONE
  | NRF_SAADC_STATE_CALIBRATION, Some (S n) =>
      modify (set_cal_latency (Some n))
  | _, _ => ret tt
  end.

(** [while (m_adc_cal_in_progress) { }]: one unit of fuel per read of the
    flag. *)
Fixpoint wait_while_cal_in_progress (fuel : nat) : M unit :=
  match fuel with
  | O => fun _ => OutOfFuel
  | S fuel' =>
      calibration_interrupt_window ;;
      in_progress <- get m_adc_cal_in_progress ;;
      if in_progress then wait_while_cal_in_progress fuel' else ret tt
  end.

(** [saadc_calibrate]. *)
Definition saadc_calibrate (fuel : nat) : M Z :=
  err_code <- nrf_drv_saadc_init ;;
  APP_ERROR_CHECK err_code ;;
  modify (set_m_adc_cal_in_progress true) ;;
  err_code <- nrf_drv_saadc_calibrate_offset ;;
  APP_ERROR_CHECK err_code ;;
  wait_while_cal_in_progress fuel ;;
  ret M_BATT_STATUS_CODE_SUCCESS.

(** [m_batt_meas_init]; [p_handle] is [None] for NULL (the two callbacks
    stored through it belong to the caller's structure and are not part of
    the state modelled here). *)
Definition m_batt_meas_init
    (p_handle : option Z) (p_batt_meas_init : option batt_meas_init_t)
    (fuel : nat) : M Z :=
  match p_handle, p_batt_meas_init with
  | None, _ => ret NRF_ERROR_NULL
  | Some _, None => ret NRF_ERROR_NULL
  | Some _, Some init =>
      err_code <- param_check p_batt_meas_init ;;
      APP_ERROR_CHECK err_code ;;
      modify (set_m_evt_handler (evt_handler init)) ;;
      modify (set_m_batt_meas_param (batt_meas_param init)) ;;
      param <- get m_batt_meas_param ;;
      (if batt_mon_en_pin_used param then
         err_code <- nrf_drv_gpiote_out_init (batt_mon_en_pin_no param) ;;
         APP_ERROR_CHECK err_code
       else ret tt) ;;
      nrf_gpio_cfg_input (adc_pin_no param) ;;
      err_code <- saadc_calibrate fuel ;;
      APP_ERROR_CHECK err_code ;;
      ret M_BATT_STATUS_CODE_SUCCESS
  end.

(** The scheduler's [app_sched_execute], called from the main loop: it
    takes the queued events one by one and runs their handler. *)
Fixpoint app_sched_execute_events (n : nat) : M unit :=
  match n with
  | O => ret tt
  | S n' =>
      q <- get sched_queue ;;
      match q with
      | [] => ret tt
      | p_event_data :: q' =>
          modify (set_sched_queue q') ;;
          batt_event_handler_adc p_event_data ;;
          app_sched_execute_events n'
      end
  end.

Definition app_sched_execute : M unit :=
  q <- get sched_queue ;;
  app_sched_execute_events (length q).

(** What drives the module after initialisation: the periodic timer, the
    converter's interrupt, and the main loop's pass over the scheduler. *)
Inductive stimulus :=
  | timer_tick
  | saadc_interrupt (irq : saadc_irq_t)
  | main_loop_pass.

Definition react (s : stimulus) : M unit :=
  match s with
  | timer_tick => app_timer_periodic_handler
  | saadc_interrupt irq => SAADC_IRQHandler irq
  | main_loop_pass => app_sched_execute
  end.

Fixpoint run (l : list stimulus) : M unit :=
  match l with
  | [] => ret tt
  | s :: l' => react s ;; run l'
  end.

End m_batt_meas.

(* ------------------------------------------------------------------ *)
(** ** Vocabulary of the statements *)

(** A procedure never returns on a given state when no amount of fuel makes
    it end. *)
Definition never_ends {A} (proc : nat -> M A) (w : world) : Prop :=
  forall fuel, proc fuel w = OutOfFuel.

(** Position of the first call satisfying [p] in a call log. *)
Fixpoint first_call (p : call -> bool) (l : list call) : option nat :=
  match l with
  | [] => None
  | c :: l' => if p c then Some O else option_map S (first_call p l')
  end.

Definition is_uninit (c : call) : bool :=
  match c with nrf_drv_saadc_uninit_called => true | _ => false end.
Definition is_bas_update (c : call) : bool :=
  match c with ble_bas_battery_level_update_called _ => true | _ => false end.
Definition is_evt_handler (c : call) : bool :=
  match c with m_evt_handler_called _ _ => true | _ => false end.

(** The event type [batt_event_handler_adc] assigns. *)
Definition classified (param : batt_meas_param_t) (voltage_mv : Z)
  : m_batt_meas_event_type_t :=
  if voltage_mv <=? batt_voltage_limit_low param then M_BATT_MEAS_EVENT_LOW
  else if voltage_mv >=? batt_voltage_limit_full param then M_BATT_MEAS_EVENT_FULL
  else M_BATT_MEAS_EVENT_DATA.

(** Exactly one of the two divider resistors is zero. *)
Definition exactly_one_zero (d : batt_meas_voltage_divider_t) : Prop :=
  (r_1_ohm d = 0 /\ r_2_ohm d <> 0) \/ (r_1_ohm d <> 0 /\ r_2_ohm d = 0).

(** [adds_only ok m]: however [m] ends, the call log it leaves is the one it
    found followed by calls that all satisfy [ok]. *)
Definition adds_only {A} (ok : call -> bool) (m : M A) : Prop :=
  forall w,
    match m w with
    | Returns _ w' | Fatal _ w' =>
        exists added, calls w' = calls w ++ added /\ forallb ok added = true
    | Undefined | OutOfFuel => True
    end.

(** Calls that are neither a battery-service update nor an event dispatch. *)
Definition not_sink_nor_dispatch (c : call) : bool :=
  negb (is_bas_update c) && negb (is_evt_handler c).

(** Calls other than the dispatch of an event flagged invalid. *)
Definition not_invalid_event (c : call) : bool :=
  match c with
  | m_evt_handler_called _ e => valid_voltage e
  | _ => true
  end.

(** Applies a change of state to the state an outcome carries. *)
Definition outcome_map {A} (f : world -> world) (o : outcome A) : outcome A :=
  match o with
  | Returns a w => Returns a (f w)
  | Fatal e w => Fatal e (f w)
  | Undefined => Undefined
  | OutOfFuel => OutOfFuel
  end.

(** The state in which [saadc_calibrate] enters its loop. *)
Definition calibrating (w : world) : Prop :=
  drv_initialized (saadc w) = true /\
  adc_state (saadc w) = NRF_SAADC_STATE_CALIBRATION /\
  m_adc_cal_in_progress w = true.

(** The state [saadc_calibrate] reaches before its loop, from a released
    driver. *)
Definition calibration_started (w : world) : world :=
  set_saadc {| drv_initialized := true; adc_state := NRF_SAADC_STATE_CALIBRATION;
               secondary_buffer := false; sample_triggered := false |}
    (set_calls (calls w ++ [nrf_drv_saadc_init_called;
                            nrf_drv_saadc_calibrate_offset_called])
       (set_m_adc_cal_in_progress true w)).

(** The calls of a cycle up to and including the release of the converter. *)
Definition acquisition_calls (voltage : Z) : list call :=
  [nrf_drv_saadc_init_called; nrf_drv_saadc_channel_init_called;
   nrf_drv_saadc_buffer_convert_called; nrf_drv_saadc_sample_called;
   app_sched_event_put_called voltage; nrf_drv_saadc_uninit_called].

(* ------------------------------------------------------------------ *)
(** ** A reference configuration

    The table and thresholds of the specification's examples, a 1:1 divider
    of 10 kOhm resistors and a 10-bit converter. *)

Definition soc_3000_100 : batt_meas_state_of_charge_t :=
  {| num_elements := 11; first_element_mv := 3000; delta_mv := 100;
     voltage_to_soc := [0; 10; 20; 30; 40; 50; 60; 70; 80; 90; 100] |}.

Definition example_param : batt_meas_param_t :=
  {| batt_mon_en_pin_used := false; batt_mon_en_pin_no := 0;
     adc_pin_no := 28; adc_pin_no_ain := 5;
     batt_voltage_limit_low := 3300; batt_voltage_limit_full := 4100;
     state_of_charge := soc_3000_100;
     voltage_divider := {| r_1_ohm := 10000; r_2_ohm := 10000 |} |}.

Definition example_init : batt_meas_init_t :=
  {| evt_handler := Some 1; batt_meas_param := example_param |}.

(** The state at reset: statics as initialised by the C start-up code,
    driver released, empty scheduler queue of eight entries, a battery
    service that accepts updates, a converter that calibrates within three
    polls. *)
Definition reset_world : world :=
  {| m_evt_handler := None;
     m_batt_meas_param :=
       {| batt_mon_en_pin_used := false; batt_mon_en_pin_no := 0;
          adc_pin_no := 0; adc_pin_no_ain := 0;
          batt_voltage_limit_low := 0; batt_voltage_limit_full := 0;
          state_of_charge :=
            {| num_elements := 0; first_element_mv := 0; delta_mv := 0;
               voltage_to_soc := [] |};
          voltage_divider := {| r_1_ohm := 0; r_2_ohm := 0 |} |};
     m_battery_divider_factor := S754_zero false;
     m_buffer := 0;
     m_adc_cal_in_progress := false;
     m_ble_bas_configured := false;
     m_initial_batt_level_percent := INVALID_BATTERY_LEVEL;
     saadc := saadc_uninitialized;
     sched_queue := [];
     sched_queue_size := 8;
     bas_status := NRF_SUCCESS;
     gpiote_status := NRF_SUCCESS;
     cal_latency := Some 3%nat;
     calls := [] |}.

(** The same table sampled every millivolt, and a table whose step is zero. *)
Definition soc_3000_1 : batt_meas_state_of_charge_t :=
  {| num_elements := 11; first_element_mv := 3000; delta_mv := 1;
     voltage_to_soc := [0; 10; 20; 30; 40; 50; 60; 70; 80; 90; 100] |}.

Definition soc_3000_0 : batt_meas_state_of_charge_t :=
  {| num_elements := 11; first_element_mv := 3000; delta_mv := 0;
     voltage_to_soc := [0; 10; 20; 30; 40; 50; 60; 70; 80; 90; 100] |}.

Definition with_state_of_charge
    (t : batt_meas_state_of_charge_t) (p : batt_meas_param_t) : batt_meas_param_t :=
  {| batt_mon_en_pin_used := batt_mon_en_pin_used p;
     batt_mon_en_pin_no := batt_mon_en_pin_no p;
     adc_pin_no := adc_pin_no p; adc_pin_no_ain := adc_pin_no_ain p;
     batt_voltage_limit_low := batt_voltage_limit_low p;
     batt_voltage_limit_full := batt_voltage_limit_full p;
     state_of_charge := t;
     voltage_divider := voltage_divider p |}.

Definition init_with_state_of_charge
    (t : batt_meas_state_of_charge_t) (i : batt_meas_init_t) : batt_meas_init_t :=
  {| evt_handler := evt_handler i;
     batt_meas_param := with_state_of_charge t (batt_meas_param i) |}.

(** The state [m_batt_meas_init] leaves behind for [example_init] (with an
    empty call log): parameters stored, divider factor 0.5, converter
    calibrated and released. *)
Definition ready_world : world :=
  {| m_evt_handler := Some 1;
     m_batt_meas_param := example_param;
     m_battery_divider_factor := S754_finite false 8388608 (-24);
     m_buffer := 0;
     m_adc_cal_in_progress := false;
     m_ble_bas_configured := false;
     m_initial_batt_level_percent := INVALID_BATTERY_LEVEL;
     saadc := saadc_uninitialized;
     sched_queue := [];
     sched_queue_size := 8;
     bas_status := NRF_SUCCESS;
     gpiote_status := NRF_SUCCESS;
     cal_latency := Some 0%nat;
     calls := [] |}.

(** The divider factor [param_check] stores for two equal resistors of
    10 kOhm, and the test that, for one raw code, the conversion with this
    factor stays below 65535, equals the specified conversion computed in
    exact arithmetic (gain 1, reference 0.6 V, factor 10000 / 20000), and
    lies within 10 mV of the exact voltage. *)
Definition equal_divider_factor : spec_float :=
  f32_div (f32_of_Z 10000) (f32_of_Z (10000 + 10000)).




(** The reset state with a converter that never signals the end of
    calibration. *)
Definition unresponsive_world : world := set_cal_latency None reset_world.

(** The same state while a conversion triggered by a tick is in flight. *)
Definition sampling_world : world :=
  set_saadc {| drv_initialized := true; adc_state := NRF_SAADC_STATE_BUSY;
               secondary_buffer := false; sample_triggered := true |}
            ready_world.

(* ------------------------------------------------------------------ *)
(** ** Facts about the integer conversions *)

Lemma to_uint16_id z : 0 <= z <= UINT16_MAX -> to_uint16 z = z.
Proof. unfold to_uint16, UINT16_MAX; intros; apply Z.mod_small; lia. Qed.


Lemma to_int16_id z : - 32768 <= z <= INT16_MAX -> to_int16 z = z.
Proof.
  unfold to_int16, INT16_MAX; intros.
  rewrite Z.mod_small by lia. lia.
Qed.

Lemma to_int16_range z : - 32768 <= to_int16 z <= INT16_MAX.
Proof.
  unfold to_int16, INT16_MAX.
  pose proof (Z.mod_pos_bound (z + 2 ^ 15) (2 ^ 16) ltac:(lia)). lia.
Qed.

(* ------------------------------------------------------------------ *)
(** ** The service layer: timer, monitor pin, battery service

    [m_batt_meas_enable], [m_batt_meas_disable] and the battery service
    callbacks use collaborators the measurement cycle does not: the
    application timer, the GPIOTE output of the monitor-enable pin and the
    BLE battery service.  Their state is kept beside the [world] of the
    measurement cycle in one record, [platform]; the procedures of the
    measurement cycle run on its [core] field. *)

Definition set_m_ble_bas_configured (b : bool) (w : world) : world :=
  {| m_evt_handler := m_evt_handler w; m_batt_meas_param := m_batt_meas_param w;
     m_battery_divider_factor := m_battery_divider_factor w;
     m_buffer := m_buffer w; m_adc_cal_in_progress := m_adc_cal_in_progress w;
     m_ble_bas_configured := b;
     m_initial_batt_level_percent := m_initial_batt_level_percent w;
     saadc := saadc w; sched_queue := sched_queue w;
     sched_queue_size := sched_queue_size w; bas_status := bas_status w;
     gpiote_status := gpiote_status w; cal_latency := cal_latency w;
     calls := calls w |}.

(** Calls to the collaborators of the service layer, in the order made.
    [app_timer_start_called ms] stands for a start with
    [APP_TIMER_TICKS(ms)] ticks; [ble_bas_init_called level] for an
    initialisation of the service with that initial battery level. *)
Inductive service_call :=
  | nrf_drv_gpiote_out_set_called (pin : Z)
  | nrf_drv_gpiote_out_clear_called (pin : Z)
  | app_timer_create_called
  | app_timer_start_called (meas_interval_ms : Z)
  | app_timer_stop_called
  | ble_bas_init_called (initial_batt_level : Z)
  | ble_bas_on_ble_evt_called (evt_id : Z)
  | nrf_drv_gpiote_init_called.

Record platform := {
  core                      : world;
  timer_armed               : option Z;  (* the repeated timer runs, with this
                                            interval in ms *)
  gpiote_is_init            : bool;      (* nrf_drv_gpiote_is_init () *)
  app_timer_create_status   : Z;         (* what the timer module answers *)
  app_timer_start_status    : Z;
  app_timer_stop_status     : Z;
  ble_bas_init_status       : Z;         (* what the battery service answers *)
  nrf_drv_gpiote_init_status : Z;        (* what the GPIOTE driver answers *)
  service_calls             : list service_call
}.

Definition set_core (w : world) (s : platform) : platform :=
  {| core := w; timer_armed := timer_armed s;
     gpiote_is_init := gpiote_is_init s;
     app_timer_create_status := app_timer_create_status s;
     app_timer_start_status := app_timer_start_status s;
     app_timer_stop_status := app_timer_stop_status s;
     ble_bas_init_status := ble_bas_init_status s;
     nrf_drv_gpiote_init_status := nrf_drv_gpiote_init_status s;
     service_calls := service_calls s |}.

Definition set_timer_armed (t : option Z) (s : platform) : platform :=
  {| core := core s; timer_armed := t;
     gpiote_is_init := gpiote_is_init s;
     app_timer_create_status := app_timer_create_status s;
     app_timer_start_status := app_timer_start_status s;
     app_timer_stop_status := app_timer_stop_status s;
     ble_bas_init_status := ble_bas_init_status s;
     nrf_drv_gpiote_init_status := nrf_drv_gpiote_init_status s;
     service_calls := service_calls s |}.

Definition set_gpiote_is_init (b : bool) (s : platform) : platform :=
  {| core := core s; timer_armed := timer_armed s;
     gpiote_is_init := b;
     app_timer_create_status := app_timer_create_status s;
     app_timer_start_status := app_timer_start_status s;
     app_timer_stop_status := app_timer_stop_status s;
     ble_bas_init_status := ble_bas_init_status s;
     nrf_drv_gpiote_init_status := nrf_drv_gpiote_init_status s;
     service_calls := service_calls s |}.

Definition set_service_calls (l : list service_call) (s : platform) : platform :=
  {| core := core s; timer_armed := timer_armed s;
     gpiote_is_init := gpiote_is_init s;
     app_timer_create_status := app_timer_create_status s;
     app_timer_start_status := app_timer_start_status s;
     app_timer_stop_status := app_timer_stop_status s;
     ble_bas_init_status := ble_bas_init_status s;
     nrf_drv_gpiote_init_status := nrf_drv_gpiote_init_status s;
     service_calls := l |}.

(** The procedures of the service layer: the same four ways to end, on a
    [platform]. *)
Inductive service_outcome (A : Type) :=
  | SReturns (a : A) (s : platform)
  | SFatal (err_code : Z) (s : platform)
  | SUndefined
  | SOutOfFuel.
Arguments SReturns {A} a s.
Arguments SFatal {A} err_code s.
Arguments SUndefined {A}.
Arguments SOutOfFuel {A}.

Definition Srv (A : Type) : Type := platform -> service_outcome A.

Definition sret {A} (a : A) : Srv A := fun s => SReturns a s.

Definition sbind {A B} (m : Srv A) (k : A -> Srv B) : Srv B :=
  fun s =>
    match m s with
    | SReturns a s' => k a s'
    | SFatal e s' => SFatal e s'
    | SUndefined => SUndefined
    | SOutOfFuel => SOutOfFuel
    end.

Declare Scope service_scope.
Delimit Scope service_scope with service.
Notation "x <- m ;; k" := (sbind m (fun x => k))
  (at level 61, m at next level, right associativity) : service_scope.
Notation "m ;; k" := (sbind m (fun _ => k))
  (at level 61, right associativity) : service_scope.

(** A procedure of the measurement cycle, run on the [core] of the
    platform. *)
Definition on_core {A} (m : M A) : Srv A :=
  fun s =>
    match m (core s) with
    | Returns a w => SReturns a (set_core w s)
    | Fatal e w => SFatal e (set_core w s)
    | Undefined => SUndefined
    | OutOfFuel => SOutOfFuel
    end.

Definition sget {A} (f : platform -> A) : Srv A := fun s => SReturns (f s) s.
Definition smodify (f : platform -> platform) : Srv unit :=
  fun s => SReturns tt (f s).
Definition srecord (c : service_call) : Srv unit :=
  smodify (fun s => set_service_calls (service_calls s ++ [c]) s).
Definition S_APP_ERROR_CHECK (err_code : Z) : Srv unit :=
  fun s => if err_code =? NRF_SUCCESS then SReturns tt s else SFatal err_code s.

Module SdkService.
Local Open Scope service_scope.

Definition nrf_drv_gpiote_out_set (pin : Z) : Srv unit :=
  srecord (nrf_drv_gpiote_out_set_called pin).

Definition nrf_drv_gpiote_out_clear (pin : Z) : Srv unit :=
  srecord (nrf_drv_gpiote_out_clear_called pin).

(** The timer calls answer what the environment decides; a start or a stop
    takes effect when it is answered with success. *)
Definition app_timer_create : Srv Z :=
  srecord app_timer_create_called ;;
  sget app_timer_create_status.

Definition app_timer_start (meas_interval_ms : Z) : Srv Z :=
  srecord (app_timer_start_called meas_interval_ms) ;;
  status <- sget app_timer_start_status ;;
  (if status =? NRF_SUCCESS
   then smodify (set_timer_armed (Some meas_interval_ms)) else sret tt) ;;
  sret status.

Definition app_timer_stop : Srv Z :=
  srecord app_timer_stop_called ;;
  status <- sget app_timer_stop_status ;;
  (if status =? NRF_SUCCESS then smodify (set_timer_armed None) else sret tt) ;;
  sret status.

Definition ble_bas_init (initial_batt_level : Z) : Srv Z :=
  srecord (ble_bas_init_called initial_batt_level) ;;
  sget ble_bas_init_status.

Definition ble_bas_on_ble_evt (evt_id : Z) : Srv unit :=
  srecord (ble_bas_on_ble_evt_called evt_id).

Definition nrf_drv_gpiote_is_init : Srv bool := sget gpiote_is_init.

Definition nrf_drv_gpiote_init : Srv Z :=
  srecord nrf_drv_gpiote_init_called ;;
  status <- sget nrf_drv_gpiote_init_status ;;
  (if status =? NRF_SUCCESS then smodify (set_gpiote_is_init true) else sret tt) ;;
  sret status.

End SdkService.
Import SdkService.

(** Events of the battery service passed to [ble_bas_evt_handler]. *)
Inductive ble_bas_evt_type_t :=
  | BLE_BAS_EVT_NOTIFICATION_ENABLED
  | BLE_BAS_EVT_NOTIFICATION_DISABLED.

Section m_batt_meas_service.
Local Open Scope service_scope.

(** Modelled from the spec: m_batt_meas.h is not among the sources; the
    minimum measurement interval it defines is a parameter. *)
Variable MEAS_INTERVAL_LOW_LIMIT_MS : Z.

(** [battery_on_ble_evt]: the event (identified by [header.evt_id]) is
    forwarded to the battery service; a disconnect needs no further action. *)
Definition battery_on_ble_evt (evt_id : Z) : Srv unit :=
  ble_bas_on_ble_evt evt_id.

(** [ble_bas_evt_handler]: the two notification events are only logged. *)
Definition ble_bas_evt_handler (evt_type : ble_bas_evt_type_t) : Srv unit :=
  match evt_type with
  | BLE_BAS_EVT_NOTIFICATION_ENABLED => sret tt
  | BLE_BAS_EVT_NOTIFICATION_DISABLED => sret tt
  end.

(** [gpiote_init]. *)
Definition gpiote_init : Srv Z :=
  is_init <- nrf_drv_gpiote_is_init ;;
  if negb is_init then
    err_code <- nrf_drv_gpiote_init ;;
    if err_code =? NRF_SUCCESS then sret NRF_SUCCESS else sret err_code
  else sret NRF_SUCCESS.

(** [battery_service_init]; the argument is not used. *)
Definition battery_service_init (major_minor_fw_ver_changed : bool) : Srv Z :=
  initial_batt_level <- on_core (get m_initial_batt_level_percent) ;;
  err_code <- ble_bas_init initial_batt_level ;;
  S_APP_ERROR_CHECK err_code ;;
  on_core (modify (set_m_ble_bas_configured true)) ;;
  sret NRF_SUCCESS.

(** [m_batt_meas_enable]. *)
Definition m_batt_meas_enable (meas_interval_ms : Z) : Srv Z :=
  if meas_interval_ms <? MEAS_INTERVAL_LOW_LIMIT_MS then
    sret M_BATT_STATUS_CODE_INVALID_PARAM
  else
    param <- on_core (get m_batt_meas_param) ;;
    (if batt_mon_en_pin_used param
     then nrf_drv_gpiote_out_set (batt_mon_en_pin_no param) else sret tt) ;;
    on_core app_timer_periodic_handler ;;
    err_code <- app_timer_create ;;
    S_APP_ERROR_CHECK err_code ;;
    err_code <- app_timer_start meas_interval_ms ;;
    S_APP_ERROR_CHECK err_code ;;
    sret M_BATT_STATUS_CODE_SUCCESS.

(** [m_batt_meas_disable]. *)
Definition m_batt_meas_disable : Srv Z :=
  param <- on_core (get m_batt_meas_param) ;;
  (if batt_mon_en_pin_used param
   then nrf_drv_gpiote_out_clear (batt_mon_en_pin_no param) else sret tt) ;;
  err_code <- app_timer_stop ;;
  S_APP_ERROR_CHECK err_code ;;
  sret M_BATT_STATUS_CODE_SUCCESS.

End m_batt_meas_service.

(** *** Vocabulary of the further statements *)

(** The levels of a table never decrease with the index. *)
Definition levels_nondecreasing (levels : list Z) : Prop :=
  forall i j a b,
    (i <= j)%nat ->
    nth_error levels i = Some a -> nth_error levels j = Some b -> a <= b.

(** The same, as a test on adjacent levels. *)
Fixpoint nondecreasing (l : list Z) : bool :=
  match l with
  | [] => true
  | a :: tl =>
      match tl with
      | [] => true
      | b :: _ => (a <=? b) && nondecreasing tl
      end
  end.

(** The index the specified lookup reads. *)
Definition spec_index (t : batt_meas_state_of_charge_t) (v : Z) : Z :=
  Z.max 0 (Z.min ((v - first_element_mv t) / delta_mv t) (num_elements t - 1)).


(** The divider factor [param_check] stores for a divider it accepts. *)
Definition divider_factor_of (d : batt_meas_voltage_divider_t) : spec_float :=
  if (r_1_ohm d =? 0) && (r_2_ohm d =? 0) then f32_of_Z 1
  else f32_div (f32_of_Z (r_2_ohm d)) (f32_of_Z (to_uint32 (r_1_ohm d + r_2_ohm d))).

(** A divider of 108333 Ohm over 1 kOhm (factor about 1/109.3). *)
Definition steep_divider_world : world :=
  set_m_battery_divider_factor
    (divider_factor_of {| r_1_ohm := 108333; r_2_ohm := 1000 |}) ready_world.

(** The statuses of a battery-level update that [batt_event_handler_adc]
    tolerates. *)
Definition tolerated_bas_status (err_code : Z) : bool :=
  (err_code =? NRF_SUCCESS) || (err_code =? NRF_ERROR_INVALID_STATE)
  || (err_code =? BLE_ERROR_GATTS_SYS_ATTR_MISSING).

(** The event [batt_event_handler_adc] builds for a payload and a level. *)
Definition event_of (param : batt_meas_param_t) (voltage level : Z)
  : m_batt_meas_event_t :=
  {| type := classified param voltage; voltage_mv := voltage;
     level_percent := level; valid_voltage := true |}.

(** The voltages of the events dispatched in a call log, in order. *)
Fixpoint dispatched_voltages (l : list call) : list Z :=
  match l with
  | [] => []
  | m_evt_handler_called _ e :: l' => voltage_mv e :: dispatched_voltages l'
  | _ :: l' => dispatched_voltages l'
  end.

(** The state after the four driver calls of a tick that triggers. *)
Definition conversion_triggered (w : world) : world :=
  set_saadc {| drv_initialized := true; adc_state := NRF_SAADC_STATE_BUSY;
               secondary_buffer := false; sample_triggered := true |}
    (set_calls (calls w ++ [nrf_drv_saadc_init_called;
                            nrf_drv_saadc_channel_init_called;
                            nrf_drv_saadc_buffer_convert_called;
                            nrf_drv_saadc_sample_called]) w).

(** The example parameters with the two limits exchanged. *)
Definition misordered_init : batt_meas_init_t :=
  {| evt_handler := Some 1;
     batt_meas_param :=
       {| batt_mon_en_pin_used := false; batt_mon_en_pin_no := 0;
          adc_pin_no := 28; adc_pin_no_ain := 5;
          batt_voltage_limit_low := 4100; batt_voltage_limit_full := 3300;
          state_of_charge := soc_3000_100;
          voltage_divider := {| r_1_ohm := 10000; r_2_ohm := 10000 |} |} |}.

(** The configuration a state holds: parameters, handler, divider factor and
    whether the battery service is configured. *)
Definition config_is
    (p : batt_meas_param_t) (h : option m_batt_meas_event_handler_t)
    (f : spec_float) (c : bool) (w : world) : Prop :=
  m_batt_meas_param w = p /\ m_evt_handler w = h /\
  m_battery_divider_factor w = f /\ m_ble_bas_configured w = c.

(** [maintains I ok m]: from a state satisfying [I], however [m] ends, the
    state it leaves satisfies [I] and its call log is the one found followed
    by calls that all satisfy [ok]. *)
Definition maintains {A} (I : world -> Prop) (ok : call -> bool) (m : M A) : Prop :=
  forall w,
    I w ->
    match m w with
    | Returns _ w' | Fatal _ w' =>
        I w' /\
        exists added, calls w' = calls w ++ added /\ forallb ok added = true
    | Undefined | OutOfFuel => True
    end.

Definition event_type_eqb (a b : m_batt_meas_event_type_t) : bool :=
  match a, b with
  | M_BATT_MEAS_EVENT_DATA, M_BATT_MEAS_EVENT_DATA
  | M_BATT_MEAS_EVENT_LOW, M_BATT_MEAS_EVENT_LOW
  | M_BATT_MEAS_EVENT_FULL, M_BATT_MEAS_EVENT_FULL => true
  | _, _ => false
  end.

(** A voltage [adc_to_batt_voltage] can produce. *)
Definition rounded_voltage (v : Z) : bool :=
  ((0 <=? v) && (v <=? 65530) && (v mod 10 =? 0)) || (v =? 4).

(** A call that agrees with the configuration: a dispatch goes to the
    registered handler with an event whose type and level are those of its
    voltage, flagged valid; a queued voltage is a rounded one. *)
Definition agrees_with
    (p : batt_meas_param_t) (h : option m_batt_meas_event_handler_t)
    (c : call) : bool :=
  match c with
  | m_evt_handler_called h' e =>
      match h, batt_voltage_to_percent p (voltage_mv e) with
      | Some h0, Some level =>
          (h' =? h0) && (level_percent e =? level)
          && event_type_eqb (type e) (classified p (voltage_mv e))
          && valid_voltage e
      | _, _ => false
      end
  | app_sched_event_put_called v => rounded_voltage v
  | _ => true
  end.

(** Two measurement cycles in a row, the second triggered before the
    scheduler has run. *)
Definition two_cycles : list stimulus :=
  [timer_tick; saadc_interrupt (SAADC_EVENTS_END 512);
   timer_tick; saadc_interrupt (SAADC_EVENTS_END 1000);
   main_loop_pass].

(** The platform after initialisation with [example_init]: no timer armed,
    GPIOTE not initialised, collaborators that answer success. *)
Definition ready_platform : platform :=
  {| core := ready_world; timer_armed := None; gpiote_is_init := false;
     app_timer_create_status := NRF_SUCCESS;
     app_timer_start_status := NRF_SUCCESS;
     app_timer_stop_status := NRF_SUCCESS;
     ble_bas_init_status := NRF_SUCCESS;
     nrf_drv_gpiote_init_status := NRF_SUCCESS;
     service_calls := [] |}.

(** The calls [m_batt_meas_enable] makes to the pin and the timer. *)
Definition enable_calls (param : batt_meas_param_t) (meas_interval_ms : Z)
  : list service_call :=
  (if batt_mon_en_pin_used param
   then [nrf_drv_gpiote_out_set_called (batt_mon_en_pin_no param)] else [])
  ++ [app_timer_create_called; app_timer_start_called meas_interval_ms].

(** The calls [m_batt_meas_disable] makes. *)
Definition disable_calls (param : batt_meas_param_t) : list service_call :=
  (if batt_mon_en_pin_used param
   then [nrf_drv_gpiote_out_clear_called (batt_mon_en_pin_no param)] else [])
  ++ [app_timer_stop_called].

(** [all_from f first n]: [f] holds of the [n] integers from [first] on. *)
Fixpoint all_from (f : Z -> bool) (first : Z) (n : nat) : bool :=
  match n with
  | O => true
  | S n => f first && all_from f (first + 1) n
  end.

(** The test that a sample of the converter makes the conversion undefined
    with the 1:1 divider. *)
Definition negative_sample_undefined (res sample : Z) : bool :=
  match adc_to_tmp_voltage res equal_divider_factor (f32_of_Z 1)
          (to_uint32 sample) with
  | None => true
  | Some _ => false
  end.

(* ------------------------------------------------------------------ *)
(** ** The reference configuration is what the code produces *)

(** 0.6f is the correctly rounded quotient of 6 and 10. *)
Example ADC_REFERENCE_VOLTAGE_is_six_tenths :
  ADC_REFERENCE_VOLTAGE = f32_div (f32_of_Z 6) (f32_of_Z 10).
Proof. reflexivity. Qed.

(** Initialisation from reset with [example_init] ends in [ready_world]. *)
Example m_batt_meas_init_reaches_ready_world :
  m_batt_meas_init 1 (Some 100) (Some example_init) 4 reset_world
  = Returns M_BATT_STATUS_CODE_SUCCESS
      (set_calls [nrf_gpio_cfg_input_called 28; nrf_drv_saadc_init_called;
                  nrf_drv_saadc_calibrate_offset_called;
                  nrf_drv_saadc_uninit_called] ready_world).
Proof. vm_compute. reflexivity. Qed.

(** A tick in [ready_world] leads to [sampling_world]. *)
Example tick_reaches_sampling_world :
  app_timer_periodic_handler ready_world
  = Returns tt
      (set_calls [nrf_drv_saadc_init_called; nrf_drv_saadc_channel_init_called;
                  nrf_drv_saadc_buffer_convert_called;
                  nrf_drv_saadc_sample_called] sampling_world).
Proof. vm_compute. reflexivity. Qed.

(* ------------------------------------------------------------------ *)
(** ** General facts about the monad *)

Lemma bind_returns {A B} (m : M A) (k : A -> M B) w b w' :
  bind m k w = Returns b w' ->
  exists a w1, m w = Returns a w1 /\ k a w1 = Returns b w'.
Proof.
  unfold bind. destruct (m w) as [a w1 | | | ]; try discriminate.
  intros H. exists a, w1. split; [reflexivity | exact H].
Qed.

Lemma APP_ERROR_CHECK_returns err w u w' :
  APP_ERROR_CHECK err w = Returns u w' -> err = NRF_SUCCESS /\ w' = w.
Proof.
  unfold APP_ERROR_CHECK, APP_ERROR_HANDLER, ret.
  destruct (err =? NRF_SUCCESS) eqn:E; [ | discriminate].
  intros H. inversion H. apply Z.eqb_eq in E. auto.
Qed.

(** Unfolds the primitives of the monad in the goal and in hypotheses. *)
Ltac unfold_proc :=
  unfold APP_ERROR_CHECK, APP_ERROR_HANDLER, record, put_saadc, modify, get,
    undefined, bind, ret in *.

(* ------------------------------------------------------------------ *)
(** ** The state-of-charge lookup *)

Section SocLookup.

Variable p : batt_meas_param_t.
Let t := state_of_charge p.

Hypothesis table_in_range : soc_in_range t.
Hypothesis delta_mv_positive : 0 < delta_mv t.
Hypothesis table_not_empty : 1 <= num_elements t.

(** Truncating and floor division agree once a negative index has been
    clamped to zero. *)
Lemma quot_clamped_is_div a b :
  0 < b -> Z.max 0 (Z.quot a b) = Z.max 0 (a / b).
Proof.
  intros Hb. destruct (Z_lt_le_dec a 0) as [Hneg | Hpos].
  - assert (Z.quot a b <= 0).
    { rewrite <- (Z.opp_involutive a), Z.quot_opp_l by lia.
      pose proof (Z.quot_pos (- a) b ltac:(lia) ltac:(lia)). lia. }
    assert (a / b < 0) by (apply Z.div_lt_upper_bound; lia).
    lia.
  - rewrite Z.quot_div_nonneg by lia. reflexivity.
Qed.

(** The lookup is defined for every voltage of the [uint16_t] range. *)
Lemma batt_voltage_to_percent_defined v :
  0 <= v <= UINT16_MAX ->
  exists level, batt_voltage_to_percent p v = Some level.
Proof.
  intros Hv. unfold batt_voltage_to_percent. fold t.
  destruct table_in_range as (Hn & Hf & Hd & Hlen).
  replace (delta_mv t =? 0) with false by (symmetry; apply Z.eqb_neq; lia).
  set (q := to_int16 (Z.quot (v - first_element_mv t) (delta_mv t))).
  pose proof (to_int16_range q) as _.
  pose proof (to_int16_range (Z.quot (v - first_element_mv t) (delta_mv t))) as Hq.
  fold q in Hq. unfold INT16_MAX in Hq.
  assert (Hidx : forall i, 0 <= i < num_elements t ->
                 exists level, array_get (voltage_to_soc t) i = Some level).
  { intros i Hi. unfold array_get.
    replace (i <? 0) with false by (symmetry; apply Z.ltb_ge; lia).
    destruct (nth_error (voltage_to_soc t) (Z.to_nat i)) eqn:E; eauto.
    apply nth_error_None in E. lia. }
  destruct (q <? 0) eqn:E1; [apply Hidx; lia | ].
  apply Z.ltb_ge in E1.
  destruct (q >? num_elements t - 1) eqn:E2.
  - apply Hidx. apply Z.gtb_lt in E2.
    rewrite to_int16_id by (unfold INT16_MAX; lia). lia.
  - apply Hidx. rewrite Z.gtb_ltb in E2. apply Z.ltb_ge in E2. lia.
Qed.

(** Whenever the quotient fits the [int16_t] it is stored in, the code
    computes the specified lookup. *)
Lemma batt_voltage_to_percent_refines_spec v :
  - 32768 <= Z.quot (v - first_element_mv t) (delta_mv t) <= INT16_MAX ->
  batt_voltage_to_percent p v = voltage_to_percent_spec t v.
Proof.
  intros Hfit. unfold batt_voltage_to_percent, voltage_to_percent_spec. fold t.
  destruct table_in_range as (Hn & Hf & Hd & Hlen).
  replace (delta_mv t =? 0) with false by (symmetry; apply Z.eqb_neq; lia).
  pose proof (quot_clamped_is_div (v - first_element_mv t) (delta_mv t)
                delta_mv_positive) as Hqd.
  revert Hfit Hqd.
  generalize (Z.quot (v - first_element_mv t) (delta_mv t)) as q.
  generalize ((v - first_element_mv t) / delta_mv t) as d.
  intros d q Hfit Hqd.
  rewrite (to_int16_id q) by lia.
  unfold array_get, INT16_MAX in *.
  destruct (q <? 0) eqn:E1.
  - apply Z.ltb_lt in E1. simpl.
    replace (Z.max 0 (Z.min d (num_elements t - 1))) with 0 by lia.
    reflexivity.
  - apply Z.ltb_ge in E1.
    replace (Z.max 0 (Z.min d (num_elements t - 1)))
      with (Z.min q (num_elements t - 1)) by lia.
    destruct (q >? num_elements t - 1) eqn:E2.
    + apply Z.gtb_lt in E2.
      rewrite to_int16_id by (unfold INT16_MAX in *; lia).
      replace (num_elements t - 1 <? 0) with false
        by (symmetry; apply Z.ltb_ge; lia).
      f_equal. f_equal. lia.
    + rewrite Z.gtb_ltb in E2. apply Z.ltb_ge in E2.
      replace (q <? 0) with false by (symmetry; apply Z.ltb_ge; lia).
      f_equal. f_equal. lia.
Qed.

(** A step of at least 2 mV keeps every quotient within [int16_t]. *)
Lemma quotient_fits_int16 v :
  0 <= v <= UINT16_MAX -> 2 <= delta_mv t ->
  - 32768 <= Z.quot (v - first_element_mv t) (delta_mv t) <= INT16_MAX.
Proof.
  intros Hv Hd. destruct table_in_range as (Hn & Hf & _ & _).
  unfold UINT16_MAX, INT16_MAX in *.
  destruct (Z_lt_le_dec (v - first_element_mv t) 0).
  - rewrite <- (Z.opp_involutive (v - first_element_mv t)), Z.quot_opp_l by lia.
    pose proof (Z.quot_pos (- (v - first_element_mv t)) (delta_mv t)
                  ltac:(lia) ltac:(lia)).
    assert (Z.quot (- (v - first_element_mv t)) (delta_mv t) < 32768); [ | lia].
    apply Z.quot_lt_upper_bound; lia.
  - rewrite Z.quot_div_nonneg by lia.
    pose proof (Z.div_pos (v - first_element_mv t) (delta_mv t)
                  ltac:(lia) ltac:(lia)).
    assert ((v - first_element_mv t) / delta_mv t < 32768); [ | lia].
    apply Z.div_lt_upper_bound; lia.
Qed.

End SocLookup.

(** With the table of the specification's example the code returns the first
    level below the table, the last level above it, and the lower bucket
    inside a step. *)
Example batt_voltage_to_percent_examples :
  batt_voltage_to_percent example_param 2500 = Some 0 /\
  batt_voltage_to_percent example_param 5000 = Some 100 /\
  batt_voltage_to_percent example_param 3050 = Some 0.
Proof. repeat split; reflexivity. Qed.

(** The wrap also occurs downwards: with the table starting at 65535 mV in
    steps of 1 mV, the quotient for 0 mV is -65535, which wraps to index 1. *)
Example batt_voltage_to_percent_negative_wrap :
  let table := {| num_elements := 11; first_element_mv := 65535; delta_mv := 1;
                  voltage_to_soc := [0; 10; 20; 30; 40; 50; 60; 70; 80; 90; 100] |} in
  voltage_to_percent_spec table 0 = Some 0 /\
  batt_voltage_to_percent (with_state_of_charge table example_param) 0 = Some 10.
Proof. split; reflexivity. Qed.

(** C5: at a table that satisfies the invariants (11 levels from 3000 mV,
    step 1 mV) and the input 40000 mV, the specified lookup (floor division,
    clamp, read) yields the last level, 100, while the code yields the first
    level, 0: the quotient 37000 does not fit the [int16_t] index, wraps to a
    negative value and is clamped to 0 instead of [num_elements - 1]. *)
Theorem batt_voltage_to_percent_index_wraps :
  soc_in_range soc_3000_1 /\ 0 < delta_mv soc_3000_1 /\
  1 <= num_elements soc_3000_1 /\ 0 <= 40000 <= UINT16_MAX /\
  voltage_to_percent_spec soc_3000_1 40000 = Some 100 /\
  batt_voltage_to_percent (with_state_of_charge soc_3000_1 example_param) 40000
    = Some 0.
Proof.
  unfold soc_in_range, UINT16_MAX. simpl.
  repeat split; try lia; reflexivity.
Qed.

(** [param_check] does not read the state-of-charge table. *)
Lemma param_check_ignores_state_of_charge t i w :
  param_check (Some (init_with_state_of_charge t i)) w = param_check (Some i) w.
Proof. reflexivity. Qed.

(** C9: the division by [delta_mv] in [batt_voltage_to_percent] is
    unguarded and nothing in the module checks the table.  (1) With
    [delta_mv = 0] the lookup is undefined for every voltage, whatever the
    other fields are.  (2) [param_check] returns the same status and state
    whatever table the parameters carry.  (3) [m_batt_meas_init] accepts and
    stores a configuration whose [delta_mv] is 0, after which the lookup is
    undefined.  (4) With [delta_mv > 0] (and a non-empty table of the stated
    length) the lookup is defined for every [uint16_t] voltage. *)
Theorem soc_lookup_needs_unchecked_delta_mv :
  (forall p n first levels v,
     batt_voltage_to_percent
       (with_state_of_charge
          {| num_elements := n; first_element_mv := first; delta_mv := 0;
             voltage_to_soc := levels |} p) v = None) /\
  (forall t i w,
     param_check (Some (init_with_state_of_charge t i)) w
     = param_check (Some i) w) /\
  (exists w,
     m_batt_meas_init 1 (Some 100)
       (Some (init_with_state_of_charge soc_3000_0 example_init)) 4%nat
       reset_world = Returns M_BATT_STATUS_CODE_SUCCESS w /\
     delta_mv (state_of_charge (m_batt_meas_param w)) = 0 /\
     forall v, batt_voltage_to_percent (m_batt_meas_param w) v = None) /\
  (forall p v,
     soc_in_range (state_of_charge p) ->
     0 < delta_mv (state_of_charge p) ->
     1 <= num_elements (state_of_charge p) ->
     0 <= v <= UINT16_MAX ->
     exists level, batt_voltage_to_percent p v = Some level).
Proof.
  split; [ | split; [ | split]].
  - intros. reflexivity.
  - intros. reflexivity.
  - eexists. split; [vm_compute; reflexivity | ].
    split; [reflexivity | intros v; reflexivity].
  - intros p v Hr Hd Hn Hv. now apply batt_voltage_to_percent_defined.
Qed.

Lemma soc_lookup_needs_unchecked_delta_mv_witness :
  exists level, batt_voltage_to_percent example_param 3700 = Some level.
Proof.
  destruct soc_lookup_needs_unchecked_delta_mv as (_ & _ & _ & Hdef).
  apply Hdef.
  - unfold soc_in_range, UINT16_MAX; simpl; lia.
  - simpl; lia.
  - simpl; lia.
  - unfold UINT16_MAX; lia.
Defined.

(* ------------------------------------------------------------------ *)
(** ** The deferred handler *)

(** What a return of [batt_event_handler_adc] implies: the lookup was
    defined, a handler was registered, the battery service (when configured)
    was updated first and the handler was then called once, with the event
    built from the payload; the driver and the queue were not touched. *)
Lemma batt_event_handler_adc_returns v w u w' :
  batt_event_handler_adc v w = Returns u w' ->
  exists h level,
    m_evt_handler w = Some h /\
    batt_voltage_to_percent (m_batt_meas_param w) v = Some level /\
    calls w' =
      calls w
      ++ (if m_ble_bas_configured w
          then [ble_bas_battery_level_update_called level] else [])
      ++ [m_evt_handler_called h
            {| type := classified (m_batt_meas_param w) v; voltage_mv := v;
               level_percent := level; valid_voltage := true |}] /\
    saadc w' = saadc w /\ sched_queue w' = sched_queue w /\
    m_batt_meas_param w' = m_batt_meas_param w /\
    m_evt_handler w' = m_evt_handler w /\
    m_ble_bas_configured w' = m_ble_bas_configured w.
Proof.
  unfold batt_event_handler_adc, ble_bas_battery_level_update, classified.
  unfold_proc.
  destruct (batt_voltage_to_percent (m_batt_meas_param w) v) as [level | ];
    [ | discriminate].
  destruct (m_ble_bas_configured w) eqn:Hc; simpl.
  - destruct (negb (bas_status w =? NRF_SUCCESS)
              && negb (bas_status w =? NRF_ERROR_INVALID_STATE)
              && negb (bas_status w =? BLE_ERROR_GATTS_SYS_ATTR_MISSING));
      simpl; [discriminate | ].
    destruct (m_evt_handler w) as [h | ] eqn:Hh; [ | discriminate].
    intros H; inversion H; subst; clear H. simpl.
    exists h, level. rewrite <- app_assoc. simpl. repeat split; auto.
  - destruct (m_evt_handler w) as [h | ] eqn:Hh; [ | discriminate].
    intros H; inversion H; subst; clear H. simpl.
    exists h, level. repeat split; auto.
Qed.

(** C8: when [batt_event_handler_adc] returns, the event it handed to the
    registered handler carries the payload voltage and is of type LOW when
    the voltage is at most [batt_voltage_limit_low], otherwise FULL when it
    is at least [batt_voltage_limit_full], otherwise DATA.  With the limits
    3300 mV and 4100 mV the handler returns and reports 3300 mV as LOW,
    4100 mV as FULL and 3700 mV as DATA. *)
Theorem batt_event_handler_adc_classifies :
  (forall v w u w',
     batt_event_handler_adc v w = Returns u w' ->
     exists h e earlier,
       calls w' = earlier ++ [m_evt_handler_called h e] /\
       voltage_mv e = v /\
       let low := batt_voltage_limit_low (m_batt_meas_param w) in
       let full := batt_voltage_limit_full (m_batt_meas_param w) in
       (v <= low -> type e = M_BATT_MEAS_EVENT_LOW) /\
       (low < v -> full <= v -> type e = M_BATT_MEAS_EVENT_FULL) /\
       (low < v -> v < full -> type e = M_BATT_MEAS_EVENT_DATA)) /\
  batt_voltage_limit_low (m_batt_meas_param ready_world) = 3300 /\
  batt_voltage_limit_full (m_batt_meas_param ready_world) = 4100 /\
  (exists w',
     batt_event_handler_adc 3300 ready_world = Returns tt w' /\
     calls w' = [m_evt_handler_called 1
                   {| type := M_BATT_MEAS_EVENT_LOW; voltage_mv := 3300;
                      level_percent := 30; valid_voltage := true |}]) /\
  (exists w',
     batt_event_handler_adc 4100 ready_world = Returns tt w' /\
     calls w' = [m_evt_handler_called 1
                   {| type := M_BATT_MEAS_EVENT_FULL; voltage_mv := 4100;
                      level_percent := 100; valid_voltage := true |}]) /\
  (exists w',
     batt_event_handler_adc 3700 ready_world = Returns tt w' /\
     calls w' = [m_evt_handler_called 1
                   {| type := M_BATT_MEAS_EVENT_DATA; voltage_mv := 3700;
                      level_percent := 70; valid_voltage := true |}]).
Proof.
  split; [ | repeat split; try reflexivity;
             eexists; (split; [vm_compute; reflexivity | reflexivity])].
  intros v w u w' H.
  destruct (batt_event_handler_adc_returns _ _ _ _ H)
    as (h & level & _ & _ & Hcalls & _).
  rewrite app_assoc in Hcalls.
  eexists h, _, _. split; [exact Hcalls | ].
  split; [reflexivity | ].
  cbv zeta. unfold classified. cbn [type].
  repeat split; intros.
  - replace (v <=? batt_voltage_limit_low (m_batt_meas_param w)) with true
      by (symmetry; apply Z.leb_le; lia).
    reflexivity.
  - replace (v <=? batt_voltage_limit_low (m_batt_meas_param w)) with false
      by (symmetry; apply Z.leb_gt; lia).
    replace (v >=? batt_voltage_limit_full (m_batt_meas_param w)) with true
      by (symmetry; rewrite Z.geb_leb; apply Z.leb_le; lia).
    reflexivity.
  - replace (v <=? batt_voltage_limit_low (m_batt_meas_param w)) with false
      by (symmetry; apply Z.leb_gt; lia).
    replace (v >=? batt_voltage_limit_full (m_batt_meas_param w)) with false
      by (symmetry; rewrite Z.geb_leb; apply Z.leb_gt; lia).
    reflexivity.
Qed.

Lemma batt_event_handler_adc_classifies_witness :
  exists h e earlier,
    calls (set_calls
             [m_evt_handler_called 1
                {| type := M_BATT_MEAS_EVENT_DATA; voltage_mv := 3700;
                   level_percent := 70; valid_voltage := true |}]
             (set_m_initial_batt_level_percent 70 ready_world))
      = earlier ++ [m_evt_handler_called h e] /\
    voltage_mv e = 3700 /\
    (3700 <= 3300 -> type e = M_BATT_MEAS_EVENT_LOW) /\
    (3300 < 3700 -> 4100 <= 3700 -> type e = M_BATT_MEAS_EVENT_FULL) /\
    (3300 < 3700 -> 3700 < 4100 -> type e = M_BATT_MEAS_EVENT_DATA).
Proof.
  exact (proj1 batt_event_handler_adc_classifies 3700 ready_world tt _ eq_refl).
Defined.

(* ------------------------------------------------------------------ *)
(** ** What a procedure adds to the call log *)

Section AddsOnly.

Variable ok : call -> bool.

Lemma adds_only_ret {A} (a : A) : adds_only ok (ret a).
Proof. intros w. exists []. split; [now rewrite app_nil_r | reflexivity]. Qed.

Lemma adds_only_get {A} (f : world -> A) : adds_only ok (get f).
Proof. intros w. exists []. split; [now rewrite app_nil_r | reflexivity]. Qed.

Lemma adds_only_modify (f : world -> world) :
  (forall w, calls (f w) = calls w) -> adds_only ok (modify f).
Proof.
  intros Hf w. exists []. simpl. split; [now rewrite Hf, app_nil_r | reflexivity].
Qed.

Lemma adds_only_record c : ok c = true -> adds_only ok (record c).
Proof.
  intros Hc w. exists [c]. simpl. split; [reflexivity | now rewrite Hc].
Qed.

Lemma adds_only_undefined {A} : adds_only ok (@undefined A).
Proof. intros w. exact I. Qed.

Lemma adds_only_fatal {A} e : adds_only ok (@APP_ERROR_HANDLER A e).
Proof. intros w. exists []. split; [now rewrite app_nil_r | reflexivity]. Qed.

Lemma adds_only_check e : adds_only ok (APP_ERROR_CHECK e).
Proof.
  unfold APP_ERROR_CHECK. destruct (e =? NRF_SUCCESS);
    [apply adds_only_ret | apply adds_only_fatal].
Qed.

Lemma adds_only_out_of_fuel {A} : adds_only ok (fun _ => @OutOfFuel A).
Proof. intros w. exact I. Qed.

Lemma adds_only_bind {A B} (m : M A) (k : A -> M B) :
  adds_only ok m -> (forall a, adds_only ok (k a)) -> adds_only ok (bind m k).
Proof.
  intros Hm Hk w. unfold bind. specialize (Hm w).
  destruct (m w) as [a w1 | e w1 | | ]; auto.
  destruct Hm as (l1 & E1 & F1). specialize (Hk a w1).
  destruct (k a w1) as [b w2 | e w2 | | ]; auto;
    destruct Hk as (l2 & E2 & F2); exists (l1 ++ l2);
    (split; [rewrite E2, E1, app_assoc; reflexivity
            | rewrite forallb_app, F1, F2; reflexivity]).
Qed.

End AddsOnly.

(** Decomposes a procedure built from the primitives above. *)
Ltac adds_only_step :=
  first
    [ apply adds_only_bind; [ | intros ]
    | apply adds_only_ret
    | apply adds_only_get
    | apply adds_only_check
    | apply adds_only_fatal
    | apply adds_only_undefined
    | apply adds_only_out_of_fuel
    | apply adds_only_record; reflexivity
    | apply adds_only_modify; intros; reflexivity
    | match goal with
      | |- adds_only _ (if ?b then _ else _) => destruct b
      | |- adds_only _ (match ?x with _ => _ end) => destruct x
      | |- adds_only _ (let (_, _) := ?x in _) => destruct x
      end ].

Ltac adds_only_auto := repeat adds_only_step.

Lemma adc_to_batt_voltage_adds_nothing res ok adc_val :
  adds_only ok (adc_to_batt_voltage res adc_val).
Proof. unfold adc_to_batt_voltage. cbn. adds_only_auto. Qed.

Lemma saadc_event_handler_interrupt_adds res evt :
  adds_only not_sink_nor_dispatch (saadc_event_handler_interrupt res evt).
Proof.
  unfold saadc_event_handler_interrupt, nrf_drv_saadc_uninit,
    app_sched_event_put.
  apply adds_only_bind; [ | intros; unfold put_saadc; adds_only_auto].
  destruct evt; [ | adds_only_auto | adds_only_auto].
  apply adds_only_bind; [apply adc_to_batt_voltage_adds_nothing | intros [e v]].
  adds_only_auto.
Qed.

Lemma saadc_event_handler_interrupt_valid res evt :
  adds_only not_invalid_event (saadc_event_handler_interrupt res evt).
Proof.
  unfold saadc_event_handler_interrupt, nrf_drv_saadc_uninit,
    app_sched_event_put.
  apply adds_only_bind; [ | intros; unfold put_saadc; adds_only_auto].
  destruct evt; [ | adds_only_auto | adds_only_auto].
  apply adds_only_bind; [apply adc_to_batt_voltage_adds_nothing | intros [e v]].
  adds_only_auto.
Qed.

Lemma batt_event_handler_adc_valid v :
  adds_only not_invalid_event (batt_event_handler_adc v).
Proof.
  unfold batt_event_handler_adc, ble_bas_battery_level_update.
  adds_only_auto.
Qed.

Lemma app_timer_periodic_handler_valid :
  adds_only not_invalid_event app_timer_periodic_handler.
Proof.
  unfold app_timer_periodic_handler, saadc_init, nrf_drv_saadc_init,
    nrf_drv_saadc_channel_init, nrf_drv_saadc_buffer_convert,
    nrf_drv_saadc_sample, put_saadc.
  adds_only_auto.
Qed.

Lemma SAADC_IRQHandler_valid res irq :
  adds_only not_invalid_event (SAADC_IRQHandler res irq).
Proof.
  unfold SAADC_IRQHandler, put_saadc.
  apply adds_only_bind; [adds_only_auto | intros cb].
  destruct irq, (adc_state cb); try apply adds_only_ret.
  - destruct (drv_initialized cb && sample_triggered cb); [ | apply adds_only_ret].
    do 3 (apply adds_only_bind; [adds_only_auto | intros]).
    apply saadc_event_handler_interrupt_valid.
  - destruct (drv_initialized cb); [ | apply adds_only_ret].
    apply adds_only_bind; [adds_only_auto | intros].
    apply saadc_event_handler_interrupt_valid.
Qed.

Lemma app_sched_execute_valid : adds_only not_invalid_event app_sched_execute.
Proof.
  unfold app_sched_execute.
  apply adds_only_bind; [adds_only_auto | intros q].
  induction (length q) as [ | n IH]; simpl; [apply adds_only_ret | ].
  apply adds_only_bind; [adds_only_auto | intros q'].
  destruct q' as [ | v q']; [apply adds_only_ret | ].
  apply adds_only_bind; [adds_only_auto | intros].
  apply adds_only_bind; [apply batt_event_handler_adc_valid | intros; exact IH].
Qed.

Lemma run_valid res l : adds_only not_invalid_event (run res l).
Proof.
  induction l as [ | s l IH]; simpl; [apply adds_only_ret | ].
  apply adds_only_bind; [ | intros; exact IH].
  destruct s; simpl.
  - apply app_timer_periodic_handler_valid.
  - apply SAADC_IRQHandler_valid.
  - apply app_sched_execute_valid.
Qed.

Lemma wait_while_cal_in_progress_valid res fuel :
  adds_only not_invalid_event (wait_while_cal_in_progress res fuel).
Proof.
  induction fuel as [ | fuel IH]; simpl; [apply adds_only_out_of_fuel | ].
  apply adds_only_bind.
  - unfold calibration_interrupt_window.
    do 2 (apply adds_only_bind; [adds_only_auto | intros]).
    destruct (adc_state a); try apply adds_only_ret.
    destruct a0 as [[ | n] | ]; [ | adds_only_auto | apply adds_only_ret].
    apply SAADC_IRQHandler_valid.
  - intros _. apply adds_only_bind; [adds_only_auto | intros b].
    destruct b; [exact IH | apply adds_only_ret].
Qed.

Lemma m_batt_meas_init_valid res p_handle p_init fuel :
  adds_only not_invalid_event (m_batt_meas_init res p_handle p_init fuel).
Proof.
  unfold m_batt_meas_init.
  destruct p_handle; [ | apply adds_only_ret].
  destruct p_init as [init | ]; [ | apply adds_only_ret].
  apply adds_only_bind; [unfold param_check; adds_only_auto | intros].
  do 4 (apply adds_only_bind; [adds_only_auto | intros]).
  apply adds_only_bind;
    [unfold nrf_drv_gpiote_out_init; adds_only_auto | intros].
  apply adds_only_bind; [unfold nrf_gpio_cfg_input; adds_only_auto | intros].
  apply adds_only_bind; [ | intros; adds_only_auto].
  unfold saadc_calibrate, nrf_drv_saadc_init, nrf_drv_saadc_calibrate_offset,
    put_saadc.
  do 5 (apply adds_only_bind; [adds_only_auto | intros]).
  apply adds_only_bind; [apply wait_while_cal_in_progress_valid | intros].
  apply adds_only_ret.
Qed.

(** C10: every event handed to the registered handler has [valid_voltage]
    set.  However [batt_event_handler_adc], the start-up [m_batt_meas_init]
    or any sequence of timer ticks, converter interrupts and scheduler passes
    ends (by returning or in the fatal error handler), the calls it added to
    the log contain no dispatch of an event whose flag is false; and a
    measurement cycle does dispatch an event, flagged valid. *)
Theorem every_dispatched_event_is_flagged_valid :
  (forall v, adds_only not_invalid_event (batt_event_handler_adc v)) /\
  (forall res p_handle p_init fuel,
     adds_only not_invalid_event (m_batt_meas_init res p_handle p_init fuel)) /\
  (forall res stimuli, adds_only not_invalid_event (run res stimuli)) /\
  (exists w' e,
     run 1 [timer_tick; saadc_interrupt (SAADC_EVENTS_END 512); main_loop_pass]
       ready_world = Returns tt w' /\
     In (m_evt_handler_called 1 e) (calls w') /\ valid_voltage e = true).
Proof.
  split; [exact batt_event_handler_adc_valid | ].
  split; [exact m_batt_meas_init_valid | ].
  split; [exact run_valid | ].
  eexists. eexists. split; [vm_compute; reflexivity | ].
  split; [simpl; do 6 right; left; reflexivity | reflexivity].
Qed.

(* ------------------------------------------------------------------ *)
(** ** Parameter validation *)




(* ------------------------------------------------------------------ *)
(** ** The raw-code-to-millivolt conversion *)

(** [adc_to_batt_voltage] with the configured gain (1): the truncated
    floating-point value, plus 5, truncated to tens. *)
Lemma adc_to_batt_voltage_eq res adc_val w :
  adc_to_batt_voltage res adc_val w =
  match adc_to_tmp_voltage res (m_battery_divider_factor w) (f32_of_Z 1) adc_val with
  | Some tmp_voltage =>
      Returns (M_BATT_STATUS_CODE_SUCCESS,
               to_uint16 (Z.quot (tmp_voltage + 5) 10 * 10)) w
  | None => Undefined
  end.
Proof.
  unfold adc_to_batt_voltage, adc_gain_enum_to_real_gain, ADC_GAIN.
  cbn [Z.eqb NRF_SAADC_GAIN1 NRF_SAADC_GAIN1_6 NRF_SAADC_GAIN1_5
       NRF_SAADC_GAIN1_4 NRF_SAADC_GAIN1_3 NRF_SAADC_GAIN1_2 Pos.eqb].
  unfold_proc. cbn [Z.eqb M_BATT_STATUS_CODE_SUCCESS NRF_SUCCESS].
  destruct (adc_to_tmp_voltage res (m_battery_divider_factor w) (f32_of_Z 1) adc_val);
    reflexivity.
Qed.

Lemma f32_to_uint16_range x t :
  f32_to_uint16 x = Some t -> 0 <= t <= UINT16_MAX.
Proof.
  unfold f32_to_uint16. destruct (trunc x) as [t' | ]; [ | discriminate].
  destruct ((0 <=? t') && (t' <=? UINT16_MAX)) eqn:E; [ | discriminate].
  intros H; inversion H; subst.
  apply andb_true_iff in E. destruct E as [E1 E2].
  apply Z.leb_le in E1. apply Z.leb_le in E2. lia.
Qed.

(** Adding 5 and truncating to tens rounds to the nearest multiple of 10
    (halves upwards), and the result fits [uint16_t] below 65535. *)
Lemma add_5_truncate_to_tens t :
  0 <= t < UINT16_MAX ->
  to_uint16 (Z.quot (t + 5) 10 * 10) = 10 * ((t + 5) / 10) /\
  (10 * ((t + 5) / 10)) mod 10 = 0 /\
  t - 4 <= 10 * ((t + 5) / 10) <= t + 5.
Proof.
  unfold UINT16_MAX. intros Ht.
  rewrite Z.quot_div_nonneg by lia.
  pose proof (Z.div_mod (t + 5) 10 ltac:(lia)) as Hdm.
  pose proof (Z.mod_pos_bound (t + 5) 10 ltac:(lia)) as Hm.
  split; [ | split].
  - rewrite to_uint16_id; [lia | ]. unfold UINT16_MAX.
    assert ((t + 5) / 10 <= 6553); [ | lia].
    apply Z.lt_succ_r. apply Z.div_lt_upper_bound; lia.
  - rewrite Z.mul_comm. apply Z.mod_mul. lia.
  - lia.
Qed.






(* ------------------------------------------------------------------ *)
(** ** The periodic tick *)

(** [saadc_init] either ends in the error handler or returns success: no
    status of the driver is ever passed on to its caller. *)
Lemma saadc_init_returns_only_success w code w' :
  saadc_init w = Returns code w' -> code = M_BATT_STATUS_CODE_SUCCESS.
Proof.
  unfold saadc_init. intros H.
  repeat (apply bind_returns in H; destruct H as (? & ? & _ & H)).
  unfold ret in H. inversion H. reflexivity.
Qed.

(** A tick while the driver is initialised: [nrf_drv_saadc_init] refuses,
    and the refusal goes to the error handler inside [saadc_init]. *)
Lemma tick_while_initialized w :
  drv_initialized (saadc w) = true ->
  app_timer_periodic_handler w
  = Fatal NRF_ERROR_INVALID_STATE
      (set_calls (calls w ++ [nrf_drv_saadc_init_called]) w).
Proof.
  intros Hi. unfold app_timer_periodic_handler, saadc_init, nrf_drv_saadc_init.
  unfold_proc. simpl. rewrite Hi. reflexivity.
Qed.

(** A tick while the driver is released arms the buffer and triggers the
    conversion. *)
Lemma tick_while_released w :
  drv_initialized (saadc w) = false ->
  app_timer_periodic_handler w
  = Returns tt
      (set_saadc {| drv_initialized := true; adc_state := NRF_SAADC_STATE_BUSY;
                    secondary_buffer := false; sample_triggered := true |}
         (set_calls (calls w ++ [nrf_drv_saadc_init_called;
                                 nrf_drv_saadc_channel_init_called;
                                 nrf_drv_saadc_buffer_convert_called;
                                 nrf_drv_saadc_sample_called]) w)).
Proof.
  intros Hi. unfold app_timer_periodic_handler, saadc_init, nrf_drv_saadc_init,
    nrf_drv_saadc_channel_init, nrf_drv_saadc_buffer_convert,
    nrf_drv_saadc_sample.
  unfold_proc. simpl. rewrite Hi. simpl.
  repeat rewrite <- app_assoc. reflexivity.
Qed.

(* ------------------------------------------------------------------ *)
(** ** The interrupt handler *)

(** What a return of [saadc_event_handler_interrupt] on a DONE event
    implies: the sample was converted to millivolts there and then, the
    converted voltage was queued for the deferred handler, and the driver
    was released; nothing else changed. *)
Lemma saadc_event_handler_interrupt_done res p_buffer w u w' :
  saadc_event_handler_interrupt res (NRF_DRV_SAADC_EVT_DONE p_buffer) w
    = Returns u w' ->
  exists voltage,
    adc_to_batt_voltage res (to_uint32 p_buffer) w
      = Returns (M_BATT_STATUS_CODE_SUCCESS, voltage) w /\
    sched_queue w' = sched_queue w ++ [voltage] /\
    calls w' = calls w ++ [app_sched_event_put_called voltage;
                           nrf_drv_saadc_uninit_called] /\
    saadc w' = saadc_uninitialized /\
    m_batt_meas_param w' = m_batt_meas_param w /\
    m_evt_handler w' = m_evt_handler w /\
    m_ble_bas_configured w' = m_ble_bas_configured w /\
    m_initial_batt_level_percent w' = m_initial_batt_level_percent w /\
    m_adc_cal_in_progress w' = m_adc_cal_in_progress w.
Proof.
  unfold saadc_event_handler_interrupt.
  unfold bind at 1. unfold bind at 1.
  rewrite adc_to_batt_voltage_eq.
  destruct (adc_to_tmp_voltage res (m_battery_divider_factor w) (f32_of_Z 1)
              (to_uint32 p_buffer)) as [t | ]; [ | discriminate].
  unfold app_sched_event_put, nrf_drv_saadc_uninit. unfold_proc. simpl.
  destruct (Z.of_nat (length (sched_queue w)) <? sched_queue_size w);
    simpl; [ | discriminate].
  intros H; inversion H; subst; clear H. simpl.
  eexists. split; [reflexivity | ].
  rewrite <- app_assoc. simpl. repeat split; reflexivity.
Qed.

(** On the other events the handler only clears the calibration flag (for
    CALIBRATEDONE) and releases the driver. *)
Lemma saadc_event_handler_interrupt_other res evt w :
  (forall p, evt <> NRF_DRV_SAADC_EVT_DONE p) ->
  saadc_event_handler_interrupt res evt w
  = Returns tt
      (set_saadc saadc_uninitialized
         (set_calls (calls w ++ [nrf_drv_saadc_uninit_called])
            (match evt with
             | NRF_DRV_SAADC_EVT_CALIBRATEDONE => set_m_adc_cal_in_progress false w
             | _ => w
             end))).
Proof.
  intros Hne. destruct evt as [p | | ]; [now elim (Hne p) | | ]; reflexivity.
Qed.

(** The interrupt handler reads neither the state-of-charge table nor the
    limits: with other parameters stored it does the same. *)
Lemma saadc_event_handler_interrupt_ignores_param res evt p w :
  saadc_event_handler_interrupt res evt (set_m_batt_meas_param p w)
  = outcome_map (set_m_batt_meas_param p) (saadc_event_handler_interrupt res evt w).
Proof.
  destruct evt as [s | | ]; [ | reflexivity | reflexivity].
  unfold saadc_event_handler_interrupt, app_sched_event_put,
    nrf_drv_saadc_uninit.
  unfold_proc. rewrite !adc_to_batt_voltage_eq.
  cbn [m_battery_divider_factor set_m_batt_meas_param].
  destruct (adc_to_tmp_voltage res (m_battery_divider_factor w) (f32_of_Z 1)
              (to_uint32 s)) as [t | ]; [ | reflexivity].
  simpl.
  destruct (Z.of_nat (length (sched_queue w)) <? sched_queue_size w);
    reflexivity.
Qed.

(* ------------------------------------------------------------------ *)
(** ** The blocking calibration *)

Section Calibration.

Variable res : Z.

(** If the converter signals the end of calibration after [n] reads of the
    flag, the loop ends at read [n + 1]: any larger fuel suffices. *)
Lemma wait_ends_when_signalled n :
  forall w fuel,
    calibrating w -> cal_latency w = Some n -> (n < fuel)%nat ->
    exists w',
      wait_while_cal_in_progress res fuel w = Returns tt w' /\
      m_adc_cal_in_progress w' = false /\
      saadc w' = saadc_uninitialized /\
      calls w' = calls w ++ [nrf_drv_saadc_uninit_called].
Proof.
  induction n as [ | n IH]; intros w fuel (Hi & Hs & Hf) Hl Hlt;
    (destruct fuel as [ | fuel]; [lia | ]); simpl;
    unfold calibration_interrupt_window; unfold_proc; rewrite Hs, Hl.
  - unfold SAADC_IRQHandler. unfold_proc. rewrite Hs, Hi. simpl.
    eexists. split; [reflexivity | ]. simpl. auto.
  - simpl. rewrite Hf.
    apply (IH (set_cal_latency (Some n) w) fuel); [ | reflexivity | lia].
    repeat split; assumption.
Qed.

(** Until then it is still spinning. *)
Lemma wait_spins_until_signalled n :
  forall w fuel,
    calibrating w -> cal_latency w = Some n -> (fuel <= n)%nat ->
    wait_while_cal_in_progress res fuel w = OutOfFuel.
Proof.
  induction n as [ | n IH]; intros w fuel (Hi & Hs & Hf) Hl Hle;
    (destruct fuel as [ | fuel]; [reflexivity | ]); [lia | ].
  simpl. unfold calibration_interrupt_window. unfold_proc.
  rewrite Hs, Hl. simpl. rewrite Hf.
  apply (IH (set_cal_latency (Some n) w) fuel); [ | reflexivity | lia].
  repeat split; assumption.
Qed.

(** Without the signal it spins whatever the fuel. *)
Lemma wait_spins_without_signal fuel :
  forall w,
    calibrating w -> cal_latency w = None ->
    wait_while_cal_in_progress res fuel w = OutOfFuel.
Proof.
  induction fuel as [ | fuel IH]; intros w (Hi & Hs & Hf) Hl; [reflexivity | ].
  simpl. unfold calibration_interrupt_window. unfold_proc.
  rewrite Hs, Hl. rewrite Hf. apply IH; [ | exact Hl].
  repeat split; assumption.
Qed.

Lemma saadc_calibrate_enters_loop fuel w :
  drv_initialized (saadc w) = false ->
  saadc_calibrate res fuel w
  = bind (wait_while_cal_in_progress res fuel)
         (fun _ => ret M_BATT_STATUS_CODE_SUCCESS) (calibration_started w).
Proof.
  intros Hi. unfold saadc_calibrate, nrf_drv_saadc_init,
    nrf_drv_saadc_calibrate_offset, calibration_started.
  unfold_proc. simpl. rewrite Hi. simpl.
  rewrite <- app_assoc. reflexivity.
Qed.

Lemma calibration_started_calibrating w : calibrating (calibration_started w).
Proof. repeat split. Qed.

End Calibration.

(* ------------------------------------------------------------------ *)
(** ** One measurement cycle *)

(** The driver's interrupt routine at the end of a triggered conversion
    stores the sample and calls the module's handler with a DONE event. *)
Lemma SAADC_IRQHandler_end res sample w :
  drv_initialized (saadc w) = true ->
  adc_state (saadc w) = NRF_SAADC_STATE_BUSY ->
  sample_triggered (saadc w) = true ->
  SAADC_IRQHandler res (SAADC_EVENTS_END sample) w
  = saadc_event_handler_interrupt res (NRF_DRV_SAADC_EVT_DONE sample)
      (set_saadc {| drv_initialized := true;
                    adc_state := if secondary_buffer (saadc w)
                                 then NRF_SAADC_STATE_BUSY
                                 else NRF_SAADC_STATE_IDLE;
                    secondary_buffer := false; sample_triggered := false |}
         (set_m_buffer sample w)).
Proof.
  intros Hi Hs Ht. unfold SAADC_IRQHandler, put_saadc, modify, get, bind.
  rewrite Hs, Hi, Ht. reflexivity.
Qed.

(** With one event queued, the scheduler pass runs the deferred handler on
    it, once. *)
Lemma app_sched_execute_single v w :
  sched_queue w = [v] ->
  app_sched_execute w
  = bind (batt_event_handler_adc v) (fun _ => ret tt) (set_sched_queue [] w).
Proof.
  intros Hq. unfold app_sched_execute. unfold bind at 1. unfold get.
  rewrite Hq. simpl. unfold bind at 1. unfold get. rewrite Hq.
  reflexivity.
Qed.

Lemma measurement_cycle res w sample w' :
  sched_queue w = [] ->
  run res [timer_tick; saadc_interrupt (SAADC_EVENTS_END sample); main_loop_pass] w
    = Returns tt w' ->
  exists voltage level h,
    drv_initialized (saadc w) = false /\
    calls w' =
      calls w ++ acquisition_calls voltage
      ++ (if m_ble_bas_configured w
          then [ble_bas_battery_level_update_called level] else [])
      ++ [m_evt_handler_called h
            {| type := classified (m_batt_meas_param w) voltage;
               voltage_mv := voltage; level_percent := level;
               valid_voltage := true |}] /\
    saadc w' = saadc_uninitialized /\
    sched_queue w' = [].
Proof.
  intros Hq Hrun. simpl in Hrun.
  apply bind_returns in Hrun. destruct Hrun as (u1 & w1 & H1 & Hrun).
  apply bind_returns in Hrun. destruct Hrun as (u2 & w2 & H2 & Hrun).
  apply bind_returns in Hrun. destruct Hrun as (u3 & w3 & H3 & Hrun).
  unfold ret in Hrun. inversion Hrun; subst w3; clear Hrun.
  destruct (drv_initialized (saadc w)) eqn:Hi.
  { rewrite tick_while_initialized in H1 by exact Hi. discriminate. }
  rewrite tick_while_released in H1 by exact Hi.
  inversion H1; subst w1; clear H1.
  rewrite SAADC_IRQHandler_end in H2 by reflexivity.
  apply saadc_event_handler_interrupt_done in H2.
  destruct H2 as (v & _ & Hq2 & Hc2 & Hs2 & Hp2 & Hh2 & Hb2 & _).
  simpl in Hq2, Hc2, Hp2, Hh2, Hb2. rewrite Hq in Hq2. simpl in Hq2.
  rewrite (app_sched_execute_single v w2 Hq2) in H3.
  apply bind_returns in H3. destruct H3 as (u4 & w4 & H3 & Hret).
  unfold ret in Hret. inversion Hret; subst w4; clear Hret.
  apply batt_event_handler_adc_returns in H3.
  destruct H3 as (h & level & _ & _ & Hc3 & Hs3 & Hq3 & _).
  simpl in Hc3, Hs3, Hq3.
  rewrite Hp2, Hb2, Hc2 in Hc3.
  exists v, level, h. split; [reflexivity | ].
  split; [ | split; [congruence | exact Hq3]].
  rewrite Hc3. unfold acquisition_calls.
  repeat rewrite <- app_assoc. reflexivity.
Qed.

(** A tick while the converter is still held adds no trigger. *)
Lemma no_trigger_while_initialized w :
  drv_initialized (saadc w) = true ->
  match app_timer_periodic_handler w with
  | Returns _ w' | Fatal _ w' =>
      calls w' = calls w ++ [nrf_drv_saadc_init_called]
  | Undefined | OutOfFuel => False
  end.
Proof.
  intros Hi. rewrite tick_while_initialized by exact Hi. reflexivity.
Qed.

(* ------------------------------------------------------------------ *)
(** ** The claims about scheduling, interrupt work and calibration *)

(** C1: a second tick before the converter of the first is released does
    not return quietly.  From the initialised state, two ticks in a row end
    in the application error handler with [NRF_ERROR_INVALID_STATE], after
    the calls of the first tick and the refused [nrf_drv_saadc_init] of the
    second; [saadc_init] checks the driver's status itself, so the caller's
    test for that status never sees it.  Once the interrupt handler has
    released the converter, the next tick does trigger a conversion. *)
Theorem tick_before_release_is_fatal :
  (exists w',
     run 1 [timer_tick; timer_tick] ready_world
       = Fatal NRF_ERROR_INVALID_STATE w' /\
     calls w' = [nrf_drv_saadc_init_called; nrf_drv_saadc_channel_init_called;
                 nrf_drv_saadc_buffer_convert_called;
                 nrf_drv_saadc_sample_called; nrf_drv_saadc_init_called]) /\
  app_timer_periodic_handler sampling_world
    = Fatal NRF_ERROR_INVALID_STATE
        (set_calls [nrf_drv_saadc_init_called] sampling_world) /\
  (exists w',
     run 1 [timer_tick; saadc_interrupt (SAADC_EVENTS_END 512); timer_tick]
       ready_world = Returns tt w' /\
     sample_triggered (saadc w') = true /\
     calls w' = [nrf_drv_saadc_init_called; nrf_drv_saadc_channel_init_called;
                 nrf_drv_saadc_buffer_convert_called;
                 nrf_drv_saadc_sample_called; app_sched_event_put_called 600;
                 nrf_drv_saadc_uninit_called;
                 nrf_drv_saadc_init_called; nrf_drv_saadc_channel_init_called;
                 nrf_drv_saadc_buffer_convert_called;
                 nrf_drv_saadc_sample_called]).
Proof.
  split; [ | split].
  - eexists. split; [vm_compute; reflexivity | reflexivity].
  - reflexivity.
  - eexists. split; [vm_compute; reflexivity | split; reflexivity].
Qed.

(** C2, as stated, fails: on a DONE event for the raw sample 512 the
    interrupt handler itself converts the sample (to 600 mV with the 1:1
    divider at 10 bits) and queues the converted voltage, not the raw
    sample. *)
Lemma interrupt_handler_converts_raw_sample :
  exists w',
    saadc_event_handler_interrupt 1 (NRF_DRV_SAADC_EVT_DONE 512) sampling_world
      = Returns tt w' /\
    sched_queue w' = [600] /\
    adc_to_batt_voltage 1 (to_uint32 512) sampling_world
      = Returns (M_BATT_STATUS_CODE_SUCCESS, 600) sampling_world /\
    600 <> 512.
Proof.
  eexists. split; [vm_compute; reflexivity | ].
  split; [reflexivity | ]. split; [vm_compute; reflexivity | discriminate].
Qed.

(** C2, amended: the interrupt handler converts the raw sample to
    millivolts itself and hands the converted voltage to the deferred
    handler through the scheduler queue (or, on CALIBRATEDONE, clears the
    calibration flag), then releases the converter.  However it ends, it adds
    no battery-service update and no event dispatch to the call log, it does
    not change the stored battery level, and it behaves the same whatever
    state-of-charge table and limits are stored.  The table lookup and the
    battery-service update are made by [batt_event_handler_adc]. *)
Theorem interrupt_handler_converts_and_defers :
  (forall res evt,
     adds_only not_sink_nor_dispatch (saadc_event_handler_interrupt res evt)) /\
  (forall res evt p w,
     saadc_event_handler_interrupt res evt (set_m_batt_meas_param p w)
     = outcome_map (set_m_batt_meas_param p)
         (saadc_event_handler_interrupt res evt w)) /\
  (forall res p_buffer w u w',
     saadc_event_handler_interrupt res (NRF_DRV_SAADC_EVT_DONE p_buffer) w
       = Returns u w' ->
     exists voltage,
       adc_to_batt_voltage res (to_uint32 p_buffer) w
         = Returns (M_BATT_STATUS_CODE_SUCCESS, voltage) w /\
       sched_queue w' = sched_queue w ++ [voltage] /\
       calls w' = calls w ++ [app_sched_event_put_called voltage;
                              nrf_drv_saadc_uninit_called] /\
       saadc w' = saadc_uninitialized /\
       m_initial_batt_level_percent w' = m_initial_batt_level_percent w) /\
  (forall res w,
     saadc_event_handler_interrupt res NRF_DRV_SAADC_EVT_CALIBRATEDONE w
     = Returns tt
         (set_saadc saadc_uninitialized
            (set_calls (calls w ++ [nrf_drv_saadc_uninit_called])
               (set_m_adc_cal_in_progress false w)))) /\
  (forall v w u w',
     batt_event_handler_adc v w = Returns u w' ->
     exists h level,
       batt_voltage_to_percent (m_batt_meas_param w) v = Some level /\
       calls w' =
         calls w
         ++ (if m_ble_bas_configured w
             then [ble_bas_battery_level_update_called level] else [])
         ++ [m_evt_handler_called h
               {| type := classified (m_batt_meas_param w) v; voltage_mv := v;
                  level_percent := level; valid_voltage := true |}]).
Proof.
  split; [exact saadc_event_handler_interrupt_adds | ].
  split; [exact saadc_event_handler_interrupt_ignores_param | ].
  split; [ | split].
  - intros res p w u w' H.
    destruct (saadc_event_handler_interrupt_done _ _ _ _ _ H)
      as (v & Hv & Hq & Hc & Hs & _ & _ & _ & Hl & _).
    exists v. auto.
  - intros. reflexivity.
  - intros v w u w' H.
    destruct (batt_event_handler_adc_returns _ _ _ _ H)
      as (h & level & _ & Hl & Hc & _).
    exists h, level. auto.
Qed.

Lemma interrupt_handler_converts_and_defers_witness :
  exists voltage,
    adc_to_batt_voltage 1 (to_uint32 512) sampling_world
      = Returns (M_BATT_STATUS_CODE_SUCCESS, voltage) sampling_world /\
    sched_queue
      (set_saadc saadc_uninitialized
         (set_calls [app_sched_event_put_called 600; nrf_drv_saadc_uninit_called]
            (set_sched_queue [600] sampling_world)))
      = sched_queue sampling_world ++ [voltage] /\
    calls
      (set_saadc saadc_uninitialized
         (set_calls [app_sched_event_put_called 600; nrf_drv_saadc_uninit_called]
            (set_sched_queue [600] sampling_world)))
      = calls sampling_world ++ [app_sched_event_put_called voltage;
                                 nrf_drv_saadc_uninit_called] /\
    saadc
      (set_saadc saadc_uninitialized
         (set_calls [app_sched_event_put_called 600; nrf_drv_saadc_uninit_called]
            (set_sched_queue [600] sampling_world)))
      = saadc_uninitialized /\
    m_initial_batt_level_percent
      (set_saadc saadc_uninitialized
         (set_calls [app_sched_event_put_called 600; nrf_drv_saadc_uninit_called]
            (set_sched_queue [600] sampling_world)))
      = m_initial_batt_level_percent sampling_world.
Proof.
  refine (match interrupt_handler_converts_and_defers with
          | conj _ (conj _ (conj Hdone _)) =>
              Hdone 1 512 sampling_world tt _ _
          end).
  vm_compute. reflexivity.
Defined.

(** C3, as stated, fails: with a converter that never raises
    CALIBRATEDONE, [saadc_calibrate] never ends, whatever fuel its loop is
    given. *)
Lemma saadc_calibrate_spins_forever :
  never_ends (saadc_calibrate 1) unresponsive_world.
Proof.
  intros fuel. rewrite saadc_calibrate_enters_loop by reflexivity.
  unfold bind.
  rewrite wait_spins_without_signal;
    [reflexivity | apply calibration_started_calibrating | reflexivity].
Qed.

(** [saadc_calibrate] has no failure status of its own. *)
Lemma saadc_calibrate_returns_only_success res fuel w code w' :
  saadc_calibrate res fuel w = Returns code w' ->
  code = M_BATT_STATUS_CODE_SUCCESS.
Proof.
  unfold saadc_calibrate. intros H.
  repeat (apply bind_returns in H; destruct H as (? & ? & _ & H)).
  unfold ret in H. inversion H. reflexivity.
Qed.

(** C3, amended: [saadc_calibrate] takes no time bound and has no timeout
    status.  Called with the driver released, it blocks until the converter
    signals the end of calibration: if the signal comes after [n] reads of
    the in-progress flag, the call returns success (flag cleared, driver
    released) for every fuel above [n] and is still waiting for every fuel up
    to [n]; if the signal never comes, it never ends.  Whenever it returns,
    the status is success. *)
Theorem saadc_calibrate_blocks_until_signalled :
  forall res w,
    drv_initialized (saadc w) = false ->
    (forall n fuel,
       cal_latency w = Some n -> (n < fuel)%nat ->
       exists w',
         saadc_calibrate res fuel w = Returns M_BATT_STATUS_CODE_SUCCESS w' /\
         m_adc_cal_in_progress w' = false /\
         saadc w' = saadc_uninitialized) /\
    (forall n fuel,
       cal_latency w = Some n -> (fuel <= n)%nat ->
       saadc_calibrate res fuel w = OutOfFuel) /\
    (cal_latency w = None -> never_ends (saadc_calibrate res) w) /\
    (forall fuel code w',
       saadc_calibrate res fuel w = Returns code w' ->
       code = M_BATT_STATUS_CODE_SUCCESS).
Proof.
  intros res w Hi. repeat split.
  - intros n fuel Hl Hlt.
    destruct (wait_ends_when_signalled res n (calibration_started w) fuel
                (calibration_started_calibrating w) Hl Hlt)
      as (w' & Hw & Hf & Hs & _).
    exists w'. rewrite saadc_calibrate_enters_loop by exact Hi.
    unfold bind. rewrite Hw. auto.
  - intros n fuel Hl Hle.
    rewrite saadc_calibrate_enters_loop by exact Hi. unfold bind.
    rewrite (wait_spins_until_signalled res n); auto.
    apply calibration_started_calibrating.
  - intros Hl fuel.
    rewrite saadc_calibrate_enters_loop by exact Hi. unfold bind.
    rewrite wait_spins_without_signal; auto.
    apply calibration_started_calibrating.
  - intros fuel code w'. apply saadc_calibrate_returns_only_success.
Qed.

Lemma saadc_calibrate_blocks_until_signalled_witness :
  exists w',
    saadc_calibrate 1 4 reset_world = Returns M_BATT_STATUS_CODE_SUCCESS w' /\
    m_adc_cal_in_progress w' = false /\
    saadc w' = saadc_uninitialized.
Proof.
  refine (match saadc_calibrate_blocks_until_signalled 1 reset_world eq_refl with
          | conj Hends _ => Hends 3%nat 4%nat eq_refl _
          end).
  lia.
Defined.

(** C4, as stated, fails: in a cycle run from the initialised state the
    converter is released (call 5 of the log) before the event is dispatched
    (call 6). *)
Lemma converter_released_before_dispatch :
  exists w',
    run 1 [timer_tick; saadc_interrupt (SAADC_EVENTS_END 512); main_loop_pass]
      ready_world = Returns tt w' /\
    calls w' = [nrf_drv_saadc_init_called; nrf_drv_saadc_channel_init_called;
                nrf_drv_saadc_buffer_convert_called;
                nrf_drv_saadc_sample_called; app_sched_event_put_called 600;
                nrf_drv_saadc_uninit_called;
                m_evt_handler_called 1
                  {| type := M_BATT_MEAS_EVENT_LOW; voltage_mv := 600;
                     level_percent := 0; valid_voltage := true |}] /\
    first_call is_uninit (calls w') = Some 5%nat /\
    first_call is_evt_handler (calls w') = Some 6%nat.
Proof.
  eexists. split; [vm_compute; reflexivity | ].
  repeat split; reflexivity.
Qed.

(** C4, amended: a measurement cycle (tick, end-of-conversion interrupt,
    scheduler pass) that starts with an empty queue and returns began with
    the converter released and makes its calls in this order: driver
    initialisation, channel and buffer set-up, trigger; then, from the
    interrupt handler, the queueing of the converted voltage and the release
    of the converter; then, from the deferred handler, the battery-service
    update (when configured) and the dispatch of the event.  The converter is
    thus released before classification and dispatch, and the deferred
    handler leaves the driver as it finds it.  A tick while the converter is
    still held adds no trigger. *)
Theorem measurement_cycle_order :
  (forall res w sample w',
     sched_queue w = [] ->
     run res [timer_tick; saadc_interrupt (SAADC_EVENTS_END sample);
              main_loop_pass] w = Returns tt w' ->
     exists voltage level h,
       drv_initialized (saadc w) = false /\
       calls w' =
         calls w ++ acquisition_calls voltage
         ++ (if m_ble_bas_configured w
             then [ble_bas_battery_level_update_called level] else [])
         ++ [m_evt_handler_called h
               {| type := classified (m_batt_meas_param w) voltage;
                  voltage_mv := voltage; level_percent := level;
                  valid_voltage := true |}] /\
       saadc w' = saadc_uninitialized /\
       sched_queue w' = []) /\
  (forall v w u w',
     batt_event_handler_adc v w = Returns u w' -> saadc w' = saadc w) /\
  (forall w,
     drv_initialized (saadc w) = true ->
     match app_timer_periodic_handler w with
     | Returns _ w' | Fatal _ w' =>
         calls w' = calls w ++ [nrf_drv_saadc_init_called]
     | Undefined | OutOfFuel => False
     end).
Proof.
  split; [exact measurement_cycle | split].
  - intros v w u w' H.
    destruct (batt_event_handler_adc_returns _ _ _ _ H)
      as (h & level & _ & _ & _ & Hs & _).
    exact Hs.
  - exact no_trigger_while_initialized.
Qed.

Lemma measurement_cycle_order_witness :
  exists voltage level h,
    drv_initialized (saadc ready_world) = false /\
    calls
      (set_calls
         [nrf_drv_saadc_init_called; nrf_drv_saadc_channel_init_called;
          nrf_drv_saadc_buffer_convert_called; nrf_drv_saadc_sample_called;
          app_sched_event_put_called 600; nrf_drv_saadc_uninit_called;
          m_evt_handler_called 1
            {| type := M_BATT_MEAS_EVENT_LOW; voltage_mv := 600;
               level_percent := 0; valid_voltage := true |}]
         (set_m_initial_batt_level_percent 0 (set_m_buffer 512 ready_world)))
    = calls ready_world ++ acquisition_calls voltage
      ++ (if m_ble_bas_configured ready_world
          then [ble_bas_battery_level_update_called level] else [])
      ++ [m_evt_handler_called h
            {| type := classified (m_batt_meas_param ready_world) voltage;
               voltage_mv := voltage; level_percent := level;
               valid_voltage := true |}] /\
    saadc
      (set_calls
         [nrf_drv_saadc_init_called; nrf_drv_saadc_channel_init_called;
          nrf_drv_saadc_buffer_convert_called; nrf_drv_saadc_sample_called;
          app_sched_event_put_called 600; nrf_drv_saadc_uninit_called;
          m_evt_handler_called 1
            {| type := M_BATT_MEAS_EVENT_LOW; voltage_mv := 600;
               level_percent := 0; valid_voltage := true |}]
         (set_m_initial_batt_level_percent 0 (set_m_buffer 512 ready_world)))
    = saadc_uninitialized /\
    sched_queue
      (set_calls
         [nrf_drv_saadc_init_called; nrf_drv_saadc_channel_init_called;
          nrf_drv_saadc_buffer_convert_called; nrf_drv_saadc_sample_called;
          app_sched_event_put_called 600; nrf_drv_saadc_uninit_called;
          m_evt_handler_called 1
            {| type := M_BATT_MEAS_EVENT_LOW; voltage_mv := 600;
               level_percent := 0; valid_voltage := true |}]
         (set_m_initial_batt_level_percent 0 (set_m_buffer 512 ready_world)))
    = [].
Proof.
  refine (match measurement_cycle_order with
          | conj Hcycle _ => Hcycle 1 ready_world 512 _ eq_refl _
          end).
  vm_compute. reflexivity.
Defined.

(* ------------------------------------------------------------------ *)
(** ** Further properties of the state-of-charge lookup *)

Lemma spec_index_mono t v1 v2 :
  0 < delta_mv t -> v1 <= v2 -> spec_index t v1 <= spec_index t v2.
Proof.
  intros Hd Hv. unfold spec_index.
  assert ((v1 - first_element_mv t) / delta_mv t
          <= (v2 - first_element_mv t) / delta_mv t)
    by (apply Z.div_le_mono; lia).
  lia.
Qed.

(** The lookup of the code, in terms of [spec_index]. *)
Lemma batt_voltage_to_percent_spec_index :
  forall p v,
    soc_in_range (state_of_charge p) ->
    2 <= delta_mv (state_of_charge p) ->
    1 <= num_elements (state_of_charge p) ->
    0 <= v <= UINT16_MAX ->
    batt_voltage_to_percent p v
    = nth_error (voltage_to_soc (state_of_charge p))
        (Z.to_nat (spec_index (state_of_charge p) v)).
Proof.
  intros p v Hr Hd Hn Hv.
  rewrite (batt_voltage_to_percent_refines_spec p Hr ltac:(lia) Hn v).
  - reflexivity.
  - apply quotient_fits_int16; try assumption; lia.
Qed.

(** X1: for a table within the ranges of its C types, with at least one
    level and a step of at least 2 mV, the code returns, for every
    [uint16_t] voltage, the level at index
    clamp (floor ((voltage - first) / step)) to [0, num_elements - 1]. *)
Theorem soc_lookup_is_floor_and_clamp :
  forall p v,
    soc_in_range (state_of_charge p) ->
    2 <= delta_mv (state_of_charge p) ->
    1 <= num_elements (state_of_charge p) ->
    0 <= v <= UINT16_MAX ->
    batt_voltage_to_percent p v
    = nth_error (voltage_to_soc (state_of_charge p))
        (Z.to_nat (spec_index (state_of_charge p) v)).
Proof. exact batt_voltage_to_percent_spec_index. Qed.

Lemma soc_lookup_is_floor_and_clamp_witness :
  batt_voltage_to_percent example_param 3750
  = nth_error (voltage_to_soc (state_of_charge example_param))
      (Z.to_nat (spec_index (state_of_charge example_param) 3750)).
Proof.
  apply soc_lookup_is_floor_and_clamp.
  - unfold soc_in_range, UINT16_MAX; simpl; lia.
  - simpl; lia.
  - simpl; lia.
  - unfold UINT16_MAX; lia.
Defined.

(** X2: with such a table whose levels never decrease, the reported level
    never decreases when the voltage rises. *)
Theorem soc_lookup_is_monotone :
  forall p v1 v2 level1 level2,
    soc_in_range (state_of_charge p) ->
    2 <= delta_mv (state_of_charge p) ->
    1 <= num_elements (state_of_charge p) ->
    levels_nondecreasing (voltage_to_soc (state_of_charge p)) ->
    0 <= v1 -> v1 <= v2 -> v2 <= UINT16_MAX ->
    batt_voltage_to_percent p v1 = Some level1 ->
    batt_voltage_to_percent p v2 = Some level2 ->
    level1 <= level2.
Proof.
  intros p v1 v2 l1 l2 Hr Hd Hn Hmono H1 H12 H2 E1 E2.
  rewrite (batt_voltage_to_percent_refines_spec p Hr ltac:(lia) Hn v1) in E1
    by (apply quotient_fits_int16; try assumption; lia).
  rewrite (batt_voltage_to_percent_refines_spec p Hr ltac:(lia) Hn v2) in E2
    by (apply quotient_fits_int16; try assumption; lia).
  unfold voltage_to_percent_spec in E1, E2.
  refine (Hmono _ _ _ _ _ E1 E2).
  apply Z2Nat.inj_le.
  - fold (spec_index (state_of_charge p) v1). unfold spec_index. lia.
  - fold (spec_index (state_of_charge p) v2). unfold spec_index. lia.
  - apply (spec_index_mono (state_of_charge p) v1 v2); lia.
Qed.

Lemma nondecreasing_head a l :
  nondecreasing (a :: l) = true ->
  forall j b, nth_error l j = Some b -> a <= b.
Proof.
  revert a. induction l as [ | c l IH]; intros a H j b Hj.
  - destruct j; discriminate.
  - simpl in H. apply andb_true_iff in H. destruct H as [Hac Hcl].
    apply Z.leb_le in Hac. destruct j as [ | j].
    + simpl in Hj. inversion Hj. lia.
    + simpl in Hj. pose proof (IH c Hcl j b Hj). lia.
Qed.

Lemma nondecreasing_levels l :
  nondecreasing l = true -> levels_nondecreasing l.
Proof.
  induction l as [ | a l IH]; intros H i j x y Hij Hi Hj.
  - destruct i; discriminate.
  - destruct i as [ | i], j as [ | j]; simpl in Hi, Hj.
    + inversion Hi; inversion Hj; lia.
    + inversion Hi; subst. exact (nondecreasing_head _ _ H _ _ Hj).
    + lia.
    + apply (IH ltac:(destruct l; [reflexivity | simpl in H;
                      apply andb_true_iff in H; apply H]) i j x y);
        [lia | assumption | assumption].
Qed.

Lemma soc_lookup_is_monotone_witness :
  batt_voltage_to_percent example_param 3300 = Some 30 /\
  batt_voltage_to_percent example_param 3700 = Some 70 /\
  30 <= 70.
Proof.
  split; [reflexivity | split; [reflexivity | ]].
  apply (soc_lookup_is_monotone example_param 3300 3700 30 70).
  - unfold soc_in_range, UINT16_MAX; simpl; lia.
  - simpl; lia.
  - simpl; lia.
  - apply nondecreasing_levels. reflexivity.
  - lia.
  - lia.
  - unfold UINT16_MAX; lia.
  - reflexivity.
  - reflexivity.
Defined.

(** X3: the lookup saturates at both ends of such a table: at or below its
    first voltage the first level is reported, at or above its last voltage
    the last level. *)
Theorem soc_lookup_saturates :
  forall p v,
    soc_in_range (state_of_charge p) ->
    2 <= delta_mv (state_of_charge p) ->
    1 <= num_elements (state_of_charge p) ->
    0 <= v <= UINT16_MAX ->
    let t := state_of_charge p in
    (v <= first_element_mv t ->
       batt_voltage_to_percent p v = nth_error (voltage_to_soc t) 0) /\
    (first_element_mv t + delta_mv t * (num_elements t - 1) <= v ->
       batt_voltage_to_percent p v
       = nth_error (voltage_to_soc t) (Z.to_nat (num_elements t - 1))).
Proof.
  intros p v Hr Hd Hn Hv t.
  rewrite (batt_voltage_to_percent_spec_index p v Hr Hd Hn Hv). fold t.
  split; intros H; f_equal.
  - unfold spec_index.
    assert ((v - first_element_mv t) / delta_mv t <= 0).
    { destruct (Z.eq_dec v (first_element_mv t)) as [-> | Hne].
      - rewrite Z.sub_diag. rewrite Z.div_0_l by (unfold t; lia). lia.
      - assert ((v - first_element_mv t) / delta_mv t < 0); [ | lia].
        apply Z.div_lt_upper_bound; unfold t in *; lia. }
    change 0%nat with (Z.to_nat 0). f_equal. unfold t in *. lia.
  - unfold spec_index. f_equal.
    assert (num_elements t - 1 <= (v - first_element_mv t) / delta_mv t).
    { apply Z.div_le_lower_bound; unfold t in *; lia. }
    unfold t in *. lia.
Qed.

Lemma soc_lookup_saturates_witness :
  (2500 <= first_element_mv (state_of_charge example_param) ->
     batt_voltage_to_percent example_param 2500
     = nth_error (voltage_to_soc (state_of_charge example_param)) 0) /\
  (first_element_mv (state_of_charge example_param)
   + delta_mv (state_of_charge example_param)
     * (num_elements (state_of_charge example_param) - 1) <= 2500 ->
     batt_voltage_to_percent example_param 2500
     = nth_error (voltage_to_soc (state_of_charge example_param))
         (Z.to_nat (num_elements (state_of_charge example_param) - 1))).
Proof.
  apply (soc_lookup_saturates example_param 2500).
  - unfold soc_in_range, UINT16_MAX; simpl; lia.
  - simpl; lia.
  - simpl; lia.
  - unfold UINT16_MAX; lia.
Defined.

(** X4: with an empty table ([num_elements = 0], no levels) every lookup
    is undefined, whatever the voltage and the (non-zero) step: a
    non-negative index is "clamped" to -1, a negative one to 0, and both
    are outside the table. *)
Theorem soc_lookup_of_empty_table_is_undefined :
  forall p v,
    num_elements (state_of_charge p) = 0 ->
    voltage_to_soc (state_of_charge p) = [] ->
    batt_voltage_to_percent p v = None.
Proof.
  intros p v Hn Hl. unfold batt_voltage_to_percent.
  destruct (delta_mv (state_of_charge p) =? 0); [reflexivity | ].
  rewrite Hn, Hl. simpl num_elements.
  set (q := to_int16 (Z.quot (v - first_element_mv (state_of_charge p))
                             (delta_mv (state_of_charge p)))).
  destruct (q <? 0) eqn:E1; [reflexivity | ].
  apply Z.ltb_ge in E1.
  replace (q >? 0 - 1) with true by (symmetry; apply Z.gtb_lt; lia).
  reflexivity.
Qed.

Lemma soc_lookup_of_empty_table_is_undefined_witness :
  batt_voltage_to_percent (m_batt_meas_param reset_world) 3700 = None.
Proof.
  apply soc_lookup_of_empty_table_is_undefined; reflexivity.
Defined.

(* ------------------------------------------------------------------ *)
(** ** Further properties of the conversion and of validation *)

(** X5: whenever [adc_to_batt_voltage] returns, the status is success, the
    state is unchanged and the voltage is a multiple of 10 between 0 and
    65530, or it is 4: a value that truncates to exactly 65535 is rounded to
    65540, which wraps in the [uint16_t] result.  That case occurs: with a
    divider of 108333 Ohm over 1 kOhm, the top code of a 10-bit conversion
    yields 4 mV. *)
Theorem adc_to_batt_voltage_result_range :
  (forall res adc_val w code v w',
     adc_to_batt_voltage res adc_val w = Returns (code, v) w' ->
     code = M_BATT_STATUS_CODE_SUCCESS /\ w' = w /\
     ((0 <= v <= 65530 /\ v mod 10 = 0) \/ v = 4)) /\
  adc_to_batt_voltage 1 1023 steep_divider_world
    = Returns (M_BATT_STATUS_CODE_SUCCESS, 4) steep_divider_world.
Proof.
  split; [ | vm_compute; reflexivity].
  intros res adc_val w code v w' H.
  rewrite adc_to_batt_voltage_eq in H.
  destruct (adc_to_tmp_voltage res (m_battery_divider_factor w) (f32_of_Z 1)
              adc_val) as [t | ] eqn:Ht; [ | discriminate].
  inversion H; subst; clear H.
  split; [reflexivity | split; [reflexivity | ]].
  pose proof (f32_to_uint16_range _ _ Ht) as Hr. unfold UINT16_MAX in Hr.
  destruct (Z.eq_dec t 65535) as [-> | Hne].
  - right. reflexivity.
  - left. destruct (add_5_truncate_to_tens t) as (E & Hm & Hn);
      [unfold UINT16_MAX; lia | ].
    rewrite E. split; [ | exact Hm].
    assert ((t + 5) / 10 <= 6553); [ | lia].
    apply Z.lt_succ_r. apply Z.div_lt_upper_bound; lia.
Qed.

Lemma adc_to_batt_voltage_result_range_witness :
  M_BATT_STATUS_CODE_SUCCESS = M_BATT_STATUS_CODE_SUCCESS /\
  ready_world = ready_world /\
  ((0 <= 600 <= 65530 /\ 600 mod 10 = 0) \/ 600 = 4).
Proof.
  refine (proj1 adc_to_batt_voltage_result_range 1 512 ready_world _ 600 _ _).
  vm_compute. reflexivity.
Defined.

(** [param_check] on a block with a handler, step by step. *)
Lemma param_check_with_handler init h w :
  evt_handler init = Some h ->
  let d := voltage_divider (batt_meas_param init) in
  let ordered := negb (batt_voltage_limit_full (batt_meas_param init)
                       <? batt_voltage_limit_low (batt_meas_param init)) in
  let one_zero := negb ((r_1_ohm d =? 0) && (r_2_ohm d =? 0))
                  && ((r_1_ohm d =? 0) || (r_2_ohm d =? 0)) in
  param_check (Some init) w =
  if one_zero then Returns M_BATT_STATUS_CODE_INVALID_PARAM w
  else Returns (if ordered then M_BATT_STATUS_CODE_SUCCESS
                else M_BATT_STATUS_CODE_INVALID_PARAM)
               (set_m_battery_divider_factor (divider_factor_of d) w).
Proof.
  intros Hh. unfold param_check, divider_factor_of. rewrite Hh. unfold_proc.
  cbv zeta.
  destruct (r_1_ohm (voltage_divider (batt_meas_param init)) =? 0);
    destruct (r_2_ohm (voltage_divider (batt_meas_param init)) =? 0);
    destruct (batt_voltage_limit_full (batt_meas_param init)
              <? batt_voltage_limit_low (batt_meas_param init));
    reflexivity.
Qed.

(** X6: [param_check] always returns, and the only thing it may change is
    the divider factor.  It is not atomic: a block with a handler and a
    usable divider but with the full limit below the low limit is rejected
    after the divider factor has been overwritten, whereas a block rejected
    for its handler or its divider leaves the state as it was. *)
Theorem param_check_rejects_after_storing_factor :
  (forall p w,
     (exists code, param_check p w = Returns code w) \/
     (exists code init,
        p = Some init /\
        param_check p w
        = Returns code
            (set_m_battery_divider_factor
               (divider_factor_of (voltage_divider (batt_meas_param init))) w))) /\
  (forall init h w,
     evt_handler init = Some h ->
     ~ exactly_one_zero (voltage_divider (batt_meas_param init)) ->
     batt_voltage_limit_full (batt_meas_param init)
       < batt_voltage_limit_low (batt_meas_param init) ->
     param_check (Some init) w
     = Returns M_BATT_STATUS_CODE_INVALID_PARAM
         (set_m_battery_divider_factor
            (divider_factor_of (voltage_divider (batt_meas_param init))) w)) /\
  (forall init w,
     evt_handler init = None
     \/ exactly_one_zero (voltage_divider (batt_meas_param init)) ->
     exists code, code <> NRF_SUCCESS /\ param_check (Some init) w = Returns code w).
Proof.
  split; [ | split].
  - intros p w.
    destruct p as [init | ]; [ | left; eexists; reflexivity].
    destruct (evt_handler init) as [h | ] eqn:Hh.
    + rewrite (param_check_with_handler init h w Hh). cbv zeta.
      destruct (negb _ && _); [left | right]; eauto.
    + left. unfold param_check. rewrite Hh. eexists. reflexivity.
  - intros init h w Hh Hone Hlt.
    rewrite (param_check_with_handler init h w Hh). cbv zeta.
    replace (batt_voltage_limit_full (batt_meas_param init)
             <? batt_voltage_limit_low (batt_meas_param init)) with true
      by (symmetry; apply Z.ltb_lt; exact Hlt).
    unfold exactly_one_zero in Hone.
    destruct (Z.eqb_spec (r_1_ohm (voltage_divider (batt_meas_param init))) 0);
      destruct (Z.eqb_spec (r_2_ohm (voltage_divider (batt_meas_param init))) 0);
      simpl; try reflexivity; exfalso; apply Hone; tauto.
  - intros init w [Hh | Hone].
    + exists NRF_ERROR_NULL. split; [discriminate | ].
      unfold param_check. rewrite Hh. reflexivity.
    + destruct (evt_handler init) as [h | ] eqn:Hh.
      * exists M_BATT_STATUS_CODE_INVALID_PARAM. split; [discriminate | ].
        rewrite (param_check_with_handler init h w Hh). cbv zeta.
        unfold exactly_one_zero in Hone.
        destruct (Z.eqb_spec (r_1_ohm (voltage_divider (batt_meas_param init))) 0);
          destruct (Z.eqb_spec (r_2_ohm (voltage_divider (batt_meas_param init))) 0);
          simpl; try reflexivity; exfalso; lia.
      * exists NRF_ERROR_NULL. split; [discriminate | ].
        unfold param_check. rewrite Hh. reflexivity.
Qed.

Lemma param_check_rejects_after_storing_factor_witness :
  param_check (Some misordered_init) reset_world
  = Returns M_BATT_STATUS_CODE_INVALID_PARAM
      (set_m_battery_divider_factor
         (divider_factor_of (voltage_divider (batt_meas_param misordered_init)))
         reset_world).
Proof.
  refine (match param_check_rejects_after_storing_factor with
          | conj _ (conj Hlate _) =>
              Hlate misordered_init 1 reset_world eq_refl _ _
          end).
  - unfold exactly_one_zero; simpl; lia.
  - simpl; lia.
Defined.

(* ------------------------------------------------------------------ *)
(** ** Further properties of the tick and of the two handlers *)

(** X7: a tick that returns has triggered a conversion.  Whenever
    [app_timer_periodic_handler] returns, the driver was released before,
    the four driver calls (initialise, channel, buffer, sample) were made in
    that order, and nothing but the driver state and the call log changed:
    the early-return branch of the source is never the way it returns. *)
Theorem tick_returns_only_after_triggering :
  forall w u w',
    app_timer_periodic_handler w = Returns u w' ->
    drv_initialized (saadc w) = false /\ w' = conversion_triggered w.
Proof.
  intros w u w' H.
  destruct (drv_initialized (saadc w)) eqn:Hi.
  - rewrite tick_while_initialized in H by exact Hi. discriminate.
  - rewrite tick_while_released in H by exact Hi.
    inversion H. split; reflexivity.
Qed.

Lemma tick_returns_only_after_triggering_witness :
  drv_initialized (saadc ready_world) = false /\
  conversion_triggered ready_world = conversion_triggered ready_world.
Proof.
  exact (tick_returns_only_after_triggering ready_world tt _ eq_refl).
Defined.

(** The deferred handler with the battery service configured. *)
Lemma batt_event_handler_adc_configured v w h level :
  m_ble_bas_configured w = true ->
  m_evt_handler w = Some h ->
  batt_voltage_to_percent (m_batt_meas_param w) v = Some level ->
  batt_event_handler_adc v w =
  if tolerated_bas_status (bas_status w)
  then Returns tt
         (set_calls (calls w ++ [ble_bas_battery_level_update_called level;
                                 m_evt_handler_called h
                                   (event_of (m_batt_meas_param w) v level)]) w)
  else Fatal (bas_status w)
         (set_calls (calls w ++ [ble_bas_battery_level_update_called level]) w).
Proof.
  intros Hc Hh Hl.
  unfold batt_event_handler_adc, ble_bas_battery_level_update,
    tolerated_bas_status, event_of, classified.
  unfold_proc. rewrite Hl, Hc. simpl.
  destruct (bas_status w =? NRF_SUCCESS);
    destruct (bas_status w =? NRF_ERROR_INVALID_STATE);
    destruct (bas_status w =? BLE_ERROR_GATTS_SYS_ATTR_MISSING);
    simpl; rewrite ?Hh; simpl; rewrite <- ?app_assoc; reflexivity.
Qed.

(** The deferred handler before the battery service is configured. *)
Lemma batt_event_handler_adc_unconfigured v w h level :
  m_ble_bas_configured w = false ->
  m_evt_handler w = Some h ->
  batt_voltage_to_percent (m_batt_meas_param w) v = Some level ->
  batt_event_handler_adc v w =
  Returns tt
    (set_calls (calls w ++ [m_evt_handler_called h
                              (event_of (m_batt_meas_param w) v level)])
       (set_m_initial_batt_level_percent level w)).
Proof.
  intros Hc Hh Hl.
  unfold batt_event_handler_adc, event_of, classified.
  unfold_proc. rewrite Hl, Hc. simpl. rewrite Hh. reflexivity.
Qed.

(** X8: the deferred handler and the battery service.  With the service
    configured, a handler registered and the lookup defined, the level is
    pushed to the service first; if the service answers success, invalid
    state or missing system attributes, the event is dispatched and the
    handler returns; any other answer ends in the error handler with that
    code, after the update and without a dispatch.  The stored initial level
    is not touched. *)
Theorem batt_event_handler_adc_with_service :
  forall v w h level,
    m_ble_bas_configured w = true ->
    m_evt_handler w = Some h ->
    batt_voltage_to_percent (m_batt_meas_param w) v = Some level ->
    batt_event_handler_adc v w =
    if tolerated_bas_status (bas_status w)
    then Returns tt
           (set_calls (calls w ++ [ble_bas_battery_level_update_called level;
                                   m_evt_handler_called h
                                     (event_of (m_batt_meas_param w) v level)]) w)
    else Fatal (bas_status w)
           (set_calls (calls w ++ [ble_bas_battery_level_update_called level]) w).
Proof.
  intros v w h level. apply batt_event_handler_adc_configured.
Qed.

Lemma batt_event_handler_adc_with_service_witness :
  batt_event_handler_adc 3700 (set_m_ble_bas_configured true ready_world) =
  if tolerated_bas_status (bas_status (set_m_ble_bas_configured true ready_world))
  then Returns tt
         (set_calls
            (calls (set_m_ble_bas_configured true ready_world)
             ++ [ble_bas_battery_level_update_called 70;
                 m_evt_handler_called 1
                   (event_of (m_batt_meas_param
                                (set_m_ble_bas_configured true ready_world))
                             3700 70)])
            (set_m_ble_bas_configured true ready_world))
  else Fatal (bas_status (set_m_ble_bas_configured true ready_world))
         (set_calls
            (calls (set_m_ble_bas_configured true ready_world)
             ++ [ble_bas_battery_level_update_called 70])
            (set_m_ble_bas_configured true ready_world)).
Proof.
  apply batt_event_handler_adc_with_service; reflexivity.
Defined.

(** X9: a full scheduler queue.  If the queue has no free entry when a
    conversion ends, the interrupt handler ends in the error handler with
    [NRF_ERROR_NO_MEM]: the sample is converted, nothing is queued, and the
    converter is not released. *)
Theorem interrupt_with_full_queue_keeps_converter :
  forall res p_buffer w t,
    adc_to_tmp_voltage res (m_battery_divider_factor w) (f32_of_Z 1)
      (to_uint32 p_buffer) = Some t ->
    sched_queue_size w <= Z.of_nat (length (sched_queue w)) ->
    exists w',
      saadc_event_handler_interrupt res (NRF_DRV_SAADC_EVT_DONE p_buffer) w
        = Fatal NRF_ERROR_NO_MEM w' /\
      saadc w' = saadc w /\
      sched_queue w' = sched_queue w /\
      calls w' = calls w ++ [app_sched_event_put_called
                               (to_uint16 (Z.quot (t + 5) 10 * 10))].
Proof.
  intros res p w t Ht Hfull.
  unfold saadc_event_handler_interrupt, app_sched_event_put,
    nrf_drv_saadc_uninit.
  unfold_proc. rewrite adc_to_batt_voltage_eq, Ht. simpl.
  replace (Z.of_nat (length (sched_queue w)) <? sched_queue_size w) with false
    by (symmetry; apply Z.ltb_ge; exact Hfull).
  simpl. eexists. split; [reflexivity | ]. simpl. auto.
Qed.

Lemma interrupt_with_full_queue_keeps_converter_witness :
  exists w',
    saadc_event_handler_interrupt 1 (NRF_DRV_SAADC_EVT_DONE 512)
      (set_sched_queue [10; 20; 30; 40; 50; 60; 70; 80] sampling_world)
      = Fatal NRF_ERROR_NO_MEM w' /\
    saadc w' = saadc (set_sched_queue [10; 20; 30; 40; 50; 60; 70; 80]
                        sampling_world) /\
    sched_queue w' = sched_queue (set_sched_queue [10; 20; 30; 40; 50; 60; 70; 80]
                                    sampling_world) /\
    calls w' = calls (set_sched_queue [10; 20; 30; 40; 50; 60; 70; 80]
                        sampling_world)
               ++ [app_sched_event_put_called
                     (to_uint16 (Z.quot (600 + 5) 10 * 10))].
Proof.
  apply (interrupt_with_full_queue_keeps_converter 1 512
           (set_sched_queue [10; 20; 30; 40; 50; 60; 70; 80] sampling_world) 600).
  - vm_compute. reflexivity.
  - simpl. lia.
Defined.

(** The events of a scheduler pass, by induction on the queue. *)
Lemma app_sched_execute_events_returns n :
  forall w u w',
    n = length (sched_queue w) ->
    app_sched_execute_events n w = Returns u w' ->
    exists added,
      calls w' = calls w ++ added /\
      dispatched_voltages added = sched_queue w /\
      sched_queue w' = [] /\ saadc w' = saadc w.
Proof.
  induction n as [ | n IH]; intros w u w' Hn H.
  - simpl in H. unfold ret in H. inversion H; subst.
    exists []. rewrite app_nil_r.
    destruct (sched_queue w'); [auto | discriminate].
  - simpl in H. unfold bind at 1 in H. unfold get in H.
    destruct (sched_queue w) as [ | v q] eqn:Hq; [discriminate | ].
    unfold bind at 1 in H. unfold modify in H.
    apply bind_returns in H. destruct H as (u1 & w1 & H1 & H2).
    apply batt_event_handler_adc_returns in H1.
    destruct H1 as (h & level & _ & _ & Hc1 & Hs1 & Hq1 & _).
    simpl in Hc1, Hs1, Hq1.
    apply IH in H2; [ | rewrite Hq1; simpl in Hn; lia].
    destruct H2 as (added & Hc2 & Hd2 & Hq2 & Hs2).
    eexists. split; [rewrite Hc2, Hc1, <- !app_assoc; reflexivity | ].
    split; [ | split; [exact Hq2 | congruence]].
    rewrite Hq1 in Hd2.
    destruct (m_ble_bas_configured w); simpl; rewrite Hd2; reflexivity.
Qed.

(** X10: a scheduler pass that returns has emptied the queue and has
    dispatched one event per queued voltage, in the order they were queued;
    it has not touched the converter. *)
Theorem scheduler_pass_dispatches_in_queue_order :
  forall w u w',
    app_sched_execute w = Returns u w' ->
    exists added,
      calls w' = calls w ++ added /\
      dispatched_voltages added = sched_queue w /\
      sched_queue w' = [] /\ saadc w' = saadc w.
Proof.
  intros w u w' H. unfold app_sched_execute in H.
  unfold bind at 1 in H. unfold get in H.
  eapply app_sched_execute_events_returns; [reflexivity | exact H].
Qed.

Lemma scheduler_pass_dispatches_in_queue_order_witness :
  exists added,
    calls
      (set_calls
         [m_evt_handler_called 1 (event_of example_param 3300 30);
          m_evt_handler_called 1 (event_of example_param 4100 100)]
         (set_m_initial_batt_level_percent 100 ready_world))
    = calls (set_sched_queue [3300; 4100] ready_world) ++ added /\
    dispatched_voltages added
    = sched_queue (set_sched_queue [3300; 4100] ready_world) /\
    sched_queue
      (set_calls
         [m_evt_handler_called 1 (event_of example_param 3300 30);
          m_evt_handler_called 1 (event_of example_param 4100 100)]
         (set_m_initial_batt_level_percent 100 ready_world)) = [] /\
    saadc
      (set_calls
         [m_evt_handler_called 1 (event_of example_param 3300 30);
          m_evt_handler_called 1 (event_of example_param 4100 100)]
         (set_m_initial_batt_level_percent 100 ready_world))
    = saadc (set_sched_queue [3300; 4100] ready_world).
Proof.
  refine (scheduler_pass_dispatches_in_queue_order
            (set_sched_queue [3300; 4100] ready_world) tt _ _).
  vm_compute. reflexivity.
Defined.

(** X11: calibration with the converter held.  If the driver is already
    initialised, [saadc_calibrate] ends in the error handler with
    [NRF_ERROR_INVALID_STATE] before it sets the in-progress flag or starts a
    calibration, whatever the fuel. *)
Theorem saadc_calibrate_while_initialized :
  forall res fuel w,
    drv_initialized (saadc w) = true ->
    saadc_calibrate res fuel w
    = Fatal NRF_ERROR_INVALID_STATE
        (set_calls (calls w ++ [nrf_drv_saadc_init_called]) w).
Proof.
  intros res fuel w Hi. unfold saadc_calibrate, nrf_drv_saadc_init.
  unfold_proc. simpl. rewrite Hi. reflexivity.
Qed.

Lemma saadc_calibrate_while_initialized_witness :
  saadc_calibrate 1 4 sampling_world
  = Fatal NRF_ERROR_INVALID_STATE
      (set_calls (calls sampling_world ++ [nrf_drv_saadc_init_called])
         sampling_world).
Proof.
  apply saadc_calibrate_while_initialized. reflexivity.
Defined.

(* ------------------------------------------------------------------ *)
(** ** Invariants of the running module *)

Section Maintains.

Variables (p : batt_meas_param_t) (h : option m_batt_meas_event_handler_t)
          (f : spec_float) (c : bool).
Variable ok : call -> bool.

Let I := config_is p h f c.

Lemma maintains_ret {A} (a : A) : maintains I ok (ret a).
Proof.
  intros w HI. split; [exact HI | ].
  exists []. split; [now rewrite app_nil_r | reflexivity].
Qed.

Lemma maintains_get {A} (g : world -> A) : maintains I ok (get g).
Proof.
  intros w HI. split; [exact HI | ].
  exists []. split; [now rewrite app_nil_r | reflexivity].
Qed.

Lemma maintains_modify (g : world -> world) :
  (forall w, I w -> I (g w)) -> (forall w, calls (g w) = calls w) ->
  maintains I ok (modify g).
Proof.
  intros Hg Hc w HI. simpl. split; [apply Hg; exact HI | ].
  exists []. split; [now rewrite Hc, app_nil_r | reflexivity].
Qed.

Lemma maintains_record k : ok k = true -> maintains I ok (record k).
Proof.
  intros Hk w HI. simpl. split; [exact HI | ].
  exists [k]. split; [reflexivity | simpl; now rewrite Hk].
Qed.

Lemma maintains_undefined {A} : maintains I ok (@undefined A).
Proof. intros w HI. exact Logic.I. Qed.

Lemma maintains_out_of_fuel {A} : maintains I ok (fun _ => @OutOfFuel A).
Proof. intros w HI. exact Logic.I. Qed.

Lemma maintains_fatal {A} e : maintains I ok (@APP_ERROR_HANDLER A e).
Proof.
  intros w HI. split; [exact HI | ].
  exists []. split; [now rewrite app_nil_r | reflexivity].
Qed.

Lemma maintains_check e : maintains I ok (APP_ERROR_CHECK e).
Proof.
  unfold APP_ERROR_CHECK. destruct (e =? NRF_SUCCESS);
    [apply maintains_ret | apply maintains_fatal].
Qed.

Lemma maintains_bind {A B} (m : M A) (k : A -> M B) :
  maintains I ok m -> (forall a, maintains I ok (k a)) ->
  maintains I ok (bind m k).
Proof.
  intros Hm Hk w HI. unfold bind. specialize (Hm w HI).
  destruct (m w) as [a w1 | e w1 | | ]; auto.
  destruct Hm as (HI1 & l1 & E1 & F1). specialize (Hk a w1 HI1).
  destruct (k a w1) as [b w2 | e w2 | | ]; auto;
    destruct Hk as (HI2 & l2 & E2 & F2); (split; [exact HI2 | ]);
    exists (l1 ++ l2);
    (split; [rewrite E2, E1, app_assoc; reflexivity
            | rewrite forallb_app, F1, F2; reflexivity]).
Qed.

End Maintains.

(** Decomposes a procedure that changes neither the configuration nor
    anything the test on calls looks at. *)
Ltac maintains_step :=
  first
    [ apply maintains_bind; [ | intros ]
    | apply maintains_ret
    | apply maintains_get
    | apply maintains_check
    | apply maintains_fatal
    | apply maintains_undefined
    | apply maintains_out_of_fuel
    | apply maintains_record; reflexivity
    | apply maintains_modify; [intros ? HI; exact HI | intros; reflexivity]
    | match goal with
      | |- maintains _ _ (if ?b then _ else _) => destruct b
      | |- maintains _ _ (match ?x with _ => _ end) => destruct x
      end ].

Ltac maintains_auto := repeat maintains_step.

Lemma rounded_voltage_of_tmp t :
  0 <= t <= UINT16_MAX ->
  rounded_voltage (to_uint16 (Z.quot (t + 5) 10 * 10)) = true.
Proof.
  unfold UINT16_MAX, rounded_voltage. intros Ht.
  destruct (Z.eq_dec t 65535) as [-> | Hne]; [reflexivity | ].
  destruct (add_5_truncate_to_tens t) as (E & Hm & Hn);
    [unfold UINT16_MAX; lia | ].
  rewrite E, Hm.
  assert ((t + 5) / 10 <= 6553)
    by (apply Z.lt_succ_r; apply Z.div_lt_upper_bound; lia).
  pose proof (Z.div_pos (t + 5) 10 ltac:(lia) ltac:(lia)).
  replace (0 <=? 10 * ((t + 5) / 10)) with true
    by (symmetry; apply Z.leb_le; lia).
  replace (10 * ((t + 5) / 10) <=? 65530) with true
    by (symmetry; apply Z.leb_le; lia).
  reflexivity.
Qed.

Section RunInvariant.

Variables (p : batt_meas_param_t) (h : option m_batt_meas_event_handler_t)
          (f : spec_float) (c : bool).
Variable res : Z.

Let I := config_is p h f c.
Let ok := agrees_with p h.

Lemma app_timer_periodic_handler_maintains :
  maintains I ok app_timer_periodic_handler.
Proof.
  unfold app_timer_periodic_handler, saadc_init, nrf_drv_saadc_init,
    nrf_drv_saadc_channel_init, nrf_drv_saadc_buffer_convert,
    nrf_drv_saadc_sample, put_saadc.
  maintains_auto.
Qed.

Lemma saadc_event_handler_interrupt_maintains evt :
  maintains I ok (saadc_event_handler_interrupt res evt).
Proof.
  unfold saadc_event_handler_interrupt.
  apply maintains_bind;
    [ | intros; unfold nrf_drv_saadc_uninit, put_saadc; maintains_auto].
  destruct evt as [s | | ]; [ | maintains_auto | maintains_auto].
  intros w HI. unfold bind at 1. rewrite adc_to_batt_voltage_eq.
  destruct (adc_to_tmp_voltage res (m_battery_divider_factor w) (f32_of_Z 1)
              (to_uint32 s)) as [t | ] eqn:Ht; [ | exact Logic.I].
  pose proof (rounded_voltage_of_tmp t (f32_to_uint16_range _ _ Ht)) as Hr.
  unfold app_sched_event_put. unfold_proc. simpl.
  destruct (Z.of_nat (length (sched_queue w)) <? sched_queue_size w); simpl;
    (split; [exact HI | ]); eexists;
    (split; [reflexivity | simpl; unfold ok; simpl; rewrite Hr; reflexivity]).
Qed.

Lemma SAADC_IRQHandler_maintains irq :
  maintains I ok (SAADC_IRQHandler res irq).
Proof.
  unfold SAADC_IRQHandler, put_saadc.
  apply maintains_bind; [maintains_auto | intros cb].
  destruct irq, (adc_state cb); try apply maintains_ret.
  - destruct (drv_initialized cb && sample_triggered cb);
      [ | apply maintains_ret].
    do 3 (apply maintains_bind; [maintains_auto | intros]).
    apply saadc_event_handler_interrupt_maintains.
  - destruct (drv_initialized cb); [ | apply maintains_ret].
    apply maintains_bind; [maintains_auto | intros].
    apply saadc_event_handler_interrupt_maintains.
Qed.

Lemma event_of_agrees v level h0 :
  h = Some h0 ->
  batt_voltage_to_percent p v = Some level ->
  ok (m_evt_handler_called h0 (event_of p v level)) = true.
Proof.
  intros Hh Hl. unfold ok, agrees_with, event_of. simpl.
  rewrite Hh, Hl, !Z.eqb_refl. simpl.
  destruct (classified p v); reflexivity.
Qed.

Lemma batt_event_handler_adc_maintains v :
  maintains I ok (batt_event_handler_adc v).
Proof.
  intros w HI. pose proof HI as (Hp & Hh & Hf & Hc).
  destruct (batt_voltage_to_percent (m_batt_meas_param w) v) as [level | ] eqn:Hl;
    [ | unfold batt_event_handler_adc; unfold_proc; rewrite Hl; exact Logic.I].
  destruct (m_evt_handler w) as [h0 | ] eqn:Hh0;
    [ | unfold batt_event_handler_adc, ble_bas_battery_level_update;
        unfold_proc; rewrite Hl; simpl;
        destruct (m_ble_bas_configured w); simpl;
        [destruct (negb (bas_status w =? NRF_SUCCESS)
                   && negb (bas_status w =? NRF_ERROR_INVALID_STATE)
                   && negb (bas_status w =? BLE_ERROR_GATTS_SYS_ATTR_MISSING));
         simpl; rewrite ?Hh0; try exact Logic.I;
         (split; [exact HI | ]); eexists; (split; [reflexivity | reflexivity])
        | rewrite Hh0; exact Logic.I]].
  assert (Hok : ok (m_evt_handler_called h0 (event_of p v level)) = true).
  { apply event_of_agrees; [congruence | rewrite <- Hp; exact Hl]. }
  destruct (m_ble_bas_configured w) eqn:Hcfg.
  - rewrite (batt_event_handler_adc_configured v w h0 level Hcfg Hh0 Hl).
    destruct (tolerated_bas_status (bas_status w));
      (split; [exact HI | ]); eexists;
      (split; [reflexivity | ]); cbn [forallb]; rewrite ?Hp, ?Hok; reflexivity.
  - rewrite (batt_event_handler_adc_unconfigured v w h0 level Hcfg Hh0 Hl).
    split; [exact HI | ]. eexists.
    split; [reflexivity | ]. cbn [forallb]. rewrite Hp, Hok. reflexivity.
Qed.

Lemma app_sched_execute_maintains : maintains I ok app_sched_execute.
Proof.
  unfold app_sched_execute.
  apply maintains_bind; [maintains_auto | intros q].
  induction (length q) as [ | n IH]; simpl; [apply maintains_ret | ].
  apply maintains_bind; [maintains_auto | intros q'].
  destruct q' as [ | v q']; [apply maintains_ret | ].
  apply maintains_bind; [maintains_auto | intros].
  apply maintains_bind; [apply batt_event_handler_adc_maintains | intros; exact IH].
Qed.

Lemma run_maintains l : maintains I ok (run res l).
Proof.
  induction l as [ | s l IH]; simpl; [apply maintains_ret | ].
  apply maintains_bind; [ | intros; exact IH].
  destruct s; simpl.
  - apply app_timer_periodic_handler_maintains.
  - apply SAADC_IRQHandler_maintains.
  - apply app_sched_execute_maintains.
Qed.

End RunInvariant.

Lemma agrees_with_dispatch p h h' e :
  agrees_with p h (m_evt_handler_called h' e) = true ->
  h = Some h' /\
  type e = classified p (voltage_mv e) /\
  batt_voltage_to_percent p (voltage_mv e) = Some (level_percent e) /\
  valid_voltage e = true.
Proof.
  unfold agrees_with.
  destruct h as [h0 | ]; [ | discriminate].
  destruct (batt_voltage_to_percent p (voltage_mv e)) as [level | ];
    [ | discriminate].
  intros H. repeat (apply andb_true_iff in H; destruct H as [H ?]).
  apply Z.eqb_eq in H. apply Z.eqb_eq in H2. subst.
  repeat split; try assumption.
  destruct (type e), (classified p (voltage_mv e)); try reflexivity;
    discriminate.
Qed.

Lemma rounded_voltage_true v :
  rounded_voltage v = true -> (0 <= v <= 65530 /\ v mod 10 = 0) \/ v = 4.
Proof.
  unfold rounded_voltage. intros H. apply orb_true_iff in H.
  destruct H as [H | H]; [left | right; now apply Z.eqb_eq].
  repeat (apply andb_true_iff in H; destruct H as [H ?]).
  apply Z.leb_le in H. apply Z.leb_le in H1. apply Z.eqb_eq in H0. lia.
Qed.

(** X12: the configuration is immutable while the module runs.  However
    a sequence of timer ticks, converter interrupts and scheduler passes
    ends, the parameters, the registered handler, the divider factor and the
    service flag are those it started with. *)
Theorem run_keeps_configuration :
  (forall res stimuli w,
     match run res stimuli w with
     | Returns _ w' | Fatal _ w' =>
         m_batt_meas_param w' = m_batt_meas_param w /\
         m_evt_handler w' = m_evt_handler w /\
         m_battery_divider_factor w' = m_battery_divider_factor w /\
         m_ble_bas_configured w' = m_ble_bas_configured w
     | Undefined | OutOfFuel => True
     end) /\
  (exists w', run 1 two_cycles ready_world = Returns tt w').
Proof.
  split; [ | eexists; vm_compute; reflexivity].
  intros res stimuli w.
  pose proof (run_maintains (m_batt_meas_param w) (m_evt_handler w)
                (m_battery_divider_factor w) (m_ble_bas_configured w)
                res stimuli w) as H.
  specialize (H ltac:(repeat split)).
  destruct (run res stimuli w) as [u w' | e w' | | ]; try exact I;
    destruct H as (HI & _); exact HI.
Qed.

(** X13: every event dispatched while the module runs agrees with the
    configuration the run started with: it goes to the registered handler,
    its type is the classification of its voltage against the two limits,
    its level is the table's level for its voltage, and it is flagged
    valid. *)
Theorem run_dispatches_consistent_events :
  (forall res stimuli w,
     match run res stimuli w with
     | Returns _ w' | Fatal _ w' =>
         exists added,
           calls w' = calls w ++ added /\
           forall h e,
             In (m_evt_handler_called h e) added ->
             m_evt_handler w = Some h /\
             type e = classified (m_batt_meas_param w) (voltage_mv e) /\
             batt_voltage_to_percent (m_batt_meas_param w) (voltage_mv e)
               = Some (level_percent e) /\
             valid_voltage e = true
     | Undefined | OutOfFuel => True
     end) /\
  (exists w',
     run 1 two_cycles ready_world = Returns tt w' /\
     dispatched_voltages (calls w') = [600; 1170]).
Proof.
  split; [ | eexists; split; [vm_compute; reflexivity | reflexivity]].
  intros res stimuli w.
  pose proof (run_maintains (m_batt_meas_param w) (m_evt_handler w)
                (m_battery_divider_factor w) (m_ble_bas_configured w)
                res stimuli w) as H.
  specialize (H ltac:(repeat split)).
  destruct (run res stimuli w) as [u w' | e w' | | ]; try exact I;
    destruct H as (_ & added & Hc & Hok); exists added;
    (split; [exact Hc | ]); intros h0 e0 Hin;
    rewrite forallb_forall in Hok;
    apply agrees_with_dispatch; apply Hok; exact Hin.
Qed.

(** X14: every voltage queued for the deferred handler while the module
    runs is a result of the conversion: a multiple of 10 between 0 and 65530,
    or 4. *)
Theorem run_queues_rounded_voltages :
  (forall res stimuli w,
     match run res stimuli w with
     | Returns _ w' | Fatal _ w' =>
         exists added,
           calls w' = calls w ++ added /\
           forall v,
             In (app_sched_event_put_called v) added ->
             (0 <= v <= 65530 /\ v mod 10 = 0) \/ v = 4
     | Undefined | OutOfFuel => True
     end) /\
  (exists w',
     run 1 two_cycles ready_world = Returns tt w' /\
     In (app_sched_event_put_called 1170) (calls w')).
Proof.
  split; [ | eexists; split; [vm_compute; reflexivity
                             | simpl; do 10 right; left; reflexivity]].
  intros res stimuli w.
  pose proof (run_maintains (m_batt_meas_param w) (m_evt_handler w)
                (m_battery_divider_factor w) (m_ble_bas_configured w)
                res stimuli w) as H.
  specialize (H ltac:(repeat split)).
  destruct (run res stimuli w) as [u w' | e w' | | ]; try exact I;
    destruct H as (_ & added & Hc & Hok); exists added;
    (split; [exact Hc | ]); intros v Hin;
    rewrite forallb_forall in Hok;
    apply rounded_voltage_true; apply (Hok _ Hin).
Qed.

(* ------------------------------------------------------------------ *)
(** ** What a successful initialisation establishes *)

(** When the calibration loop ends, the flag is clear and the converter
    released. *)
Lemma wait_returns_released res fuel :
  forall w u w',
    calibrating w ->
    wait_while_cal_in_progress res fuel w = Returns u w' ->
    m_adc_cal_in_progress w' = false /\ saadc w' = saadc_uninitialized /\
    sched_queue w' = sched_queue w.
Proof.
  induction fuel as [ | fuel IH]; intros w u w' (Hi & Hs & Hf) H;
    [discriminate | ].
  simpl in H. unfold calibration_interrupt_window in H.
  unfold bind at 1 2 3 in H. unfold get at 1 2 in H. rewrite Hs in H.
  destruct (cal_latency w) as [[ | n] | ] eqn:Hl.
  - unfold SAADC_IRQHandler in H. unfold_proc. rewrite Hs, Hi in H.
    simpl in H. inversion H; subst. simpl. auto.
  - unfold modify, bind, get in H. simpl in H. rewrite Hf in H.
    apply IH in H; [exact H | repeat split; assumption].
  - unfold ret, bind, get in H. rewrite Hf in H.
    apply IH in H; [exact H | repeat split; assumption].
Qed.

Lemma saadc_calibrate_maintains p h f c res fuel :
  maintains (config_is p h f c) (fun _ => true) (saadc_calibrate res fuel).
Proof.
  unfold saadc_calibrate, nrf_drv_saadc_init, nrf_drv_saadc_calibrate_offset,
    put_saadc.
  do 5 (apply maintains_bind; [maintains_auto | intros]).
  apply maintains_bind; [ | intros; apply maintains_ret].
  induction fuel as [ | fuel IH]; simpl; [apply maintains_out_of_fuel | ].
  apply maintains_bind.
  - unfold calibration_interrupt_window.
    do 2 (apply maintains_bind; [maintains_auto | intros]).
    destruct (adc_state a4); try apply maintains_ret.
    destruct a5 as [[ | n] | ]; [ | maintains_auto | apply maintains_ret].
    unfold SAADC_IRQHandler, saadc_event_handler_interrupt,
      nrf_drv_saadc_uninit, put_saadc.
    maintains_auto.
  - intros _. apply maintains_bind; [maintains_auto | intros b].
    destruct b; [exact IH | apply maintains_ret].
Qed.

Lemma saadc_calibrate_returns_released res fuel w code w' :
  saadc_calibrate res fuel w = Returns code w' ->
  m_adc_cal_in_progress w' = false /\ saadc w' = saadc_uninitialized /\
  sched_queue w' = sched_queue w.
Proof.
  intros H.
  destruct (drv_initialized (saadc w)) eqn:Hi.
  - unfold saadc_calibrate, nrf_drv_saadc_init in H. unfold_proc.
    simpl in H. rewrite Hi in H. discriminate.
  - rewrite saadc_calibrate_enters_loop in H by exact Hi.
    apply bind_returns in H. destruct H as (u & w1 & H & Hr).
    unfold ret in Hr. inversion Hr; subst.
    apply wait_returns_released in H;
      [exact H | apply calibration_started_calibrating].
Qed.

Lemma maintains_returns {A} I ok (m : M A) w a w' :
  maintains I ok m -> I w -> m w = Returns a w' -> I w'.
Proof.
  intros Hm HI E. specialize (Hm w HI). rewrite E in Hm. apply Hm.
Qed.

(** What a return of [m_batt_meas_init] implies. *)
Lemma m_batt_meas_init_returns :
  forall res p_handle p_init fuel w code w',
    m_batt_meas_init res p_handle p_init fuel w = Returns code w' ->
    (code = NRF_ERROR_NULL /\ w' = w /\ (p_handle = None \/ p_init = None)) \/
    (code = M_BATT_STATUS_CODE_SUCCESS /\
     exists init h,
       p_init = Some init /\ evt_handler init = Some h /\
       m_evt_handler w' = Some h /\
       m_batt_meas_param w' = batt_meas_param init /\
       m_battery_divider_factor w'
         = divider_factor_of (voltage_divider (batt_meas_param init)) /\
       ~ exactly_one_zero (voltage_divider (batt_meas_param init)) /\
       batt_voltage_limit_low (batt_meas_param init)
         <= batt_voltage_limit_full (batt_meas_param init) /\
       m_adc_cal_in_progress w' = false /\
       saadc w' = saadc_uninitialized).
Proof.
  intros res p_handle p_init fuel w code w' H.
  unfold m_batt_meas_init in H.
  destruct p_handle as [hd | ];
    [ | unfold ret in H; inversion H; left; auto].
  destruct p_init as [init | ];
    [ | unfold ret in H; inversion H; left; auto].
  right.
  apply bind_returns in H. destruct H as (c1 & w1 & Hpc & H).
  apply bind_returns in H. destruct H as (u1 & w1' & Hck & H).
  apply APP_ERROR_CHECK_returns in Hck. destruct Hck as [-> ->].
  destruct (evt_handler init) as [h | ] eqn:Hh;
    [ | unfold param_check in Hpc; rewrite Hh in Hpc; discriminate].
  rewrite (param_check_with_handler init h w Hh) in Hpc. cbv zeta in Hpc.
  set (d := voltage_divider (batt_meas_param init)) in *.
  destruct (negb ((r_1_ohm d =? 0) && (r_2_ohm d =? 0))
            && ((r_1_ohm d =? 0) || (r_2_ohm d =? 0))) eqn:Hone;
    [discriminate | ].
  destruct (batt_voltage_limit_full (batt_meas_param init)
            <? batt_voltage_limit_low (batt_meas_param init)) eqn:Hord;
    [discriminate | ].
  simpl in Hpc. inversion Hpc; subst w1; clear Hpc.
  apply Z.ltb_ge in Hord.
  assert (Hnot : ~ exactly_one_zero d).
  { unfold exactly_one_zero. intros [[H1 H2] | [H1 H2]].
    - rewrite H1 in Hone. simpl in Hone.
      replace (r_2_ohm d =? 0) with false in Hone
        by (symmetry; apply Z.eqb_neq; exact H2).
      discriminate.
    - rewrite H2 in Hone.
      replace (r_1_ohm d =? 0) with false in Hone
        by (symmetry; apply Z.eqb_neq; exact H1).
      discriminate. }
  unfold bind at 1 2 3 in H. unfold modify at 1 2 in H. unfold get at 1 in H.
  apply bind_returns in H. destruct H as (u2 & w2 & Hgp & H).
  apply bind_returns in H. destruct H as (u3 & w3 & Hci & H).
  apply bind_returns in H. destruct H as (c4 & w4 & Hcal & H).
  apply bind_returns in H. destruct H as (u5 & w5 & Hck & H).
  apply APP_ERROR_CHECK_returns in Hck. destruct Hck as [-> ->].
  unfold ret in H. inversion H; subst; clear H.
  assert (HI2 : config_is (batt_meas_param init) (Some h) (divider_factor_of d)
                  (m_ble_bas_configured w) w2).
  { refine (maintains_returns _ (fun _ => true) _ _ _ _ _ _ Hgp).
    - unfold nrf_drv_gpiote_out_init. maintains_auto.
    - repeat split; simpl; auto. }
  assert (HI3 : config_is (batt_meas_param init) (Some h) (divider_factor_of d)
                  (m_ble_bas_configured w) w3).
  { unfold nrf_gpio_cfg_input, record, modify in Hci.
    inversion Hci; subst. exact HI2. }
  pose proof (saadc_calibrate_maintains (batt_meas_param init) (Some h)
                (divider_factor_of d) (m_ble_bas_configured w) res fuel w3 HI3)
    as Hm.
  rewrite Hcal in Hm. destruct Hm as ((Hp & Hhd & Hf & _) & _).
  apply saadc_calibrate_returns_released in Hcal.
  destruct Hcal as (Hflag & Hs & _).
  split; [reflexivity | ].
  exists init, h. repeat split; try assumption; try reflexivity.
Qed.

(** X15: what [m_batt_meas_init] establishes.  Whenever it returns, either
    one of its two pointers was NULL, the status is [NRF_ERROR_NULL] and
    nothing has changed, or the status is success and the block is stored as
    given: its handler is registered (and is not NULL), its parameters are
    the module's, the divider factor is the one of its divider, which is not
    half-specified, its low limit is not above its full limit, the
    calibration has completed and the converter is released. *)
Theorem m_batt_meas_init_establishes_configuration :
  forall res p_handle p_init fuel w code w',
    m_batt_meas_init res p_handle p_init fuel w = Returns code w' ->
    (code = NRF_ERROR_NULL /\ w' = w /\ (p_handle = None \/ p_init = None)) \/
    (code = M_BATT_STATUS_CODE_SUCCESS /\
     exists init h,
       p_init = Some init /\ evt_handler init = Some h /\
       m_evt_handler w' = Some h /\
       m_batt_meas_param w' = batt_meas_param init /\
       m_battery_divider_factor w'
         = divider_factor_of (voltage_divider (batt_meas_param init)) /\
       ~ exactly_one_zero (voltage_divider (batt_meas_param init)) /\
       batt_voltage_limit_low (batt_meas_param init)
         <= batt_voltage_limit_full (batt_meas_param init) /\
       m_adc_cal_in_progress w' = false /\
       saadc w' = saadc_uninitialized).
Proof. exact m_batt_meas_init_returns. Qed.

Lemma m_batt_meas_init_establishes_configuration_witness :
  (M_BATT_STATUS_CODE_SUCCESS = NRF_ERROR_NULL /\
   set_calls [nrf_gpio_cfg_input_called 28; nrf_drv_saadc_init_called;
              nrf_drv_saadc_calibrate_offset_called;
              nrf_drv_saadc_uninit_called] ready_world = reset_world /\
   (Some 100 = None \/ Some example_init = None)) \/
  (M_BATT_STATUS_CODE_SUCCESS = M_BATT_STATUS_CODE_SUCCESS /\
   exists init h,
     Some example_init = Some init /\ evt_handler init = Some h /\
     m_evt_handler
       (set_calls [nrf_gpio_cfg_input_called 28; nrf_drv_saadc_init_called;
                   nrf_drv_saadc_calibrate_offset_called;
                   nrf_drv_saadc_uninit_called] ready_world) = Some h /\
     m_batt_meas_param
       (set_calls [nrf_gpio_cfg_input_called 28; nrf_drv_saadc_init_called;
                   nrf_drv_saadc_calibrate_offset_called;
                   nrf_drv_saadc_uninit_called] ready_world)
       = batt_meas_param init /\
     m_battery_divider_factor
       (set_calls [nrf_gpio_cfg_input_called 28; nrf_drv_saadc_init_called;
                   nrf_drv_saadc_calibrate_offset_called;
                   nrf_drv_saadc_uninit_called] ready_world)
       = divider_factor_of (voltage_divider (batt_meas_param init)) /\
     ~ exactly_one_zero (voltage_divider (batt_meas_param init)) /\
     batt_voltage_limit_low (batt_meas_param init)
       <= batt_voltage_limit_full (batt_meas_param init) /\
     m_adc_cal_in_progress
       (set_calls [nrf_gpio_cfg_input_called 28; nrf_drv_saadc_init_called;
                   nrf_drv_saadc_calibrate_offset_called;
                   nrf_drv_saadc_uninit_called] ready_world) = false /\
     saadc
       (set_calls [nrf_gpio_cfg_input_called 28; nrf_drv_saadc_init_called;
                   nrf_drv_saadc_calibrate_offset_called;
                   nrf_drv_saadc_uninit_called] ready_world)
       = saadc_uninitialized).
Proof.
  refine (m_batt_meas_init_establishes_configuration 1 (Some 100)
            (Some example_init) 4 reset_world _ _ _).
  vm_compute. reflexivity.
Defined.

(* ------------------------------------------------------------------ *)
(** ** The service layer *)

Lemma sbind_returns {A B} (m : Srv A) (k : A -> Srv B) s b s' :
  sbind m k s = SReturns b s' ->
  exists a s1, m s = SReturns a s1 /\ k a s1 = SReturns b s'.
Proof.
  unfold sbind. destruct (m s) as [a s1 | | | ]; try discriminate.
  intros H. exists a, s1. split; [reflexivity | exact H].
Qed.

Lemma set_core_core s : set_core (core s) s = s.
Proof. destruct s. reflexivity. Qed.

Ltac unfold_service :=
  unfold S_APP_ERROR_CHECK, srecord, smodify, sget, on_core, sbind, sret,
    get, modify in *.

(** [m_batt_meas_enable] from a state whose converter is released, with an
    interval that passes the test. *)
Lemma m_batt_meas_enable_released limit ms s :
  limit <= ms ->
  drv_initialized (saadc (core s)) = false ->
  m_batt_meas_enable limit ms s =
  let param := m_batt_meas_param (core s) in
  let s1 := set_service_calls
              (service_calls s
               ++ (if batt_mon_en_pin_used param
                   then [nrf_drv_gpiote_out_set_called (batt_mon_en_pin_no param)]
                   else [])
               ++ [app_timer_create_called])
              (set_core (conversion_triggered (core s)) s) in
  if app_timer_create_status s =? NRF_SUCCESS then
    if app_timer_start_status s =? NRF_SUCCESS then
      SReturns M_BATT_STATUS_CODE_SUCCESS
        (set_timer_armed (Some ms)
           (set_service_calls
              (service_calls s ++ enable_calls param ms)
              (set_core (conversion_triggered (core s)) s)))
    else
      SFatal (app_timer_start_status s)
        (set_service_calls
           (service_calls s ++ enable_calls param ms)
           (set_core (conversion_triggered (core s)) s))
  else SFatal (app_timer_create_status s) s1.
Proof.
  intros Hms Hi. unfold m_batt_meas_enable.
  replace (ms <? limit) with false by (symmetry; apply Z.ltb_ge; exact Hms).
  unfold nrf_drv_gpiote_out_set, app_timer_create, app_timer_start,
    enable_calls.
  destruct s as [w armed gi create_status start_status stop_status bas_st
                   gpiote_st log].
  simpl in Hi. unfold_service. simpl.
  destruct (create_status =? NRF_SUCCESS) eqn:Ec,
    (start_status =? NRF_SUCCESS) eqn:Es,
    (batt_mon_en_pin_used (m_batt_meas_param w)); simpl;
    rewrite (tick_while_released _ Hi); simpl;
    rewrite ?Ec; simpl; rewrite ?Es; simpl;
    rewrite <- ?app_assoc; reflexivity.
Qed.

(** [m_batt_meas_enable] while the converter is held. *)
Lemma m_batt_meas_enable_held limit ms s :
  limit <= ms ->
  drv_initialized (saadc (core s)) = true ->
  exists s',
    m_batt_meas_enable limit ms s = SFatal NRF_ERROR_INVALID_STATE s' /\
    timer_armed s' = timer_armed s /\
    saadc (core s') = saadc (core s) /\
    service_calls s' =
      service_calls s
      ++ (if batt_mon_en_pin_used (m_batt_meas_param (core s))
          then [nrf_drv_gpiote_out_set_called
                  (batt_mon_en_pin_no (m_batt_meas_param (core s)))]
          else []).
Proof.
  intros Hms Hi. unfold m_batt_meas_enable.
  replace (ms <? limit) with false by (symmetry; apply Z.ltb_ge; exact Hms).
  unfold nrf_drv_gpiote_out_set. unfold_service. simpl.
  destruct (batt_mon_en_pin_used (m_batt_meas_param (core s))); simpl;
    rewrite (tick_while_initialized _ Hi); simpl;
    eexists; (split; [reflexivity | ]); simpl; rewrite ?app_nil_r; auto.
Qed.

(** X16: [m_batt_meas_enable].  An interval below the minimum is refused
    with the invalid-parameter status and without any effect.  Otherwise,
    whenever the call returns, it returns success, the converter was
    released before and a conversion has been triggered at once (not at the
    first expiry of the timer), the timer and the start were both answered
    with success, the timer is armed with the interval, and the calls to the
    pin (when used) and the timer were made in this order: set, create,
    start. *)
Theorem m_batt_meas_enable_samples_at_once :
  forall limit ms s code s',
    m_batt_meas_enable limit ms s = SReturns code s' ->
    (ms < limit /\ code = M_BATT_STATUS_CODE_INVALID_PARAM /\ s' = s) \/
    (limit <= ms /\ code = M_BATT_STATUS_CODE_SUCCESS /\
     drv_initialized (saadc (core s)) = false /\
     core s' = conversion_triggered (core s) /\
     timer_armed s' = Some ms /\
     app_timer_create_status s = NRF_SUCCESS /\
     app_timer_start_status s = NRF_SUCCESS /\
     service_calls s'
     = service_calls s ++ enable_calls (m_batt_meas_param (core s)) ms).
Proof.
  intros limit ms s code s' H.
  destruct (Z.ltb_spec ms limit) as [Hlt | Hge].
  - left. unfold m_batt_meas_enable in H.
    replace (ms <? limit) with true in H by (symmetry; apply Z.ltb_lt; exact Hlt).
    unfold sret in H. inversion H. auto.
  - right. destruct (drv_initialized (saadc (core s))) eqn:Hi.
    + destruct (m_batt_meas_enable_held limit ms s Hge Hi) as (s2 & E & _).
      rewrite E in H. discriminate.
    + rewrite (m_batt_meas_enable_released limit ms s Hge Hi) in H.
      cbv zeta in H.
      destruct (Z.eqb_spec (app_timer_create_status s) NRF_SUCCESS) as [Hc | Hc];
        [ | discriminate].
      destruct (Z.eqb_spec (app_timer_start_status s) NRF_SUCCESS) as [Hst | Hst];
        [ | discriminate].
      inversion H; subst. simpl. repeat split; auto.
Qed.

Lemma m_batt_meas_enable_samples_at_once_witness :
  (60000 < 1000 /\
   M_BATT_STATUS_CODE_SUCCESS = M_BATT_STATUS_CODE_INVALID_PARAM /\
   set_timer_armed (Some 60000)
     (set_service_calls [app_timer_create_called; app_timer_start_called 60000]
        (set_core (conversion_triggered ready_world) ready_platform))
   = ready_platform) \/
  (1000 <= 60000 /\
   M_BATT_STATUS_CODE_SUCCESS = M_BATT_STATUS_CODE_SUCCESS /\
   drv_initialized (saadc (core ready_platform)) = false /\
   core (set_timer_armed (Some 60000)
           (set_service_calls
              [app_timer_create_called; app_timer_start_called 60000]
              (set_core (conversion_triggered ready_world) ready_platform)))
   = conversion_triggered (core ready_platform) /\
   timer_armed (set_timer_armed (Some 60000)
                  (set_service_calls
                     [app_timer_create_called; app_timer_start_called 60000]
                     (set_core (conversion_triggered ready_world)
                        ready_platform))) = Some 60000 /\
   app_timer_create_status ready_platform = NRF_SUCCESS /\
   app_timer_start_status ready_platform = NRF_SUCCESS /\
   service_calls (set_timer_armed (Some 60000)
                    (set_service_calls
                       [app_timer_create_called; app_timer_start_called 60000]
                       (set_core (conversion_triggered ready_world)
                          ready_platform)))
   = service_calls ready_platform
     ++ enable_calls (m_batt_meas_param (core ready_platform)) 60000).
Proof.
  refine (m_batt_meas_enable_samples_at_once 1000 60000 ready_platform _ _ _).
  vm_compute. reflexivity.
Defined.

(** X17: enabling twice.  After a call of [m_batt_meas_enable] that
    returned success, a second call (with any acceptable interval) made
    before the end-of-conversion interrupt has released the converter ends
    in the error handler with [NRF_ERROR_INVALID_STATE]; the timer stays
    armed as the first call left it. *)
Theorem m_batt_meas_enable_twice_is_fatal :
  forall limit ms1 ms2 s s1,
    m_batt_meas_enable limit ms1 s
      = SReturns M_BATT_STATUS_CODE_SUCCESS s1 ->
    limit <= ms2 ->
    exists s2,
      m_batt_meas_enable limit ms2 s1 = SFatal NRF_ERROR_INVALID_STATE s2 /\
      timer_armed s2 = Some ms1.
Proof.
  intros limit ms1 ms2 s s1 H Hms2.
  destruct (Z.ltb_spec ms1 limit) as [Hlt | Hge].
  { unfold m_batt_meas_enable in H.
    replace (ms1 <? limit) with true in H
      by (symmetry; apply Z.ltb_lt; exact Hlt).
    discriminate. }
  destruct (drv_initialized (saadc (core s))) eqn:Hi.
  { destruct (m_batt_meas_enable_held limit ms1 s Hge Hi) as (s2 & E & _).
    rewrite E in H. discriminate. }
  rewrite (m_batt_meas_enable_released limit ms1 s Hge Hi) in H.
  cbv zeta in H.
  destruct (app_timer_create_status s =? NRF_SUCCESS); [ | discriminate].
  destruct (app_timer_start_status s =? NRF_SUCCESS); [ | discriminate].
  inversion H; subst s1; clear H.
  destruct (m_batt_meas_enable_held limit ms2
              (set_timer_armed (Some ms1)
                 (set_service_calls
                    (service_calls s
                     ++ enable_calls (m_batt_meas_param (core s)) ms1)
                    (set_core (conversion_triggered (core s)) s)))
              Hms2 eq_refl)
    as (s2 & E & Ht & _).
  exists s2. split; [exact E | exact Ht].
Qed.

Lemma m_batt_meas_enable_twice_is_fatal_witness :
  exists s2,
    m_batt_meas_enable 1000 30000
      (set_timer_armed (Some 60000)
         (set_service_calls
            [app_timer_create_called; app_timer_start_called 60000]
            (set_core (conversion_triggered ready_world) ready_platform)))
    = SFatal NRF_ERROR_INVALID_STATE s2 /\
    timer_armed s2 = Some 60000.
Proof.
  refine (m_batt_meas_enable_twice_is_fatal 1000 60000 30000 ready_platform
            _ _ _).
  - vm_compute. reflexivity.
  - lia.
Defined.

(** X18: [m_batt_meas_disable] always ends, by returning success when the
    timer answers the stop with success (the timer is then not armed) and in
    the error handler with the timer's status otherwise.  Either way it has
    first cleared the monitor pin (when used) and it has not touched the
    state of the measurement cycle: a conversion in flight, and the events
    queued, are left as they are. *)
Theorem m_batt_meas_disable_leaves_cycle_alone :
  (forall s,
     match m_batt_meas_disable s with
     | SReturns code s' =>
         code = M_BATT_STATUS_CODE_SUCCESS /\
         app_timer_stop_status s = NRF_SUCCESS /\
         timer_armed s' = None /\ core s' = core s /\
         service_calls s'
         = service_calls s ++ disable_calls (m_batt_meas_param (core s))
     | SFatal err_code s' =>
         err_code = app_timer_stop_status s /\ err_code <> NRF_SUCCESS /\
         timer_armed s' = timer_armed s /\ core s' = core s /\
         service_calls s'
         = service_calls s ++ disable_calls (m_batt_meas_param (core s))
     | SUndefined | SOutOfFuel => False
     end) /\
  (forall s code s1 code' s2,
     m_batt_meas_disable s = SReturns code s1 ->
     m_batt_meas_disable s1 = SReturns code' s2 ->
     timer_armed s2 = None /\ core s2 = core s).
Proof.
  assert (Hone : forall s,
     match m_batt_meas_disable s with
     | SReturns code s' =>
         code = M_BATT_STATUS_CODE_SUCCESS /\
         app_timer_stop_status s = NRF_SUCCESS /\
         timer_armed s' = None /\ core s' = core s /\
         service_calls s'
         = service_calls s ++ disable_calls (m_batt_meas_param (core s))
     | SFatal err_code s' =>
         err_code = app_timer_stop_status s /\ err_code <> NRF_SUCCESS /\
         timer_armed s' = timer_armed s /\ core s' = core s /\
         service_calls s'
         = service_calls s ++ disable_calls (m_batt_meas_param (core s))
     | SUndefined | SOutOfFuel => False
     end).
  { intros s. unfold m_batt_meas_disable, nrf_drv_gpiote_out_clear,
      app_timer_stop, disable_calls.
    destruct s as [w armed gi create_status start_status stop_status bas_st
                     gpiote_st log].
    unfold_service. simpl.
    destruct (stop_status =? NRF_SUCCESS) eqn:E,
      (batt_mon_en_pin_used (m_batt_meas_param w)); simpl;
      rewrite ?E; simpl; rewrite <- ?app_assoc; repeat split; auto;
      try (apply Z.eqb_eq; exact E); try (apply Z.eqb_neq; exact E). }
  split; [exact Hone | ].
  intros s code s1 code' s2 H1 H2.
  pose proof (Hone s) as A. rewrite H1 in A.
  pose proof (Hone s1) as B. rewrite H2 in B.
  destruct A as (_ & _ & _ & Hc1 & _). destruct B as (_ & _ & Ht & Hc2 & _).
  split; [exact Ht | congruence].
Qed.

Lemma m_batt_meas_disable_leaves_cycle_alone_witness :
  timer_armed
    (set_timer_armed None
       (set_service_calls [app_timer_stop_called; app_timer_stop_called]
          ready_platform)) = None /\
  core
    (set_timer_armed None
       (set_service_calls [app_timer_stop_called; app_timer_stop_called]
          ready_platform)) = core ready_platform.
Proof.
  refine (proj2 m_batt_meas_disable_leaves_cycle_alone ready_platform
            M_BATT_STATUS_CODE_SUCCESS
            (set_timer_armed None
               (set_service_calls [app_timer_stop_called] ready_platform))
            M_BATT_STATUS_CODE_SUCCESS _ _ _); vm_compute; reflexivity.
Defined.

(** X19: the first event after enabling.  After [m_batt_meas_enable] has
    returned success from a state with an empty queue, the end-of-conversion
    interrupt and a scheduler pass complete the conversion that the call
    itself triggered: the calls of a whole measurement cycle have been made
    and one event, for the converted voltage, has been dispatched, without
    any expiry of the timer. *)
Theorem m_batt_meas_enable_yields_first_event :
  forall limit res ms s s1 sample w',
    m_batt_meas_enable limit ms s = SReturns M_BATT_STATUS_CODE_SUCCESS s1 ->
    sched_queue (core s) = [] ->
    run res [saadc_interrupt (SAADC_EVENTS_END sample); main_loop_pass] (core s1)
      = Returns tt w' ->
    exists voltage level h,
      calls w' =
        calls (core s) ++ acquisition_calls voltage
        ++ (if m_ble_bas_configured (core s)
            then [ble_bas_battery_level_update_called level] else [])
        ++ [m_evt_handler_called h
              (event_of (m_batt_meas_param (core s)) voltage level)] /\
      saadc w' = saadc_uninitialized /\
      sched_queue w' = [].
Proof.
  intros limit res ms s s1 sample w' He Hq Hrun.
  destruct (Z.ltb_spec ms limit) as [Hlt | Hge].
  { unfold m_batt_meas_enable in He.
    replace (ms <? limit) with true in He
      by (symmetry; apply Z.ltb_lt; exact Hlt).
    discriminate. }
  destruct (drv_initialized (saadc (core s))) eqn:Hi.
  { destruct (m_batt_meas_enable_held limit ms s Hge Hi) as (s2 & E & _).
    rewrite E in He. discriminate. }
  rewrite (m_batt_meas_enable_released limit ms s Hge Hi) in He.
  cbv zeta in He.
  destruct (app_timer_create_status s =? NRF_SUCCESS); [ | discriminate].
  destruct (app_timer_start_status s =? NRF_SUCCESS); [ | discriminate].
  inversion He; subst s1; clear He. simpl core in Hrun.
  assert (Hcycle :
    run res [timer_tick; saadc_interrupt (SAADC_EVENTS_END sample);
             main_loop_pass] (core s) = Returns tt w').
  { change (run res [timer_tick; saadc_interrupt (SAADC_EVENTS_END sample);
                     main_loop_pass] (core s))
      with (bind app_timer_periodic_handler
              (fun _ => run res [saadc_interrupt (SAADC_EVENTS_END sample);
                                 main_loop_pass]) (core s)).
    unfold bind at 1. rewrite (tick_while_released _ Hi). exact Hrun. }
  destruct (measurement_cycle res (core s) sample w' Hq Hcycle)
    as (v & level & h & _ & Hc & Hs & Hq').
  exists v, level, h. auto.
Qed.

Lemma m_batt_meas_enable_yields_first_event_witness :
  exists voltage level h,
    calls
      (set_calls
         [nrf_drv_saadc_init_called; nrf_drv_saadc_channel_init_called;
          nrf_drv_saadc_buffer_convert_called; nrf_drv_saadc_sample_called;
          app_sched_event_put_called 600; nrf_drv_saadc_uninit_called;
          m_evt_handler_called 1 (event_of example_param 600 0)]
         (set_m_initial_batt_level_percent 0 (set_m_buffer 512 ready_world)))
    = calls (core ready_platform) ++ acquisition_calls voltage
      ++ (if m_ble_bas_configured (core ready_platform)
          then [ble_bas_battery_level_update_called level] else [])
      ++ [m_evt_handler_called h
            (event_of (m_batt_meas_param (core ready_platform)) voltage level)] /\
    saadc
      (set_calls
         [nrf_drv_saadc_init_called; nrf_drv_saadc_channel_init_called;
          nrf_drv_saadc_buffer_convert_called; nrf_drv_saadc_sample_called;
          app_sched_event_put_called 600; nrf_drv_saadc_uninit_called;
          m_evt_handler_called 1 (event_of example_param 600 0)]
         (set_m_initial_batt_level_percent 0 (set_m_buffer 512 ready_world)))
    = saadc_uninitialized /\
    sched_queue
      (set_calls
         [nrf_drv_saadc_init_called; nrf_drv_saadc_channel_init_called;
          nrf_drv_saadc_buffer_convert_called; nrf_drv_saadc_sample_called;
          app_sched_event_put_called 600; nrf_drv_saadc_uninit_called;
          m_evt_handler_called 1 (event_of example_param 600 0)]
         (set_m_initial_batt_level_percent 0 (set_m_buffer 512 ready_world)))
    = [].
Proof.
  refine (m_batt_meas_enable_yields_first_event 1000 1 60000 ready_platform
            _ 512 _ _ eq_refl _).
  - vm_compute. reflexivity.
  - vm_compute. reflexivity.
Defined.

(** [battery_service_init], by the answer of the battery service. *)
Lemma battery_service_init_eq b s :
  battery_service_init b s =
  let s1 := set_service_calls
              (service_calls s
               ++ [ble_bas_init_called (m_initial_batt_level_percent (core s))])
              (set_core (core s) s) in
  if ble_bas_init_status s =? NRF_SUCCESS
  then SReturns NRF_SUCCESS
         (set_core (set_m_ble_bas_configured true (core s)) s1)
  else SFatal (ble_bas_init_status s) s1.
Proof.
  unfold battery_service_init, ble_bas_init.
  destruct s as [w armed gi create_status start_status stop_status bas_st
                   gpiote_st log].
  unfold_service. simpl.
  destruct (bas_st =? NRF_SUCCESS) eqn:E; simpl; rewrite ?E; reflexivity.
Qed.

(** X20: the initial level of the battery service.  If a measurement is
    handled before the battery service is initialised, the service is
    initialised with the level of that measurement's voltage (the handler
    has stored it instead of pushing it), and the service then counts as
    configured; if the service refuses, the call ends in the error handler
    and the service stays unconfigured.  With no measurement handled since
    reset the service is initialised with the invalid level 255. *)
Theorem battery_service_starts_with_last_level :
  (forall b v s u w1,
     m_ble_bas_configured (core s) = false ->
     batt_event_handler_adc v (core s) = Returns u w1 ->
     exists level,
       batt_voltage_to_percent (m_batt_meas_param (core s)) v = Some level /\
       match battery_service_init b (set_core w1 s) with
       | SReturns code s' =>
           code = NRF_SUCCESS /\
           service_calls s' = service_calls s ++ [ble_bas_init_called level] /\
           m_ble_bas_configured (core s') = true
       | SFatal err_code s' =>
           err_code = ble_bas_init_status s /\ err_code <> NRF_SUCCESS /\
           service_calls s' = service_calls s ++ [ble_bas_init_called level] /\
           m_ble_bas_configured (core s') = false
       | SUndefined | SOutOfFuel => False
       end) /\
  (exists s',
     battery_service_init false ready_platform = SReturns NRF_SUCCESS s' /\
     service_calls s' = [ble_bas_init_called INVALID_BATTERY_LEVEL]).
Proof.
  split; [ | eexists; split; [vm_compute; reflexivity | reflexivity]].
  intros b v s u w1 Hcfg H.
  destruct (batt_event_handler_adc_returns _ _ _ _ H)
    as (h & level & Hh & Hl & _).
  rewrite (batt_event_handler_adc_unconfigured v _ h level Hcfg Hh Hl)
    in H.
  inversion H; subst w1; clear H.
  exists level. split; [exact Hl | ].
  rewrite battery_service_init_eq. cbv zeta. simpl.
  destruct (Z.eqb_spec (ble_bas_init_status s) NRF_SUCCESS) as [E | E]; simpl;
    repeat split; auto.
Qed.

Lemma battery_service_starts_with_last_level_witness :
  exists level,
    batt_voltage_to_percent (m_batt_meas_param (core ready_platform)) 3700
      = Some level /\
    match battery_service_init false
            (set_core
               (set_calls
                  [m_evt_handler_called 1 (event_of example_param 3700 70)]
                  (set_m_initial_batt_level_percent 70 ready_world))
               ready_platform) with
    | SReturns code s' =>
        code = NRF_SUCCESS /\
        service_calls s'
        = service_calls ready_platform ++ [ble_bas_init_called level] /\
        m_ble_bas_configured (core s') = true
    | SFatal err_code s' =>
        err_code = ble_bas_init_status ready_platform /\
        err_code <> NRF_SUCCESS /\
        service_calls s'
        = service_calls ready_platform ++ [ble_bas_init_called level] /\
        m_ble_bas_configured (core s') = false
    | SUndefined | SOutOfFuel => False
    end.
Proof.
  refine (proj1 battery_service_starts_with_last_level false 3700
            ready_platform tt _ eq_refl _).
  vm_compute. reflexivity.
Defined.

(** X21: [gpiote_init] initialises the GPIOTE driver at most once.  When
    the driver is already initialised it makes no call and returns success;
    otherwise it returns what the driver's initialisation answers; and once
    it has returned success, calling it again changes nothing. *)
Theorem gpiote_init_is_idempotent :
  forall s,
    (gpiote_is_init s = true -> gpiote_init s = SReturns NRF_SUCCESS s) /\
    (gpiote_is_init s = false ->
       exists s',
         gpiote_init s = SReturns (nrf_drv_gpiote_init_status s) s' /\
         service_calls s' = service_calls s ++ [nrf_drv_gpiote_init_called]) /\
    (forall s',
       gpiote_init s = SReturns NRF_SUCCESS s' ->
       gpiote_init s' = SReturns NRF_SUCCESS s').
Proof.
  intros s.
  destruct s as [w armed gi create_status start_status stop_status bas_st
                   gpiote_st log].
  unfold gpiote_init, nrf_drv_gpiote_is_init, nrf_drv_gpiote_init.
  unfold_service. simpl.
  split; [intros ->; reflexivity | split].
  - intros ->. simpl.
    destruct (Z.eqb_spec gpiote_st NRF_SUCCESS) as [E | E].
    + subst gpiote_st. simpl. eexists. split; reflexivity.
    + apply Z.eqb_neq in E. rewrite E. simpl. rewrite ?E.
      eexists. split; reflexivity.
  - intros s'. destruct gi; simpl.
    + intros H; inversion H; subst. reflexivity.
    + destruct (Z.eqb_spec gpiote_st NRF_SUCCESS) as [E | E].
      * subst gpiote_st. simpl. intros H; inversion H; subst. reflexivity.
      * pose proof E as E'. apply Z.eqb_neq in E'. rewrite E'. simpl.
        rewrite ?E'. intros H; inversion H; subst. congruence.
Qed.

Lemma gpiote_init_is_idempotent_witness :
  exists s',
    gpiote_init ready_platform
      = SReturns (nrf_drv_gpiote_init_status ready_platform) s' /\
    service_calls s'
    = service_calls ready_platform ++ [nrf_drv_gpiote_init_called].
Proof.
  refine (match gpiote_init_is_idempotent ready_platform with
          | conj _ (conj Hfirst _) => Hfirst eq_refl
          end).
Defined.

(* ------------------------------------------------------------------ *)
(** ** Start-up, and samples below zero *)

(** X22: initialisation leaves the module ready to be enabled.  After
    [m_batt_meas_init] has returned for a non-NULL parameter block,
    [m_batt_meas_enable] with an acceptable interval and a timer that answers
    success returns success: the calibration has released the converter, so
    the immediate conversion is triggered, and the timer is armed. *)
Theorem m_batt_meas_enable_after_init :
  forall res hd init fuel w code w' limit ms s,
    m_batt_meas_init res (Some hd) (Some init) fuel w = Returns code w' ->
    limit <= ms ->
    app_timer_create_status s = NRF_SUCCESS ->
    app_timer_start_status s = NRF_SUCCESS ->
    exists s',
      m_batt_meas_enable limit ms (set_core w' s)
        = SReturns M_BATT_STATUS_CODE_SUCCESS s' /\
      timer_armed s' = Some ms /\
      core s' = conversion_triggered w' /\
      m_batt_meas_param (core s') = batt_meas_param init.
Proof.
  intros res hd init fuel w code w' limit ms s Hinit Hms Hc Hst.
  destruct (m_batt_meas_init_returns _ _ _ _ _ _ _ Hinit)
    as [(_ & _ & [Hn | Hn]) | (_ & init' & h & Hi & _ & _ & Hp & _ & _ & _ & _ & Hs)];
    try discriminate.
  inversion Hi; subst init'; clear Hi.
  rewrite m_batt_meas_enable_released;
    [ | exact Hms | simpl; rewrite Hs; reflexivity].
  cbv zeta. simpl app_timer_create_status. simpl app_timer_start_status.
  rewrite Hc, Hst. simpl.
  eexists. split; [reflexivity | ]. simpl. auto.
Qed.

Lemma m_batt_meas_enable_after_init_witness :
  exists s',
    m_batt_meas_enable 1000 60000
      (set_core
         (set_calls [nrf_gpio_cfg_input_called 28; nrf_drv_saadc_init_called;
                     nrf_drv_saadc_calibrate_offset_called;
                     nrf_drv_saadc_uninit_called] ready_world)
         ready_platform)
      = SReturns M_BATT_STATUS_CODE_SUCCESS s' /\
    timer_armed s' = Some 60000 /\
    core s'
    = conversion_triggered
        (set_calls [nrf_gpio_cfg_input_called 28; nrf_drv_saadc_init_called;
                    nrf_drv_saadc_calibrate_offset_called;
                    nrf_drv_saadc_uninit_called] ready_world) /\
    m_batt_meas_param (core s') = batt_meas_param example_init.
Proof.
  refine (m_batt_meas_enable_after_init 1 100 example_init 4 reset_world
            _ _ 1000 60000 ready_platform _ _ eq_refl eq_refl).
  - vm_compute. reflexivity.
  - lia.
Defined.

Lemma all_from_spec f n :
  forall first, all_from f first n = true ->
  forall z, first <= z < first + Z.of_nat n -> f z = true.
Proof.
  induction n as [ | n IH]; intros first H z Hz.
  - simpl in Hz. lia.
  - simpl in H. apply andb_true_iff in H. destruct H as [H0 H1].
    destruct (Z.eq_dec z first) as [-> | Hne]; [exact H0 | ].
    apply (IH (first + 1) H1). lia.
Qed.

Lemma negative_sample_undefined_all sample :
  - 32768 <= sample < 0 -> negative_sample_undefined 1 sample = true.
Proof.
  intros Hs.
  apply (all_from_spec (negative_sample_undefined 1) (Z.to_nat 32768)
           (- 32768)); [vm_compute; reflexivity | ].
  change (Z.of_nat (Z.to_nat 32768)) with 32768. lia.
Qed.

(** X23: samples below zero.  The sample is an [int16_t] but is passed to
    the conversion as a [uint32_t]: with the 1:1 divider and a 10-bit
    conversion, every negative sample becomes a code above four thousand
    million whose voltage does not fit the [uint16_t] it is cast to, so the
    interrupt handler's behaviour is undefined for each of the 32768
    negative samples. *)
Theorem negative_sample_is_undefined :
  forall sample w,
    - 32768 <= sample < 0 ->
    m_battery_divider_factor w = equal_divider_factor ->
    saadc_event_handler_interrupt 1 (NRF_DRV_SAADC_EVT_DONE sample) w
      = Undefined.
Proof.
  intros sample w Hs Hf.
  pose proof (negative_sample_undefined_all sample Hs) as H.
  unfold negative_sample_undefined in H.
  unfold saadc_event_handler_interrupt.
  unfold bind at 1. unfold bind at 1.
  rewrite adc_to_batt_voltage_eq, Hf.
  destruct (adc_to_tmp_voltage 1 equal_divider_factor (f32_of_Z 1)
              (to_uint32 sample)); [discriminate | reflexivity].
Qed.

Lemma negative_sample_is_undefined_witness :
  saadc_event_handler_interrupt 1 (NRF_DRV_SAADC_EVT_DONE (- 1)) sampling_world
    = Undefined.
Proof.
  apply negative_sample_is_undefined; [lia | reflexivity].
Defined.
